(** * MediaCodecVideoDecoder: a shallow embedding of the decoder driver

    The development follows media/gpu/android/media_codec_video_decoder.cc:
    the process-wide polling manager [MCVDManager], then the decoder state
    machine ([QueueInput], [DequeueOutput], [DoIOTask], [Reset], [Destroy],
    ...), with the hardware codec, the picture buffer manager and the codec
    allocator seen as an environment that answers each call. *)

From stdpp Require Import gmap list strings.
From Stdlib Require Import ZArith Lia.

#[local] Set Warnings "-clear-no-such-hyp".

(** ** The shared polling manager *)

Module MCVDManager.

(** Decoder instances are identified by their address. *)
Definition Instance := nat.

Record t := Build {
  timer_mcvd_instances_ : gset Instance;
  timer_running_ : bool;
  pending_erase_ : gset Instance;
  io_timer_IsRunning : bool
}.

(** The lazily constructed singleton. *)
Definition initial : t :=
  {| timer_mcvd_instances_ := ∅; timer_running_ := false;
     pending_erase_ := ∅; io_timer_IsRunning := false |}.

Definition StartTimer (mcvd : Instance) (m : t) : t :=
  let instances := {[mcvd]} ∪ timer_mcvd_instances_ m in
  let pending :=
    if timer_running_ m then pending_erase_ m ∖ {[mcvd]}
    else pending_erase_ m in
  {| timer_mcvd_instances_ := instances;
     timer_running_ := timer_running_ m;
     pending_erase_ := pending;
     (* io_timer_.Start unless it IsRunning already *)
     io_timer_IsRunning := true |}.

Definition StopTimer (mcvd : Instance) (m : t) : t :=
  if timer_running_ m then
    {| timer_mcvd_instances_ := timer_mcvd_instances_ m;
       timer_running_ := timer_running_ m;
       pending_erase_ := {[mcvd]} ∪ pending_erase_ m;
       io_timer_IsRunning := io_timer_IsRunning m |}
  else
    let instances := timer_mcvd_instances_ m ∖ {[mcvd]} in
    {| timer_mcvd_instances_ := instances;
       timer_running_ := timer_running_ m;
       pending_erase_ := pending_erase_ m;
       io_timer_IsRunning :=
         if decide (instances = ∅) then false else io_timer_IsRunning m |}.

(** What one decoder asks of the manager: every call in the decoder passes
    [this]. *)
Inductive TimerRequest := RequestStart | RequestStop.

Definition serve (mcvd : Instance) (m : t) (r : TimerRequest) : t :=
  match r with
  | RequestStart => StartTimer mcvd m
  | RequestStop => StopTimer mcvd m
  end.

(** [mcvd->DoIOTask(false)] as the manager sees it: the requests the
    instance makes for itself while it runs. *)
Definition call_DoIOTask (io : Instance → list TimerRequest)
    (m : t) (mcvd : Instance) : t :=
  foldl (serve mcvd) m (io mcvd).

Definition set_timer_running_ (b : bool) (m : t) : t :=
  {| timer_mcvd_instances_ := timer_mcvd_instances_ m;
     timer_running_ := b;
     pending_erase_ := pending_erase_ m;
     io_timer_IsRunning := io_timer_IsRunning m |}.

(** The body of the [AutoReset] scope: the pass over the instances. *)
Definition RunTimer_pass (io : Instance → list TimerRequest) (m : t) : t :=
  foldl (call_DoIOTask io) (set_timer_running_ true m)
        (elements (timer_mcvd_instances_ m)).

Definition RunTimer (io : Instance → list TimerRequest) (m : t) : t :=
  let saved := timer_running_ m in
  let m1 := set_timer_running_ saved (RunTimer_pass io m) in
  let m2 := foldl (λ acc mcvd, StopTimer mcvd acc) m1
                  (elements (pending_erase_ m1)) in
  {| timer_mcvd_instances_ := timer_mcvd_instances_ m2;
     timer_running_ := timer_running_ m2;
     pending_erase_ := ∅;
     io_timer_IsRunning := io_timer_IsRunning m2 |}.

(** Operations reaching the manager from outside a tick, and the tick
    itself, which only fires while the repeating timer runs. *)
Inductive Op :=
| OpStartTimer (mcvd : Instance)
| OpStopTimer (mcvd : Instance)
| OpTick (io : Instance → list TimerRequest).

Definition step (m : t) (o : Op) : t :=
  match o with
  | OpStartTimer i => StartTimer i m
  | OpStopTimer i => StopTimer i m
  | OpTick io => if io_timer_IsRunning m then RunTimer io m else m
  end.

Definition run (ops : list Op) : t := foldl step initial ops.

(** Outside a tick: nothing deferred, and the timer runs exactly when an
    instance is registered. *)
Definition quiescent (m : t) : Prop :=
  timer_running_ m = false ∧ pending_erase_ m = ∅ ∧
  (io_timer_IsRunning m = true ↔ timer_mcvd_instances_ m ≠ ∅).

(** The timer runs exactly when an instance is registered. *)
Definition timer_matches (m : t) : Prop :=
  io_timer_IsRunning m = true ↔ timer_mcvd_instances_ m ≠ ∅.

End MCVDManager.
(** ** Data of the decoder *)

Inductive State :=
| NO_ERROR | ERROR | WAITING_FOR_CODEC | WAITING_FOR_KEY | SURFACE_DESTROYED.

Inductive DrainType :=
| DRAIN_TYPE_NONE | DRAIN_FOR_FLUSH | DRAIN_FOR_RESET | DRAIN_FOR_DESTROY.

(** The statuses the file names; [MEDIA_CODEC_ABORT] stands for every other
    value of the enum (declared in media_codec_bridge.h), which the code
    sends to its [default:] branches. *)
Inductive MediaCodecStatus :=
| MEDIA_CODEC_OK
| MEDIA_CODEC_DEQUEUE_INPUT_AGAIN_LATER
| MEDIA_CODEC_DEQUEUE_OUTPUT_AGAIN_LATER
| MEDIA_CODEC_OUTPUT_BUFFERS_CHANGED
| MEDIA_CODEC_OUTPUT_FORMAT_CHANGED
| MEDIA_CODEC_NO_KEY
| MEDIA_CODEC_ABORT
| MEDIA_CODEC_ERROR.

(** [VideoDecodeAccelerator::Error]. *)
Inductive Error :=
| ILLEGAL_STATE | INVALID_ARGUMENT | UNREADABLE_INPUT | PLATFORM_FAILURE.

(** The codecs the file names; [kUnknownVideoCodec] and [kCodecTheora] stand
    for the kinds it does not name. *)
Inductive VideoCodec :=
| kUnknownVideoCodec | kCodecH264 | kCodecTheora
| kCodecVP8 | kCodecVP9 | kCodecHEVC.

Inductive TaskType := AUTO_CODEC | SW_CODEC | FAILED_CODEC.

Inductive OutputMode := ALLOCATE | IMPORT.

#[global] Instance State_eq_dec : EqDecision State.
Proof. solve_decision. Defined.
#[global] Instance DrainType_eq_dec : EqDecision DrainType.
Proof. solve_decision. Defined.
#[global] Instance MediaCodecStatus_eq_dec : EqDecision MediaCodecStatus.
Proof. solve_decision. Defined.
#[global] Instance VideoCodec_eq_dec : EqDecision VideoCodec.
Proof. solve_decision. Defined.
#[global] Instance TaskType_eq_dec : EqDecision TaskType.
Proof. solve_decision. Defined.
#[global] Instance OutputMode_eq_dec : EqDecision OutputMode.
Proof. solve_decision. Defined.

(** [gfx::Size]. *)
Record Size := { width : Z; height : Z }.

#[global] Instance Size_eq_dec : EqDecision Size.
Proof. solve_decision. Defined.

(** [SurfaceManager::kNoSurfaceID]. *)
Definition kNoSurfaceID : Z := (-1)%Z.

(** [base::TimeDelta] and [base::TimeTicks] count microseconds; a null
    [TimeTicks] is zero. *)
Definition IdleTimerTimeOut : Z := 1000000%Z.

(** Max number of bitstreams notified to the client with
    NotifyEndOfBitstreamBuffer() before getting output from the bitstream. *)
Definition kMaxBitstreamsNotifiedInAdvance : nat := 32.

(** [BitstreamBuffer]: the shared memory handle names the payload. *)
Record BitstreamBuffer := {
  id : Z;
  handle : Z;
  size : Z;
  presentation_timestamp : Z;
  key_id : string;
  iv : string;
  subsamples : list (Z * Z)
}.

(** [BitstreamRecord]: [memory] is the owned [SharedMemoryRegion], named by
    the handle it was built from; [None] is the null pointer. *)
Record BitstreamRecord := {
  buffer : BitstreamBuffer;
  memory : option Z
}.

(** BitstreamRecord::BitstreamRecord(const BitstreamBuffer&) *)
Definition make_BitstreamRecord (bitstream_buffer : BitstreamBuffer)
    : BitstreamRecord :=
  {| buffer := bitstream_buffer;
     memory := if decide (id bitstream_buffer ≠ (-1)%Z)
               then Some (handle bitstream_buffer) else None |}.

(** BitstreamBuffer(-1, base::SharedMemoryHandle(), 0) *)
Definition eos_BitstreamBuffer : BitstreamBuffer :=
  {| id := (-1)%Z; handle := 0%Z; size := 0%Z; presentation_timestamp := 0%Z;
     key_id := EmptyString; iv := EmptyString; subsamples := [] |}.

(** [PictureBuffer]: its id and its size. *)
Record PictureBuffer := { pb_id : Z; pb_size : Size }.

(** picture_buffer.set_size(size) *)
Definition pb_set_size (size : Size) (b : PictureBuffer) : PictureBuffer :=
  {| pb_id := pb_id b; pb_size := size |}.

Record Picture := {
  picture_buffer_id_of : Z;
  bitstream_buffer_id_of : Z;
  visible_rect : Size;
  allow_overlay_of : bool;
  size_changed_of : bool
}.

(** [VideoDecodeAccelerator::Config], the fields the decoder reads. *)
Record Config := {
  output_mode : OutputMode;
  profile : Z;
  initial_expected_coded_size : Size;
  surface_id : Z;
  is_encrypted : bool;
  is_deferred_initialization_allowed : bool;
  sps : list Z;
  pps : list Z
}.

Definition set_surface_id (v : Z) (c : Config) : Config :=
  {| output_mode := output_mode c; profile := profile c;
     initial_expected_coded_size := initial_expected_coded_size c;
     surface_id := v; is_encrypted := is_encrypted c;
     is_deferred_initialization_allowed := is_deferred_initialization_allowed c;
     sps := sps c; pps := pps c |}.

(** [CodecConfig]; [surface_IsEmpty] is what the code asks of [surface_]. *)
Record CodecConfig := {
  codec_ : VideoCodec;
  initial_expected_coded_size_ : Size;
  csd0_ : list Z;
  csd1_ : list Z;
  task_type_ : TaskType;
  surface_IsEmpty : bool
}.

(** new CodecConfig() *)
Definition new_CodecConfig : CodecConfig :=
  {| codec_ := kUnknownVideoCodec;
     initial_expected_coded_size_ := {| width := 0; height := 0 |};
     csd0_ := []; csd1_ := []; task_type_ := AUTO_CODEC;
     surface_IsEmpty := true |}.

Definition set_codec_ (v : VideoCodec) (c : CodecConfig) : CodecConfig :=
  {| codec_ := v;
     initial_expected_coded_size_ := initial_expected_coded_size_ c;
     csd0_ := csd0_ c; csd1_ := csd1_ c; task_type_ := task_type_ c;
     surface_IsEmpty := surface_IsEmpty c |}.

Definition set_initial_expected_coded_size_ (v : Size) (c : CodecConfig)
    : CodecConfig :=
  {| codec_ := codec_ c; initial_expected_coded_size_ := v;
     csd0_ := csd0_ c; csd1_ := csd1_ c; task_type_ := task_type_ c;
     surface_IsEmpty := surface_IsEmpty c |}.

Definition set_csd (v0 v1 : list Z) (c : CodecConfig) : CodecConfig :=
  {| codec_ := codec_ c;
     initial_expected_coded_size_ := initial_expected_coded_size_ c;
     csd0_ := v0; csd1_ := v1; task_type_ := task_type_ c;
     surface_IsEmpty := surface_IsEmpty c |}.

Definition set_task_type_ (v : TaskType) (c : CodecConfig) : CodecConfig :=
  {| codec_ := codec_ c;
     initial_expected_coded_size_ := initial_expected_coded_size_ c;
     csd0_ := csd0_ c; csd1_ := csd1_ c; task_type_ := v;
     surface_IsEmpty := surface_IsEmpty c |}.

Definition set_surface_IsEmpty (v : bool) (c : CodecConfig) : CodecConfig :=
  {| codec_ := codec_ c;
     initial_expected_coded_size_ := initial_expected_coded_size_ c;
     csd0_ := csd0_ c; csd1_ := csd1_ c; task_type_ := task_type_ c;
     surface_IsEmpty := v |}.

(** ** The pending timestamp map

    [std::map<base::TimeDelta, int32_t>]: the entries in increasing key
    order, which is the order [begin()] ... [end()] walks them in. *)

Definition TimestampMap := list (Z * Z).

(** m[t] = v *)
Fixpoint ts_assign (t v : Z) (m : TimestampMap) : TimestampMap :=
  match m with
  | [] => [(t, v)]
  | (k, w) :: rest =>
      if (t <? k)%Z then (t, v) :: (k, w) :: rest
      else if (t =? k)%Z then (t, v) :: rest
      else (k, w) :: ts_assign t v rest
  end.

(** m.find(t): [Some it->second], or [None] for [end()]. *)
Fixpoint ts_find (t : Z) (m : TimestampMap) : option Z :=
  match m with
  | [] => None
  | (k, w) :: rest => if (k =? t)%Z then Some w else ts_find t rest
  end.

(** m.erase(m.begin(), ++it) for it = m.find(t), which is not [end()]. *)
Fixpoint ts_erase_through (t : Z) (m : TimestampMap) : TimestampMap :=
  match m with
  | [] => []
  | (k, w) :: rest => if (k =? t)%Z then rest else ts_erase_through t rest
  end.

(** The order a [std::map] keeps. *)
Fixpoint ts_sorted (m : TimestampMap) : Prop :=
  match m with
  | [] => True
  | (k, _) :: rest => Forall (λ e, (k < e.1)%Z) rest ∧ ts_sorted rest
  end.

(** The pass over [bitstreams_notified_in_advance_] in DequeueOutput: erase
    from the front through the first occurrence of the id, or nothing. *)
Fixpoint erase_through_first (bitstream_buffer_id : Z) (l : list Z)
    : option (list Z) :=
  match l with
  | [] => None
  | x :: rest =>
      if (x =? bitstream_buffer_id)%Z then Some rest
      else erase_through_first bitstream_buffer_id rest
  end.

Definition erase_notified (bitstream_buffer_id : Z) (l : list Z) : list Z :=
  default l (erase_through_first bitstream_buffer_id l).

(** ** What the decoder does to the outside *)

Module MediaCodec.
Inductive Call :=
| DequeueInputBuffer
| QueueInputBuffer (index : Z) (data : option Z) (data_size : Z) (pts : Z)
| QueueSecureInputBuffer (index : Z) (data : option Z) (data_size : Z)
    (key iv_ : string) (subs : list (Z * Z)) (pts : Z)
| QueueEOS (index : Z)
| DequeueOutputBuffer
| GetOutputSize
| ReleaseOutputBuffer (index : Z) (render : bool)
| Flush
| SetSurface.
End MediaCodec.

(** AVDACodecAllocator *)
Module Allocator.
Inductive Call :=
| AllocateSurface (surface : Z)
| DeallocateSurface (surface : Z)
| StartThread
| StopThread
| TaskTypeForAllocation
| CreateMediaCodecAsync
| ReleaseMediaCodec (task : TaskType) (surface : Z).
End Allocator.

(** AVDAPictureBufferManager *)
Module PictureBufferManager.
Inductive Call :=
| Initialize (surface : Z)
| Destroy
| MaybeRenderEarly
| HasUnrenderedPictures
| ArePicturesOverlayable
| CodecChanged (codec : bool)
| ReleaseCodecBuffers
| UseCodecBufferForPictureBuffer (codec_buffer_index : Z) (picture : Z).
End PictureBufferManager.

(** Tasks posted to the decoder's own thread through a weak pointer. *)
Inductive Task :=
| NotifyEndOfBitstreamBuffer (bitstream_buffer_id : Z)
| NotifyFlushDone
| NotifyResetDone
| ActualDestroyTask.

Inductive Event :=
| ClientNotifyError (e : Error)
| PostTask (t : Task)
| CallNotifyFlushDone
| CallNotifyPictureReady (p : Picture)
| CallNotifyInitializationComplete (success : bool)
| Codec (c : MediaCodec.Call)
| Alloc (c : Allocator.Call)
| PictureBuffers (c : PictureBufferManager.Call)
| SharedMemoryCloseHandle (h : Z)
| CdmRegisterPlayer
| CdmSetMediaCryptoReadyCB
| CdmUnregisterPlayer.

(** ** The environment

    Every call that leaves the decoder is answered by the environment. The
    answers are indexed by the number of questions asked so far ([clock]), so
    that an environment is any sequence of answers. Output parameters are
    [None] when the callee leaves them untouched. *)

Record DequeueOutputAnswer := {
  out_status : MediaCodecStatus;
  out_index : option Z;
  out_presentation_timestamp : option Z;
  out_end_of_stream : option bool
}.

Record Env := {
  ENABLE_HEVC_DEMUXING : bool;
  ENABLE_MOJO_MEDIA_IN_GPU_PROCESS : bool;
  VideoCodecProfileToVideoCodec : Z → VideoCodec;
  env_DequeueInputBuffer : nat → MediaCodecStatus * option Z;
  env_Map : nat → bool;
  env_QueueInputBuffer : nat → MediaCodecStatus;
  env_DequeueOutputBuffer : nat → DequeueOutputAnswer;
  env_GetOutputSize : nat → MediaCodecStatus * option Size;
  env_SetSurface : nat → bool;
  env_make_context_current : nat → bool;
  env_get_gles2_decoder : nat → bool;
  env_HasUnrenderedPictures : nat → bool;
  env_ArePicturesOverlayable : nat → bool;
  env_UseCodecBufferForPictureBuffer : nat → bool;
  env_Initialize_IsEmpty : nat → bool;
  env_AllocateSurface : nat → bool;
  env_StartThread : nat → bool;
  env_TaskTypeForAllocation : nat → TaskType;
  env_IsAnyRegisteredAVDA : nat → bool;
  env_CodecNeedsFlushWorkaround : nat → bool;
  env_IsKnownUnaccelerated : nat → VideoCodec → bool;
  env_IsMediaCodecSoftwareDecodingForbidden : nat → bool;
  env_sdk_int : nat → Z;
  env_IsLowEndDevice : nat → bool;
  env_IsHandleValid : nat → bool;
  env_Now : nat → Z
}.

(** ** The decoder object *)

Record MCVD := Build_MCVD {
  this_ : MCVDManager.Instance;
  client_ : bool;
  make_context_current_cb_is_null : bool;
  get_gles2_decoder_cb_is_null : bool;
  state_ : State;
  drain_type_ : DrainType;
  pending_bitstream_records_ : list BitstreamRecord;
  bitstream_buffers_in_decoder_ : TimestampMap;
  bitstreams_notified_in_advance_ : list Z;
  pending_input_buf_index_ : Z;
  free_picture_ids_ : list Z;
  output_picture_buffers_ : gmap Z PictureBuffer;
  size_ : Size;
  media_codec_ : bool;
  media_drm_bridge_cdm_context_ : bool;
  config_ : Config;
  codec_config_ : CodecConfig;
  pending_surface_id_ : option Z;
  deferred_initialization_pending_ : bool;
  codec_needs_reset_ : bool;
  defer_surface_creation_ : bool;
  most_recent_work_ : Z;
  weak_ptrs_invalidated_ : bool;
  deleted_ : bool;
  g_mcvd_manager : MCVDManager.t;
  trace : list Event;
  clock : nat
}.
(** Field updates: every other field is kept. *)

Definition set_client_ (v : bool) (s : MCVD) : MCVD :=
  Build_MCVD (this_ s) v (make_context_current_cb_is_null s)
    (get_gles2_decoder_cb_is_null s) (state_ s) (drain_type_ s)
    (pending_bitstream_records_ s) (bitstream_buffers_in_decoder_ s)
    (bitstreams_notified_in_advance_ s) (pending_input_buf_index_ s)
    (free_picture_ids_ s) (output_picture_buffers_ s) (size_ s)
    (media_codec_ s) (media_drm_bridge_cdm_context_ s) (config_ s)
    (codec_config_ s) (pending_surface_id_ s)
    (deferred_initialization_pending_ s) (codec_needs_reset_ s)
    (defer_surface_creation_ s) (most_recent_work_ s)
    (weak_ptrs_invalidated_ s) (deleted_ s) (g_mcvd_manager s) (trace s)
    (clock s).

Definition set_state_ (v : State) (s : MCVD) : MCVD :=
  Build_MCVD (this_ s) (client_ s) (make_context_current_cb_is_null s)
    (get_gles2_decoder_cb_is_null s) v (drain_type_ s)
    (pending_bitstream_records_ s) (bitstream_buffers_in_decoder_ s)
    (bitstreams_notified_in_advance_ s) (pending_input_buf_index_ s)
    (free_picture_ids_ s) (output_picture_buffers_ s) (size_ s)
    (media_codec_ s) (media_drm_bridge_cdm_context_ s) (config_ s)
    (codec_config_ s) (pending_surface_id_ s)
    (deferred_initialization_pending_ s) (codec_needs_reset_ s)
    (defer_surface_creation_ s) (most_recent_work_ s)
    (weak_ptrs_invalidated_ s) (deleted_ s) (g_mcvd_manager s) (trace s)
    (clock s).

Definition set_drain_type_ (v : DrainType) (s : MCVD) : MCVD :=
  Build_MCVD (this_ s) (client_ s) (make_context_current_cb_is_null s)
    (get_gles2_decoder_cb_is_null s) (state_ s) v
    (pending_bitstream_records_ s) (bitstream_buffers_in_decoder_ s)
    (bitstreams_notified_in_advance_ s) (pending_input_buf_index_ s)
    (free_picture_ids_ s) (output_picture_buffers_ s) (size_ s)
    (media_codec_ s) (media_drm_bridge_cdm_context_ s) (config_ s)
    (codec_config_ s) (pending_surface_id_ s)
    (deferred_initialization_pending_ s) (codec_needs_reset_ s)
    (defer_surface_creation_ s) (most_recent_work_ s)
    (weak_ptrs_invalidated_ s) (deleted_ s) (g_mcvd_manager s) (trace s)
    (clock s).

Definition set_pending_bitstream_records_ (v : list BitstreamRecord) (s : MCVD) : MCVD :=
  Build_MCVD (this_ s) (client_ s) (make_context_current_cb_is_null s)
    (get_gles2_decoder_cb_is_null s) (state_ s) (drain_type_ s) v
    (bitstream_buffers_in_decoder_ s) (bitstreams_notified_in_advance_ s)
    (pending_input_buf_index_ s) (free_picture_ids_ s)
    (output_picture_buffers_ s) (size_ s) (media_codec_ s)
    (media_drm_bridge_cdm_context_ s) (config_ s) (codec_config_ s)
    (pending_surface_id_ s) (deferred_initialization_pending_ s)
    (codec_needs_reset_ s) (defer_surface_creation_ s) (most_recent_work_ s)
    (weak_ptrs_invalidated_ s) (deleted_ s) (g_mcvd_manager s) (trace s)
    (clock s).

Definition set_bitstream_buffers_in_decoder_ (v : TimestampMap) (s : MCVD) : MCVD :=
  Build_MCVD (this_ s) (client_ s) (make_context_current_cb_is_null s)
    (get_gles2_decoder_cb_is_null s) (state_ s) (drain_type_ s)
    (pending_bitstream_records_ s) v (bitstreams_notified_in_advance_ s)
    (pending_input_buf_index_ s) (free_picture_ids_ s)
    (output_picture_buffers_ s) (size_ s) (media_codec_ s)
    (media_drm_bridge_cdm_context_ s) (config_ s) (codec_config_ s)
    (pending_surface_id_ s) (deferred_initialization_pending_ s)
    (codec_needs_reset_ s) (defer_surface_creation_ s) (most_recent_work_ s)
    (weak_ptrs_invalidated_ s) (deleted_ s) (g_mcvd_manager s) (trace s)
    (clock s).

Definition set_bitstreams_notified_in_advance_ (v : list Z) (s : MCVD) : MCVD :=
  Build_MCVD (this_ s) (client_ s) (make_context_current_cb_is_null s)
    (get_gles2_decoder_cb_is_null s) (state_ s) (drain_type_ s)
    (pending_bitstream_records_ s) (bitstream_buffers_in_decoder_ s) v
    (pending_input_buf_index_ s) (free_picture_ids_ s)
    (output_picture_buffers_ s) (size_ s) (media_codec_ s)
    (media_drm_bridge_cdm_context_ s) (config_ s) (codec_config_ s)
    (pending_surface_id_ s) (deferred_initialization_pending_ s)
    (codec_needs_reset_ s) (defer_surface_creation_ s) (most_recent_work_ s)
    (weak_ptrs_invalidated_ s) (deleted_ s) (g_mcvd_manager s) (trace s)
    (clock s).

Definition set_pending_input_buf_index_ (v : Z) (s : MCVD) : MCVD :=
  Build_MCVD (this_ s) (client_ s) (make_context_current_cb_is_null s)
    (get_gles2_decoder_cb_is_null s) (state_ s) (drain_type_ s)
    (pending_bitstream_records_ s) (bitstream_buffers_in_decoder_ s)
    (bitstreams_notified_in_advance_ s) v (free_picture_ids_ s)
    (output_picture_buffers_ s) (size_ s) (media_codec_ s)
    (media_drm_bridge_cdm_context_ s) (config_ s) (codec_config_ s)
    (pending_surface_id_ s) (deferred_initialization_pending_ s)
    (codec_needs_reset_ s) (defer_surface_creation_ s) (most_recent_work_ s)
    (weak_ptrs_invalidated_ s) (deleted_ s) (g_mcvd_manager s) (trace s)
    (clock s).

Definition set_free_picture_ids_ (v : list Z) (s : MCVD) : MCVD :=
  Build_MCVD (this_ s) (client_ s) (make_context_current_cb_is_null s)
    (get_gles2_decoder_cb_is_null s) (state_ s) (drain_type_ s)
    (pending_bitstream_records_ s) (bitstream_buffers_in_decoder_ s)
    (bitstreams_notified_in_advance_ s) (pending_input_buf_index_ s) v
    (output_picture_buffers_ s) (size_ s) (media_codec_ s)
    (media_drm_bridge_cdm_context_ s) (config_ s) (codec_config_ s)
    (pending_surface_id_ s) (deferred_initialization_pending_ s)
    (codec_needs_reset_ s) (defer_surface_creation_ s) (most_recent_work_ s)
    (weak_ptrs_invalidated_ s) (deleted_ s) (g_mcvd_manager s) (trace s)
    (clock s).

Definition set_output_picture_buffers_ (v : gmap Z PictureBuffer) (s : MCVD) : MCVD :=
  Build_MCVD (this_ s) (client_ s) (make_context_current_cb_is_null s)
    (get_gles2_decoder_cb_is_null s) (state_ s) (drain_type_ s)
    (pending_bitstream_records_ s) (bitstream_buffers_in_decoder_ s)
    (bitstreams_notified_in_advance_ s) (pending_input_buf_index_ s)
    (free_picture_ids_ s) v (size_ s) (media_codec_ s)
    (media_drm_bridge_cdm_context_ s) (config_ s) (codec_config_ s)
    (pending_surface_id_ s) (deferred_initialization_pending_ s)
    (codec_needs_reset_ s) (defer_surface_creation_ s) (most_recent_work_ s)
    (weak_ptrs_invalidated_ s) (deleted_ s) (g_mcvd_manager s) (trace s)
    (clock s).

Definition set_size_ (v : Size) (s : MCVD) : MCVD :=
  Build_MCVD (this_ s) (client_ s) (make_context_current_cb_is_null s)
    (get_gles2_decoder_cb_is_null s) (state_ s) (drain_type_ s)
    (pending_bitstream_records_ s) (bitstream_buffers_in_decoder_ s)
    (bitstreams_notified_in_advance_ s) (pending_input_buf_index_ s)
    (free_picture_ids_ s) (output_picture_buffers_ s) v (media_codec_ s)
    (media_drm_bridge_cdm_context_ s) (config_ s) (codec_config_ s)
    (pending_surface_id_ s) (deferred_initialization_pending_ s)
    (codec_needs_reset_ s) (defer_surface_creation_ s) (most_recent_work_ s)
    (weak_ptrs_invalidated_ s) (deleted_ s) (g_mcvd_manager s) (trace s)
    (clock s).

Definition set_media_codec_ (v : bool) (s : MCVD) : MCVD :=
  Build_MCVD (this_ s) (client_ s) (make_context_current_cb_is_null s)
    (get_gles2_decoder_cb_is_null s) (state_ s) (drain_type_ s)
    (pending_bitstream_records_ s) (bitstream_buffers_in_decoder_ s)
    (bitstreams_notified_in_advance_ s) (pending_input_buf_index_ s)
    (free_picture_ids_ s) (output_picture_buffers_ s) (size_ s) v
    (media_drm_bridge_cdm_context_ s) (config_ s) (codec_config_ s)
    (pending_surface_id_ s) (deferred_initialization_pending_ s)
    (codec_needs_reset_ s) (defer_surface_creation_ s) (most_recent_work_ s)
    (weak_ptrs_invalidated_ s) (deleted_ s) (g_mcvd_manager s) (trace s)
    (clock s).

Definition set_media_drm_bridge_cdm_context_ (v : bool) (s : MCVD) : MCVD :=
  Build_MCVD (this_ s) (client_ s) (make_context_current_cb_is_null s)
    (get_gles2_decoder_cb_is_null s) (state_ s) (drain_type_ s)
    (pending_bitstream_records_ s) (bitstream_buffers_in_decoder_ s)
    (bitstreams_notified_in_advance_ s) (pending_input_buf_index_ s)
    (free_picture_ids_ s) (output_picture_buffers_ s) (size_ s)
    (media_codec_ s) v (config_ s) (codec_config_ s) (pending_surface_id_ s)
    (deferred_initialization_pending_ s) (codec_needs_reset_ s)
    (defer_surface_creation_ s) (most_recent_work_ s)
    (weak_ptrs_invalidated_ s) (deleted_ s) (g_mcvd_manager s) (trace s)
    (clock s).

Definition set_config_ (v : Config) (s : MCVD) : MCVD :=
  Build_MCVD (this_ s) (client_ s) (make_context_current_cb_is_null s)
    (get_gles2_decoder_cb_is_null s) (state_ s) (drain_type_ s)
    (pending_bitstream_records_ s) (bitstream_buffers_in_decoder_ s)
    (bitstreams_notified_in_advance_ s) (pending_input_buf_index_ s)
    (free_picture_ids_ s) (output_picture_buffers_ s) (size_ s)
    (media_codec_ s) (media_drm_bridge_cdm_context_ s) v (codec_config_ s)
    (pending_surface_id_ s) (deferred_initialization_pending_ s)
    (codec_needs_reset_ s) (defer_surface_creation_ s) (most_recent_work_ s)
    (weak_ptrs_invalidated_ s) (deleted_ s) (g_mcvd_manager s) (trace s)
    (clock s).

Definition set_codec_config_ (v : CodecConfig) (s : MCVD) : MCVD :=
  Build_MCVD (this_ s) (client_ s) (make_context_current_cb_is_null s)
    (get_gles2_decoder_cb_is_null s) (state_ s) (drain_type_ s)
    (pending_bitstream_records_ s) (bitstream_buffers_in_decoder_ s)
    (bitstreams_notified_in_advance_ s) (pending_input_buf_index_ s)
    (free_picture_ids_ s) (output_picture_buffers_ s) (size_ s)
    (media_codec_ s) (media_drm_bridge_cdm_context_ s) (config_ s) v
    (pending_surface_id_ s) (deferred_initialization_pending_ s)
    (codec_needs_reset_ s) (defer_surface_creation_ s) (most_recent_work_ s)
    (weak_ptrs_invalidated_ s) (deleted_ s) (g_mcvd_manager s) (trace s)
    (clock s).

Definition set_pending_surface_id_ (v : option Z) (s : MCVD) : MCVD :=
  Build_MCVD (this_ s) (client_ s) (make_context_current_cb_is_null s)
    (get_gles2_decoder_cb_is_null s) (state_ s) (drain_type_ s)
    (pending_bitstream_records_ s) (bitstream_buffers_in_decoder_ s)
    (bitstreams_notified_in_advance_ s) (pending_input_buf_index_ s)
    (free_picture_ids_ s) (output_picture_buffers_ s) (size_ s)
    (media_codec_ s) (media_drm_bridge_cdm_context_ s) (config_ s)
    (codec_config_ s) v (deferred_initialization_pending_ s)
    (codec_needs_reset_ s) (defer_surface_creation_ s) (most_recent_work_ s)
    (weak_ptrs_invalidated_ s) (deleted_ s) (g_mcvd_manager s) (trace s)
    (clock s).

Definition set_deferred_initialization_pending_ (v : bool) (s : MCVD) : MCVD :=
  Build_MCVD (this_ s) (client_ s) (make_context_current_cb_is_null s)
    (get_gles2_decoder_cb_is_null s) (state_ s) (drain_type_ s)
    (pending_bitstream_records_ s) (bitstream_buffers_in_decoder_ s)
    (bitstreams_notified_in_advance_ s) (pending_input_buf_index_ s)
    (free_picture_ids_ s) (output_picture_buffers_ s) (size_ s)
    (media_codec_ s) (media_drm_bridge_cdm_context_ s) (config_ s)
    (codec_config_ s) (pending_surface_id_ s) v (codec_needs_reset_ s)
    (defer_surface_creation_ s) (most_recent_work_ s)
    (weak_ptrs_invalidated_ s) (deleted_ s) (g_mcvd_manager s) (trace s)
    (clock s).

Definition set_codec_needs_reset_ (v : bool) (s : MCVD) : MCVD :=
  Build_MCVD (this_ s) (client_ s) (make_context_current_cb_is_null s)
    (get_gles2_decoder_cb_is_null s) (state_ s) (drain_type_ s)
    (pending_bitstream_records_ s) (bitstream_buffers_in_decoder_ s)
    (bitstreams_notified_in_advance_ s) (pending_input_buf_index_ s)
    (free_picture_ids_ s) (output_picture_buffers_ s) (size_ s)
    (media_codec_ s) (media_drm_bridge_cdm_context_ s) (config_ s)
    (codec_config_ s) (pending_surface_id_ s)
    (deferred_initialization_pending_ s) v (defer_surface_creation_ s)
    (most_recent_work_ s) (weak_ptrs_invalidated_ s) (deleted_ s)
    (g_mcvd_manager s) (trace s) (clock s).

Definition set_defer_surface_creation_ (v : bool) (s : MCVD) : MCVD :=
  Build_MCVD (this_ s) (client_ s) (make_context_current_cb_is_null s)
    (get_gles2_decoder_cb_is_null s) (state_ s) (drain_type_ s)
    (pending_bitstream_records_ s) (bitstream_buffers_in_decoder_ s)
    (bitstreams_notified_in_advance_ s) (pending_input_buf_index_ s)
    (free_picture_ids_ s) (output_picture_buffers_ s) (size_ s)
    (media_codec_ s) (media_drm_bridge_cdm_context_ s) (config_ s)
    (codec_config_ s) (pending_surface_id_ s)
    (deferred_initialization_pending_ s) (codec_needs_reset_ s) v
    (most_recent_work_ s) (weak_ptrs_invalidated_ s) (deleted_ s)
    (g_mcvd_manager s) (trace s) (clock s).

Definition set_most_recent_work_ (v : Z) (s : MCVD) : MCVD :=
  Build_MCVD (this_ s) (client_ s) (make_context_current_cb_is_null s)
    (get_gles2_decoder_cb_is_null s) (state_ s) (drain_type_ s)
    (pending_bitstream_records_ s) (bitstream_buffers_in_decoder_ s)
    (bitstreams_notified_in_advance_ s) (pending_input_buf_index_ s)
    (free_picture_ids_ s) (output_picture_buffers_ s) (size_ s)
    (media_codec_ s) (media_drm_bridge_cdm_context_ s) (config_ s)
    (codec_config_ s) (pending_surface_id_ s)
    (deferred_initialization_pending_ s) (codec_needs_reset_ s)
    (defer_surface_creation_ s) v (weak_ptrs_invalidated_ s) (deleted_ s)
    (g_mcvd_manager s) (trace s) (clock s).

Definition set_weak_ptrs_invalidated_ (v : bool) (s : MCVD) : MCVD :=
  Build_MCVD (this_ s) (client_ s) (make_context_current_cb_is_null s)
    (get_gles2_decoder_cb_is_null s) (state_ s) (drain_type_ s)
    (pending_bitstream_records_ s) (bitstream_buffers_in_decoder_ s)
    (bitstreams_notified_in_advance_ s) (pending_input_buf_index_ s)
    (free_picture_ids_ s) (output_picture_buffers_ s) (size_ s)
    (media_codec_ s) (media_drm_bridge_cdm_context_ s) (config_ s)
    (codec_config_ s) (pending_surface_id_ s)
    (deferred_initialization_pending_ s) (codec_needs_reset_ s)
    (defer_surface_creation_ s) (most_recent_work_ s) v (deleted_ s)
    (g_mcvd_manager s) (trace s) (clock s).

Definition set_deleted_ (v : bool) (s : MCVD) : MCVD :=
  Build_MCVD (this_ s) (client_ s) (make_context_current_cb_is_null s)
    (get_gles2_decoder_cb_is_null s) (state_ s) (drain_type_ s)
    (pending_bitstream_records_ s) (bitstream_buffers_in_decoder_ s)
    (bitstreams_notified_in_advance_ s) (pending_input_buf_index_ s)
    (free_picture_ids_ s) (output_picture_buffers_ s) (size_ s)
    (media_codec_ s) (media_drm_bridge_cdm_context_ s) (config_ s)
    (codec_config_ s) (pending_surface_id_ s)
    (deferred_initialization_pending_ s) (codec_needs_reset_ s)
    (defer_surface_creation_ s) (most_recent_work_ s)
    (weak_ptrs_invalidated_ s) v (g_mcvd_manager s) (trace s) (clock s).

Definition set_g_mcvd_manager (v : MCVDManager.t) (s : MCVD) : MCVD :=
  Build_MCVD (this_ s) (client_ s) (make_context_current_cb_is_null s)
    (get_gles2_decoder_cb_is_null s) (state_ s) (drain_type_ s)
    (pending_bitstream_records_ s) (bitstream_buffers_in_decoder_ s)
    (bitstreams_notified_in_advance_ s) (pending_input_buf_index_ s)
    (free_picture_ids_ s) (output_picture_buffers_ s) (size_ s)
    (media_codec_ s) (media_drm_bridge_cdm_context_ s) (config_ s)
    (codec_config_ s) (pending_surface_id_ s)
    (deferred_initialization_pending_ s) (codec_needs_reset_ s)
    (defer_surface_creation_ s) (most_recent_work_ s)
    (weak_ptrs_invalidated_ s) (deleted_ s) v (trace s) (clock s).

Definition set_trace (v : list Event) (s : MCVD) : MCVD :=
  Build_MCVD (this_ s) (client_ s) (make_context_current_cb_is_null s)
    (get_gles2_decoder_cb_is_null s) (state_ s) (drain_type_ s)
    (pending_bitstream_records_ s) (bitstream_buffers_in_decoder_ s)
    (bitstreams_notified_in_advance_ s) (pending_input_buf_index_ s)
    (free_picture_ids_ s) (output_picture_buffers_ s) (size_ s)
    (media_codec_ s) (media_drm_bridge_cdm_context_ s) (config_ s)
    (codec_config_ s) (pending_surface_id_ s)
    (deferred_initialization_pending_ s) (codec_needs_reset_ s)
    (defer_surface_creation_ s) (most_recent_work_ s)
    (weak_ptrs_invalidated_ s) (deleted_ s) (g_mcvd_manager s) v (clock s).

Definition set_clock (v : nat) (s : MCVD) : MCVD :=
  Build_MCVD (this_ s) (client_ s) (make_context_current_cb_is_null s)
    (get_gles2_decoder_cb_is_null s) (state_ s) (drain_type_ s)
    (pending_bitstream_records_ s) (bitstream_buffers_in_decoder_ s)
    (bitstreams_notified_in_advance_ s) (pending_input_buf_index_ s)
    (free_picture_ids_ s) (output_picture_buffers_ s) (size_ s)
    (media_codec_ s) (media_drm_bridge_cdm_context_ s) (config_ s)
    (codec_config_ s) (pending_surface_id_ s)
    (deferred_initialization_pending_ s) (codec_needs_reset_ s)
    (defer_surface_creation_ s) (most_recent_work_ s)
    (weak_ptrs_invalidated_ s) (deleted_ s) (g_mcvd_manager s) (trace s) v.

(** ** A monad for the member functions

    A member function runs on the decoder object and either returns, or is
    still inside a loop when the fuel given to that loop is used up, or
    executes something the language leaves undefined (a call through a null
    pointer, [front()] of an empty queue). The object is returned in all
    three cases, as it stood at that point. DCHECKs are compiled out. *)

Inductive Outcome (A : Type) :=
| Returns (a : A)
| OutOfFuel
| Undefined.
Arguments Returns {A} a.
Arguments OutOfFuel {A}.
Arguments Undefined {A}.

Definition M (A : Type) : Type := MCVD → Outcome A * MCVD.

Definition ret {A} (a : A) : M A := λ s, (Returns a, s).

Definition bind {A B} (m : M A) (k : A → M B) : M B :=
  λ s, match m s with
       | (Returns a, s') => k a s'
       | (OutOfFuel, s') => (OutOfFuel, s')
       | (Undefined, s') => (Undefined, s')
       end.

Declare Scope mcvd_scope.
Delimit Scope mcvd_scope with mcvd.
Notation "x ← y ; z" := (bind y (fun x => z))
  (at level 20, y at level 100, z at level 200, only parsing) : mcvd_scope.
Notation "' x ← y ; z" := (bind y (fun x => z))
  (at level 20, x pattern, y at level 100, z at level 200, only parsing)
  : mcvd_scope.
Notation "y ;; z" := (bind y (fun _ => z))
  (at level 100, z at level 200, only parsing, right associativity)
  : mcvd_scope.
Open Scope mcvd_scope.

Definition gets {A} (f : MCVD → A) : M A := λ s, (Returns (f s), s).
Definition modify (f : MCVD → MCVD) : M unit := λ s, (Returns tt, f s).
Definition out_of_fuel {A} : M A := λ s, (OutOfFuel, s).
Definition undefined {A} : M A := λ s, (Undefined, s).

(** The trace holds the newest event first. *)
Definition emit (e : Event) : M unit := modify (λ s, set_trace (e :: trace s) s).

(** The next answer of the environment. *)
Definition ask {A} (answer : nat → A) : M A :=
  λ s, (Returns (answer (clock s)), set_clock (S (clock s)) s).

(** media_codec_->... : undefined on a null [media_codec_]. *)
Definition codec_do (c : MediaCodec.Call) : M unit :=
  has_codec ← gets media_codec_;
  if has_codec then emit (Codec c) else undefined.

Definition codec_ask {A} (c : MediaCodec.Call) (answer : nat → A) : M A :=
  codec_do c;; ask answer.

Definition alloc_ask {A} (c : Allocator.Call) (answer : nat → A) : M A :=
  emit (Alloc c);; ask answer.

Definition pbm_ask {A} (c : PictureBufferManager.Call) (answer : nat → A)
    : M A :=
  emit (PictureBuffers c);; ask answer.

Definition when (b : bool) (m : M unit) : M unit := if b then m else ret tt.

(** g_mcvd_manager.Get().StartTimer(this) and StopTimer(this) *)
Definition manager_StartTimer : M unit :=
  modify (λ s, set_g_mcvd_manager
                 (MCVDManager.StartTimer (this_ s) (g_mcvd_manager s)) s).
Definition manager_StopTimer : M unit :=
  modify (λ s, set_g_mcvd_manager
                 (MCVDManager.StopTimer (this_ s) (g_mcvd_manager s)) s).

(** ** Free functions of the file *)

Section Decoder.

Variable env : Env.

Local Open Scope Z_scope.

(** ShouldDeferSurfaceCreation *)
Definition ShouldDeferSurfaceCreation (surface_id : Z) (codec : VideoCodec)
    : M bool :=
  if bool_decide (surface_id = kNoSurfaceID) && bool_decide (codec = kCodecH264)
  then
    registered ← ask (env_IsAnyRegisteredAVDA env);
    if registered then
      sdk ← ask (env_sdk_int env);
      if sdk <=? 18 then ret true else ask (env_IsLowEndDevice env)
    else ret false
  else ret false.

(** [VideoDecoderConfig], the part the two free functions below read. *)
Record VideoDecoderConfig := {
  vdc_codec : VideoCodec;
  vdc_coded_size : Size;
  vdc_is_encrypted : bool
}.

(** What the platform says about its codecs, for [ConfigSupported]. *)
Record Platform := {
  IsKnownUnaccelerated : VideoCodec → bool;
  IsVp8DecoderAvailable : bool;
  IsVp9DecoderAvailable : bool
}.

(** IsMediaCodecSoftwareDecodingForbidden(const VideoDecoderConfig&) *)
Definition IsMediaCodecSoftwareDecodingForbidden (config : VideoDecoderConfig)
    : bool :=
  negb (vdc_is_encrypted config) &&
  (bool_decide (vdc_codec config = kCodecVP8) ||
   bool_decide (vdc_codec config = kCodecVP9)).

(** ConfigSupported *)
Definition ConfigSupported (platform : Platform) (config : VideoDecoderConfig)
    : bool :=
  let codec := vdc_codec config in
  if IsMediaCodecSoftwareDecodingForbidden config &&
     IsKnownUnaccelerated platform codec
  then false
  else
    let size := vdc_coded_size config in
    if (3840 <? width size) || (2160 <? height size) then false
    else
      match codec with
      | kCodecVP8 | kCodecVP9 =>
          if (bool_decide (codec = kCodecVP8) &&
              negb (IsVp8DecoderAvailable platform)) ||
             (bool_decide (codec = kCodecVP9) &&
              negb (IsVp9DecoderAvailable platform))
          then false
          else if vdc_is_encrypted config then true
          else if (width size <? 480) || (height size <? 360) then false
          else true
      | kCodecH264 => true
      | kCodecHEVC => ENABLE_HEVC_DEMUXING env
      | _ => false
      end.

(** ** Member functions *)

(** NotifyError, which the NOTIFY_ERROR macro calls after logging. *)
Definition NotifyError (error : Error) : M unit :=
  modify (set_state_ ERROR);;
  client ← gets client_;
  when client (emit (ClientNotifyError error)).

(** ManageTimer *)
Definition ManageTimer (did_work : bool) : M unit :=
  now ← ask (env_Now env);
  most_recent_work ← gets most_recent_work_;
  should_be_running ←
    (if negb did_work && negb (most_recent_work =? 0) then
       if IdleTimerTimeOut <? now - most_recent_work then
         modify (set_most_recent_work_ 0);; ret false
       else ret true
     else
       modify (set_most_recent_work_ now);; ret true);
  if should_be_running then manager_StartTimer else manager_StopTimer.

(** OnCodecConfigured; the argument says whether a codec was built. *)
Definition OnCodecConfigured (media_codec : bool) : M unit :=
  pending ← gets deferred_initialization_pending_;
  when pending
    (state ← gets state_;
     emit (CallNotifyInitializationComplete
             (if bool_decide (state = SURFACE_DESTROYED) then true
              else media_codec));;
     modify (set_deferred_initialization_pending_ false));;
  state ← gets state_;
  if bool_decide (state = SURFACE_DESTROYED) then ret tt
  else
    modify (set_media_codec_ media_codec);;
    emit (PictureBuffers (PictureBufferManager.CodecChanged media_codec));;
    if negb media_codec then NotifyError PLATFORM_FAILURE
    else
      modify (set_state_ NO_ERROR);;
      ManageTimer true.

(** if (media_codec_) { allocator->ReleaseMediaCodec(std::move(media_codec_),
    codec_config_->task_type_, surface); } with, where the code has it,
    picture_buffer_manager_.CodecChanged(nullptr) inside the braces. *)
Definition release_media_codec (surface : Z) (codec_changed : bool) : M unit :=
  has_codec ← gets media_codec_;
  when has_codec
    (task_type ← gets (λ s, task_type_ (codec_config_ s));
     emit (Alloc (Allocator.ReleaseMediaCodec task_type surface));;
     modify (set_media_codec_ false);;
     when codec_changed
       (emit (PictureBuffers (PictureBufferManager.CodecChanged false)))).

(** ConfigureMediaCodecAsynchronously *)
Definition ConfigureMediaCodecAsynchronously : M unit :=
  modify (set_state_ WAITING_FOR_CODEC);;
  surface ← gets (λ s, surface_id (config_ s));
  release_media_codec surface true;;
  task_type ← alloc_ask Allocator.TaskTypeForAllocation
                (env_TaskTypeForAllocation env);
  modify (λ s, set_codec_config_ (set_task_type_ task_type (codec_config_ s)) s);;
  if bool_decide (task_type = FAILED_CODEC) then OnCodecConfigured false
  else
    forbidden ←
      (if bool_decide (task_type = SW_CODEC)
       then ask (env_IsMediaCodecSoftwareDecodingForbidden env)
       else ret false);
    if forbidden then OnCodecConfigured false
    else emit (Alloc Allocator.CreateMediaCodecAsync).

(** ResetCodecState *)
Definition ResetCodecState : M unit :=
  state ← gets state_;
  if bool_decide (state = WAITING_FOR_CODEC) ||
     bool_decide (state = SURFACE_DESTROYED)
  then ret tt
  else
    modify (set_bitstream_buffers_in_decoder_ []);;
    pending_index ← gets pending_input_buf_index_;
    when (negb (pending_index =? -1)) (modify (set_pending_input_buf_index_ (-1)));;
    let did_codec_error_happen := bool_decide (state = ERROR) in
    modify (set_state_ NO_ERROR);;
    modify (set_codec_needs_reset_ false);;
    drain_type ← gets drain_type_;
    if bool_decide (drain_type = DRAIN_FOR_FLUSH) && negb did_codec_error_happen
    then modify (set_codec_needs_reset_ true)
    else
      flush ←
        (if negb did_codec_error_happen
         then workaround ← ask (env_CodecNeedsFlushWorkaround env);
              ret (negb workaround)
         else ret false);
      if flush then
        codec_do MediaCodec.Flush;;
        has_codec ← gets media_codec_;
        emit (PictureBuffers (PictureBufferManager.CodecChanged has_codec))
      else
        manager_StopTimer;;
        ConfigureMediaCodecAsynchronously.

(** OnDrainCompleted *)
Definition OnDrainCompleted : M unit :=
  drain_type ← gets drain_type_;
  match drain_type with
  | DRAIN_TYPE_NONE =>
      modify (set_state_ ERROR);;
      ResetCodecState
  | DRAIN_FOR_FLUSH =>
      ResetCodecState;;
      emit (PostTask NotifyFlushDone)
  | DRAIN_FOR_RESET =>
      ResetCodecState;;
      emit (PostTask NotifyResetDone)
  | DRAIN_FOR_DESTROY =>
      ResetCodecState;;
      emit (PostTask ActualDestroyTask)
  end;;
  modify (set_drain_type_ DRAIN_TYPE_NONE).

(** IsDrainingForResetOrDestroy *)
Definition IsDrainingForResetOrDestroy (s : MCVD) : bool :=
  bool_decide (drain_type_ s = DRAIN_FOR_RESET) ||
  bool_decide (drain_type_ s = DRAIN_FOR_DESTROY).

(** UpdateSurface *)
Definition UpdateSurface : M bool :=
  pending ← gets pending_surface_id_;
  match pending with
  | None => undefined
  | Some new_surface_id =>
      previous_surface_id ← gets (λ s, surface_id (config_ s));
      modify (set_pending_surface_id_ None);;
      allocated ← alloc_ask (Allocator.AllocateSurface new_surface_id)
                    (env_AllocateSurface env);
      success ←
        (if negb allocated then NotifyError PLATFORM_FAILURE;; ret false
         else ret true);
      success ←
        (if success then
           current ← ask (env_make_context_current env);
           if negb current then NotifyError PLATFORM_FAILURE;; ret false
           else ret true
         else ret false);
      success ←
        (if success then
           empty ← pbm_ask (PictureBufferManager.Initialize new_surface_id)
                     (env_Initialize_IsEmpty env);
           modify (λ s, set_codec_config_
                          (set_surface_IsEmpty empty (codec_config_ s)) s);;
           if empty then NotifyError PLATFORM_FAILURE;; ret false
           else ret true
         else ret false);
      has_codec ← gets media_codec_;
      success ←
        (if success && has_codec then
           switched ← codec_ask MediaCodec.SetSurface (env_SetSurface env);
           if negb switched then NotifyError PLATFORM_FAILURE;; ret false
           else ret true
         else ret success);
      (if success then
         modify (λ s, set_config_ (set_surface_id new_surface_id (config_ s)) s)
       else
         release_media_codec previous_surface_id true;;
         emit (Alloc (Allocator.DeallocateSurface new_surface_id)));;
      emit (Alloc (Allocator.DeallocateSurface previous_surface_id));;
      ret success
  end.

(** SendDecodedFrameToClient *)
Definition SendDecodedFrameToClient (codec_buffer_index bitstream_id : Z)
    : M unit :=
  current ← ask (env_make_context_current env);
  if negb current then NotifyError PLATFORM_FAILURE
  else
    free ← gets free_picture_ids_;
    match free with
    | [] => undefined
    | picture_buffer_id :: rest =>
        modify (set_free_picture_ids_ rest);;
        buffers ← gets output_picture_buffers_;
        match buffers !! picture_buffer_id with
        | None => NotifyError PLATFORM_FAILURE
        | Some picture_buffer =>
            size ← gets size_;
            let size_changed :=
              bool_decide (pb_size picture_buffer ≠ size) in
            when size_changed
              (modify (set_output_picture_buffers_
                 (<[picture_buffer_id := pb_set_size size picture_buffer]>
                    buffers)));;
            allow_overlay ← pbm_ask PictureBufferManager.ArePicturesOverlayable
                              (env_ArePicturesOverlayable env);
            emit (CallNotifyPictureReady
                    {| picture_buffer_id_of := picture_buffer_id;
                       bitstream_buffer_id_of := bitstream_id;
                       visible_rect := size;
                       allow_overlay_of := allow_overlay;
                       size_changed_of := size_changed |});;
            attached ← pbm_ask
                         (PictureBufferManager.UseCodecBufferForPictureBuffer
                            codec_buffer_index picture_buffer_id)
                         (env_UseCodecBufferForPictureBuffer env);
            when (negb attached) (NotifyError PLATFORM_FAILURE)
        end
    end.

Definition string_empty (s : string) : bool :=
  match s with EmptyString => true | String _ _ => false end.

(** The record left at the front of the queue once its [memory] has been
    moved out. *)
Definition moved_from (r : BitstreamRecord) : BitstreamRecord :=
  {| buffer := buffer r; memory := None |}.

(** The call that hands an input buffer to the codec. *)
Definition queue_call (input_buf_index : Z) (data : option Z)
    (b : BitstreamBuffer) : MediaCodec.Call :=
  if string_empty (key_id b) || string_empty (iv b) then
    MediaCodec.QueueInputBuffer input_buf_index data (size b)
      (presentation_timestamp b)
  else
    MediaCodec.QueueSecureInputBuffer input_buf_index data (size b)
      (key_id b) (iv b) (subsamples b) (presentation_timestamp b).

(** QueueInput *)
Definition QueueInput : M bool :=
  state ← gets state_;
  if bool_decide (state = ERROR) || bool_decide (state = WAITING_FOR_CODEC) ||
     bool_decide (state = WAITING_FOR_KEY)
  then ret false
  else
    notified ← gets bitstreams_notified_in_advance_;
    if (kMaxBitstreamsNotifiedInAdvance <? length notified)%nat then ret false
    else
      records ← gets pending_bitstream_records_;
      match records with
      | [] => ret false
      | front :: rest =>
          pending_index ← gets pending_input_buf_index_;
          dequeued ←
            (if pending_index =? -1 then
               '(status, written) ← codec_ask MediaCodec.DequeueInputBuffer
                                      (env_DequeueInputBuffer env);
               match status with
               | MEDIA_CODEC_DEQUEUE_INPUT_AGAIN_LATER => ret None
               | MEDIA_CODEC_ERROR => NotifyError PLATFORM_FAILURE;; ret None
               | MEDIA_CODEC_OK => ret (Some (default pending_index written))
               | _ => ret None
               end
             else ret (Some pending_index));
          match dequeued with
          | None => ret false
          | Some input_buf_index =>
              let bitstream_buffer := buffer front in
              if id bitstream_buffer =? -1 then
                modify (set_pending_bitstream_records_ rest);;
                codec_do (MediaCodec.QueueEOS input_buf_index);;
                ret true
              else
                mapped ←
                  (if pending_index =? -1 then
                     modify (set_pending_bitstream_records_
                               (moved_from front :: rest));;
                     match memory front with
                     | None => undefined
                     | Some shm =>
                         ok ← ask (env_Map env);
                         if ok then ret (Some (Some shm))
                         else NotifyError UNREADABLE_INPUT;; ret None
                     end
                   else ret (Some None));
                match mapped with
                | None => ret false
                | Some data =>
                    modify (λ s, set_bitstream_buffers_in_decoder_
                              (ts_assign (presentation_timestamp bitstream_buffer)
                                 (id bitstream_buffer)
                                 (bitstream_buffers_in_decoder_ s)) s);;
                    status ← codec_ask
                               (queue_call input_buf_index data bitstream_buffer)
                               (env_QueueInputBuffer env);
                    if bool_decide (status = MEDIA_CODEC_NO_KEY) then
                      modify (set_pending_input_buf_index_ input_buf_index);;
                      modify (set_state_ WAITING_FOR_KEY);;
                      ret false
                    else
                      modify (set_pending_input_buf_index_ (-1));;
                      modify (set_pending_bitstream_records_ rest);;
                      emit (PostTask (NotifyEndOfBitstreamBuffer
                                        (id bitstream_buffer)));;
                      modify (λ s, set_bitstreams_notified_in_advance_
                                (bitstreams_notified_in_advance_ s ++
                                 [id bitstream_buffer]) s);;
                      if bool_decide (status ≠ MEDIA_CODEC_OK) then
                        NotifyError PLATFORM_FAILURE;; ret false
                      else ret true
                end
          end
      end.

(** How the do-while loop of DequeueOutput is left. *)
Inductive LoopExit :=
| Return (result : bool)
| Dequeued (buf_index presentation_timestamp : Z) (eos : bool).

(** The do-while loop of DequeueOutput; the three arguments are the local
    variables the codec writes through. *)
Fixpoint DequeueOutput_loop (fuel : nat)
    (buf_index presentation_timestamp : Z) (eos : bool) : M LoopExit :=
  match fuel with
  | O => out_of_fuel
  | S fuel' =>
      answer ← codec_ask MediaCodec.DequeueOutputBuffer
                 (env_DequeueOutputBuffer env);
      let buf_index := default buf_index (out_index answer) in
      let presentation_timestamp :=
        default presentation_timestamp (out_presentation_timestamp answer) in
      let eos := default eos (out_end_of_stream answer) in
      match out_status answer with
      | MEDIA_CODEC_ERROR =>
          draining ← gets IsDrainingForResetOrDestroy;
          (if draining then
             modify (set_state_ ERROR);;
             OnDrainCompleted
           else NotifyError PLATFORM_FAILURE);;
          ret (Return false)
      | MEDIA_CODEC_DEQUEUE_OUTPUT_AGAIN_LATER => ret (Return false)
      | MEDIA_CODEC_OUTPUT_FORMAT_CHANGED =>
          drain_type ← gets drain_type_;
          if bool_decide (drain_type = DRAIN_FOR_DESTROY) then ret (Return true)
          else
            '(status, written) ← codec_ask MediaCodec.GetOutputSize
                                   (env_GetOutputSize env);
            modify (λ s, set_size_ (default (size_ s) written) s);;
            if bool_decide (status ≠ MEDIA_CODEC_OK) then
              NotifyError PLATFORM_FAILURE;; ret (Return false)
            else ret (Return true)
      | _ =>
          if buf_index <? 0
          then DequeueOutput_loop fuel' buf_index presentation_timestamp eos
          else ret (Dequeued buf_index presentation_timestamp eos)
      end
  end.

(** DequeueOutput, after the loop. *)
Definition DequeueOutput_deliver (buf_index presentation_timestamp : Z)
    (eos : bool) : M bool :=
  if eos then OnDrainCompleted;; ret false
  else
    draining ← gets IsDrainingForResetOrDestroy;
    if draining then
      codec_do (MediaCodec.ReleaseOutputBuffer buf_index false);;
      ret true
    else
      in_decoder ← gets bitstream_buffers_in_decoder_;
      match ts_find presentation_timestamp in_decoder with
      | Some bitstream_buffer_id =>
          modify (set_bitstream_buffers_in_decoder_
                    (ts_erase_through presentation_timestamp in_decoder));;
          SendDecodedFrameToClient buf_index bitstream_buffer_id;;
          modify (λ s, set_bitstreams_notified_in_advance_
                    (erase_notified bitstream_buffer_id
                       (bitstreams_notified_in_advance_ s)) s);;
          ret true
      | None =>
          codec_do (MediaCodec.ReleaseOutputBuffer buf_index false);;
          ret true
      end.

(** DequeueOutput *)
Definition DequeueOutput (fuel : nat) : M bool :=
  state ← gets state_;
  if bool_decide (state = ERROR) || bool_decide (state = WAITING_FOR_CODEC)
  then ret false
  else
    no_picture_buffer ←
      gets (λ s, negb (bool_decide (output_picture_buffers_ s = ∅)) &&
                 bool_decide (free_picture_ids_ s = []) &&
                 negb (IsDrainingForResetOrDestroy s));
    if no_picture_buffer then ret false
    else
      pending ← gets pending_surface_id_;
      proceed ←
        (if bool_decide (is_Some pending) then
           unrendered ← pbm_ask PictureBufferManager.HasUnrenderedPictures
                          (env_HasUnrenderedPictures env);
           if unrendered then ret false else UpdateSurface
         else ret true);
      if negb proceed then ret false
      else
        exit ← DequeueOutput_loop fuel 0 0 false;
        match exit with
        | Return result => ret result
        | Dequeued buf_index presentation_timestamp eos =>
            DequeueOutput_deliver buf_index presentation_timestamp eos
        end.

(** The do-while loop of DoIOTask. *)
Fixpoint DoIOTask_loop (fuel : nat) (inner : nat) (did_work : bool) : M bool :=
  match fuel with
  | O => out_of_fuel
  | S fuel' =>
      did_input ← QueueInput;
      did_output ← DequeueOutput inner;
      let did_work := did_work || (did_input || did_output) in
      if did_input || did_output then DoIOTask_loop fuel' inner did_work
      else ret did_work
  end.

(** DoIOTask; [fuel] bounds the passes of each of the two loops. *)
Definition DoIOTask (fuel : nat) (start_timer : bool) : M unit :=
  state ← gets state_;
  if bool_decide (state = ERROR) || bool_decide (state = WAITING_FOR_CODEC) ||
     bool_decide (state = SURFACE_DESTROYED)
  then ret tt
  else
    emit (PictureBuffers PictureBufferManager.MaybeRenderEarly);;
    did_work ← DoIOTask_loop fuel fuel false;
    ManageTimer (did_work || start_timer).

(** DecodeBuffer *)
Definition DecodeBuffer (fuel : nat) (bitstream_buffer : BitstreamBuffer)
    : M unit :=
  modify (λ s, set_pending_bitstream_records_
            (pending_bitstream_records_ s ++
             [make_BitstreamRecord bitstream_buffer]) s);;
  DoIOTask fuel true.

(** StartCodecDrain *)
Definition StartCodecDrain (fuel : nat) (drain_type : DrainType) : M unit :=
  current ← gets drain_type_;
  let enqueue_eos := bool_decide (current = DRAIN_TYPE_NONE) in
  modify (set_drain_type_ drain_type);;
  when enqueue_eos (DecodeBuffer fuel eos_BitstreamBuffer).

(** InitializeCdm *)
Definition InitializeCdm : M unit :=
  if negb (ENABLE_MOJO_MEDIA_IN_GPU_PROCESS env) then
    emit (CallNotifyInitializationComplete false)
  else
    modify (set_media_drm_bridge_cdm_context_ true);;
    emit CdmRegisterPlayer;;
    emit CdmSetMediaCryptoReadyCB.

(** InitializePictureBufferManager; control that reaches the closing brace
    of this function returns nothing. *)
Definition InitializePictureBufferManager : M bool :=
  current ← ask (env_make_context_current env);
  if negb current then ret false
  else
    surface ← gets (λ s, surface_id (config_ s));
    empty ← pbm_ask (PictureBufferManager.Initialize surface)
              (env_Initialize_IsEmpty env);
    modify (λ s, set_codec_config_
                   (set_surface_IsEmpty empty (codec_config_ s)) s);;
    if empty then ret false
    else
      started ← alloc_ask Allocator.StartThread (env_StartThread env);
      if negb started then ret false
      else
        encrypted ← gets (λ s, is_encrypted (config_ s));
        if encrypted then InitializeCdm;; ret true
        else
          pending ← gets deferred_initialization_pending_;
          defer ← gets defer_surface_creation_;
          if pending || defer then
            modify (set_defer_surface_creation_ false);;
            ConfigureMediaCodecAsynchronously;;
            ret true
          else undefined.

(** Initialize; [client] says whether the pointer is non-null. *)
Definition Initialize (config : Config) (client : bool) : M bool :=
  no_callbacks ← gets (λ s, make_context_current_cb_is_null s ||
                            get_gles2_decoder_cb_is_null s);
  if no_callbacks then ret false
  else if bool_decide (output_mode config ≠ ALLOCATE) then ret false
  else
    modify (set_client_ client);;
    modify (set_config_ config);;
    let codec := VideoCodecProfileToVideoCodec env (profile config) in
    modify (set_codec_config_
              (set_initial_expected_coded_size_
                 (initial_expected_coded_size config)
                 (set_codec_ codec new_CodecConfig)));;
    if bool_decide (codec ≠ kCodecVP8) && bool_decide (codec ≠ kCodecVP9) &&
       (if ENABLE_HEVC_DEMUXING env then bool_decide (codec ≠ kCodecHEVC)
        else true) &&
       bool_decide (codec ≠ kCodecH264)
    then ret false
    else
      when (bool_decide (codec = kCodecH264))
        (modify (λ s, set_codec_config_
                        (set_csd (sps config) (pps config) (codec_config_ s))
                        s));;
      forbidden ← ask (env_IsMediaCodecSoftwareDecodingForbidden env);
      unaccelerated ←
        (if forbidden
         then known ← ask (env_IsKnownUnaccelerated env); ret (known codec)
         else ret false);
      if unaccelerated then ret false
      else
        gles_decoder ← ask (env_get_gles2_decoder env);
        if negb gles_decoder then ret false
        else
          surface ← gets (λ s, surface_id (config_ s));
          defer ← ShouldDeferSurfaceCreation surface codec;
          if defer then
            modify (set_defer_surface_creation_ true);;
            emit (CallNotifyInitializationComplete true);;
            ret true
          else
            modify (set_deferred_initialization_pending_
                      (is_deferred_initialization_allowed config));;
            if is_encrypted config &&
               negb (is_deferred_initialization_allowed config)
            then ret false
            else
              allocated ← alloc_ask (Allocator.AllocateSurface surface)
                            (env_AllocateSurface env);
              if allocated then InitializePictureBufferManager
              else ret true.

(** Decode *)
Definition Decode (fuel : nat) (bitstream_buffer : BitstreamBuffer) : M unit :=
  defer ← gets defer_surface_creation_;
  failed ←
    (if defer then ok ← InitializePictureBufferManager; ret (negb ok)
     else ret false);
  if failed then NotifyError PLATFORM_FAILURE
  else
    needs_reset ← gets codec_needs_reset_;
    when needs_reset ResetCodecState;;
    if (0 <=? id bitstream_buffer) && (0 <? size bitstream_buffer) then
      DecodeBuffer fuel bitstream_buffer
    else
      valid ← ask (env_IsHandleValid env);
      when valid (emit (SharedMemoryCloseHandle (handle bitstream_buffer)));;
      if id bitstream_buffer <? 0 then NotifyError INVALID_ARGUMENT
      else emit (PostTask (NotifyEndOfBitstreamBuffer (id bitstream_buffer))).

(** Flush *)
Definition Flush (fuel : nat) : M unit :=
  state ← gets state_;
  defer ← gets defer_surface_creation_;
  if bool_decide (state = SURFACE_DESTROYED) || defer
  then emit CallNotifyFlushDone
  else StartCodecDrain fuel DRAIN_FOR_FLUSH.

(** The while loop of Reset. *)
Fixpoint Reset_loop (records : list BitstreamRecord) : M unit :=
  match records with
  | [] => ret tt
  | front :: rest =>
      let bitstream_buffer_id := id (buffer front) in
      modify (set_pending_bitstream_records_ rest);;
      when (bool_decide (bitstream_buffer_id ≠ -1))
        (emit (PostTask (NotifyEndOfBitstreamBuffer bitstream_buffer_id)));;
      Reset_loop rest
  end.

(** Reset *)
Definition Reset (fuel : nat) : M unit :=
  defer ← gets defer_surface_creation_;
  if defer then emit (PostTask NotifyResetDone)
  else
    records ← gets pending_bitstream_records_;
    Reset_loop records;;
    modify (set_bitstreams_notified_in_advance_ []);;
    emit (PictureBuffers PictureBufferManager.ReleaseCodecBuffers);;
    drain ← gets (λ s, media_codec_ s &&
                       bool_decide (codec_ (codec_config_ s) = kCodecVP8) &&
                       negb (bool_decide (bitstream_buffers_in_decoder_ s = [])));
    if drain then StartCodecDrain fuel DRAIN_FOR_RESET
    else
      ResetCodecState;;
      emit (PostTask NotifyResetDone).

(** SetSurface *)
Definition SetSurface (surface : Z) : M unit :=
  current ← gets (λ s, surface_id (config_ s));
  if surface =? current then modify (set_pending_surface_id_ None)
  else modify (set_pending_surface_id_ (Some surface)).

(** ~MediaCodecVideoDecoder *)
Definition destructor : M unit :=
  manager_StopTimer;;
  emit (Alloc Allocator.StopThread);;
  cdm ← gets media_drm_bridge_cdm_context_;
  when (ENABLE_MOJO_MEDIA_IN_GPU_PROCESS env && cdm)
    (emit CdmSetMediaCryptoReadyCB;; emit CdmUnregisterPlayer).

(** ActualDestroy *)
Definition ActualDestroy : M unit :=
  modify (set_weak_ptrs_invalidated_ true);;
  manager_StopTimer;;
  surface ← gets (λ s, surface_id (config_ s));
  release_media_codec surface false;;
  emit (Alloc (Allocator.DeallocateSurface surface));;
  destructor;;
  modify (set_deleted_ true).

(** Destroy *)
Definition Destroy (fuel : nat) : M unit :=
  emit (PictureBuffers PictureBufferManager.Destroy);;
  modify (set_client_ false);;
  drain ← gets (λ s, media_codec_ s &&
                     bool_decide (codec_ (codec_config_ s) = kCodecVP8));
  if drain then
    modify (set_pending_bitstream_records_ []);;
    StartCodecDrain fuel DRAIN_FOR_DESTROY
  else ActualDestroy.

(** OnKeyAdded *)
Definition OnKeyAdded (fuel : nat) : M unit :=
  state ← gets state_;
  when (bool_decide (state = WAITING_FOR_KEY)) (modify (set_state_ NO_ERROR));;
  DoIOTask fuel true.

(** OnSurfaceDestroyed *)
Definition OnSurfaceDestroyed : M unit :=
  sdk ← ask (env_sdk_int env);
  if 23 <=? sdk then
    emit (PictureBuffers PictureBufferManager.ReleaseCodecBuffers);;
    modify (set_pending_surface_id_ (Some kNoSurfaceID));;
    UpdateSurface;;
    ret tt
  else
    modify (set_state_ SURFACE_DESTROYED);;
    surface ← gets (λ s, surface_id (config_ s));
    release_media_codec surface true;;
    drain_type ← gets drain_type_;
    when (bool_decide (drain_type ≠ DRAIN_TYPE_NONE)) OnDrainCompleted.

End Decoder.

(** ** Vocabulary of the properties *)

(** The number of events of a kind in a trace. *)
Fixpoint count (p : Event → bool) (tr : list Event) : nat :=
  match tr with
  | [] => 0
  | e :: rest => (if p e then 1 else 0) + count p rest
  end.

Definition is_picture_ready (e : Event) : bool :=
  match e with CallNotifyPictureReady _ => true | _ => false end.

Definition is_end_of_bitstream (bitstream_buffer_id : Z) (e : Event) : bool :=
  match e with
  | PostTask (NotifyEndOfBitstreamBuffer j) => (j =? bitstream_buffer_id)%Z
  | _ => false
  end.

Definition is_client_error (e : Event) : bool :=
  match e with ClientNotifyError _ => true | _ => false end.

Definition is_release (e : Event) : bool :=
  match e with Alloc (Allocator.ReleaseMediaCodec _ _) => true | _ => false end.

Definition is_post_destroy (e : Event) : bool :=
  match e with PostTask ActualDestroyTask => true | _ => false end.

Definition is_post_reset_done (e : Event) : bool :=
  match e with PostTask NotifyResetDone => true | _ => false end.

(** What reaches the client: the error callback, the notifications the
    decoder calls or posts. *)
Definition is_client_notification (e : Event) : bool :=
  match e with
  | ClientNotifyError _ | CallNotifyFlushDone | CallNotifyPictureReady _
  | CallNotifyInitializationComplete _ => true
  | PostTask (NotifyEndOfBitstreamBuffer _) | PostTask NotifyFlushDone
  | PostTask NotifyResetDone => true
  | _ => false
  end.

(** One if the decoder holds a codec. *)
Definition held (s : MCVD) : nat := if media_codec_ s then 1 else 0.

(** What the functions under DoIOTask leave alone: they only add to the
    trace, they do not tear the decoder down, and a codec is given up only
    through the allocator. *)
Definition Frame (s s' : MCVD) : Prop :=
  trace s `suffix_of` trace s' ∧
  deleted_ s' = deleted_ s ∧
  weak_ptrs_invalidated_ s' = weak_ptrs_invalidated_ s ∧
  client_ s' = client_ s ∧
  held s' + count is_release (trace s') = held s + count is_release (trace s).

(** The drain intent is as it was and no teardown has been posted. *)
Definition SameDrain (s s' : MCVD) : Prop :=
  drain_type_ s' = drain_type_ s ∧
  count is_post_destroy (trace s') = count is_post_destroy (trace s).

(** Or the drain has completed, posting the teardown if it was a drain for
    destroy. *)
Definition DrainProgress (s s' : MCVD) : Prop :=
  SameDrain s s' ∨
  (drain_type_ s' = DRAIN_TYPE_NONE ∧
   count is_post_destroy (trace s') =
     count is_post_destroy (trace s) +
     (if bool_decide (drain_type_ s = DRAIN_FOR_DESTROY) then 1 else 0)).

(** Only end-of-stream markers are queued. *)
Definition all_eos (s : MCVD) : Prop :=
  Forall (λ r, id (buffer r) = (-1)%Z) (pending_bitstream_records_ s).

(** No picture is announced and no input [i] is reported consumed. *)
Definition Quiet (i : Z) (s s' : MCVD) : Prop :=
  count (is_end_of_bitstream i) (trace s') =
    count (is_end_of_bitstream i) (trace s) ∧
  count is_picture_ready (trace s') = count is_picture_ready (trace s).

(** The decoder has nothing left to decode for the client: whatever comes
    out of the codec is released unrendered. *)
Definition Draining (s : MCVD) : Prop :=
  all_eos s ∧
  (IsDrainingForResetOrDestroy s = true ∨ bitstream_buffers_in_decoder_ s = []).

(** While it is so, and the surface is there, it stays so and stays quiet. *)
Definition Calm (i : Z) (s s' : MCVD) : Prop :=
  Draining s → state_ s ≠ SURFACE_DESTROYED →
  Draining s' ∧ state_ s' ≠ SURFACE_DESTROYED ∧ Quiet i s s'.

(** What the helpers of the drain do: besides [Frame], they keep the queue,
    stay quiet, do not lose the surface, and keep or empty the pending
    timestamp map. *)
Definition Low (i : Z) (s s' : MCVD) : Prop :=
  Frame s s' ∧
  pending_bitstream_records_ s' = pending_bitstream_records_ s ∧
  Quiet i s s' ∧
  (state_ s ≠ SURFACE_DESTROYED → state_ s' ≠ SURFACE_DESTROYED) ∧
  (bitstream_buffers_in_decoder_ s' = bitstream_buffers_in_decoder_ s ∨
   bitstream_buffers_in_decoder_ s' = []).

(** A reset of the codec state that is not skipped empties the map. *)
Definition Emptied (s s' : MCVD) : Prop :=
  state_ s ≠ WAITING_FOR_CODEC → state_ s ≠ SURFACE_DESTROYED →
  bitstream_buffers_in_decoder_ s' = [].

(** One step of the I/O task, as the properties below see it. *)
Definition Step (i : Z) (s s' : MCVD) : Prop :=
  Frame s s' ∧ DrainProgress s s' ∧ Calm i s s'.

(** The same for the parts of DequeueOutput that run behind its check of
    [state_]. *)
Definition StepW (i : Z) (s s' : MCVD) : Prop :=
  Frame s s' ∧ DrainProgress s s' ∧
  (state_ s ≠ WAITING_FOR_CODEC → Calm i s s').

(** A replacement codec can be asked for, or no client is attached any
    more: the two ways ConfigureMediaCodecAsynchronously reports nothing. *)
Definition replacement_quiet (env : Env) (s : MCVD) : Prop :=
  client_ s = false ∨
  (env_TaskTypeForAllocation env (clock s) ≠ FAILED_CODEC ∧
   (env_TaskTypeForAllocation env (clock s) = SW_CODEC →
    env_IsMediaCodecSoftwareDecodingForbidden env (S (clock s)) = false)).

(** No error reached the client; [n] reset-done and [m] teardown tasks were
    posted. *)
Definition same_posts (n m : nat) (s s' : MCVD) : Prop :=
  count is_client_error (trace s') = count is_client_error (trace s) ∧
  count is_post_reset_done (trace s') =
    (count is_post_reset_done (trace s) + n)%nat ∧
  count is_post_destroy (trace s') =
    (count is_post_destroy (trace s) + m)%nat.

(** The trace after the while loop of Reset has gone through the records:
    one cancellation for each record that is not the end-of-stream marker. *)
Fixpoint cancelled (records : list BitstreamRecord) (tr : list Event)
    : list Event :=
  match records with
  | [] => tr
  | front :: rest =>
      cancelled rest
        (if bool_decide (id (buffer front) ≠ (-1)%Z)
         then PostTask (NotifyEndOfBitstreamBuffer (id (buffer front))) :: tr
         else tr)
  end.


Definition is_codec_flush (e : Event) : bool :=
  match e with Codec MediaCodec.Flush => true | _ => false end.




Definition is_initialization_complete (e : Event) : bool :=
  match e with CallNotifyInitializationComplete _ => true | _ => false end.

(** Polls by the timer, one after the other, each with its own fuel. *)
Fixpoint polls (env : Env) (fuels : list nat) : M unit :=
  match fuels with
  | [] => ret tt
  | fuel :: rest => DoIOTask env fuel false;; polls env rest
  end.

(** Decode calls, one after the other. *)
Fixpoint decodes (env : Env) (fuel : nat) (buffers : list BitstreamBuffer)
    : M unit :=
  match buffers with
  | [] => ret tt
  | b :: rest => Decode env fuel b;; decodes env fuel rest
  end.

(** The calls that hand input to the codec, oldest first. *)
Definition is_queue_call (e : Event) : bool :=
  match e with
  | Codec (MediaCodec.QueueInputBuffer _ _ _ _)
  | Codec (MediaCodec.QueueSecureInputBuffer _ _ _ _ _ _ _) => true
  | _ => false
  end.

Definition queue_calls (tr : list Event) : list Event :=
  rev (filter (λ e, is_queue_call e = true) tr).

(** The number of queued records that carry a bitstream id. *)
Definition count_records (i : Z) (records : list BitstreamRecord) : nat :=
  length (filter (λ r, id (buffer r) = i) records).

(** The codecs Initialize lets through. *)
Definition supported_codec (env : Env) (codec : VideoCodec) : Prop :=
  codec = kCodecH264 ∨ codec = kCodecVP8 ∨ codec = kCodecVP9 ∨
  (ENABLE_HEVC_DEMUXING env = true ∧ codec = kCodecHEVC).

(** The codec has nothing to take and nothing to give. *)
Definition reports_try_again (env : Env) : Prop :=
  (∀ n, (env_DequeueInputBuffer env n).1 =
        MEDIA_CODEC_DEQUEUE_INPUT_AGAIN_LATER) ∧
  (∀ n, out_status (env_DequeueOutputBuffer env n) =
        MEDIA_CODEC_DEQUEUE_OUTPUT_AGAIN_LATER).

(** Queues, timestamp map, picture buffer pool and state. *)
Definition io_state (s : MCVD) :=
  (pending_bitstream_records_ s, bitstream_buffers_in_decoder_ s,
   bitstreams_notified_in_advance_ s, free_picture_ids_ s,
   output_picture_buffers_ s, state_ s).

(** ... and the other fields the I/O step works on. *)
Definition io_fields (s : MCVD) :=
  (io_state s, drain_type_ s, pending_input_buf_index_ s, size_ s,
   media_codec_ s, pending_surface_id_ s, client_ s, codec_needs_reset_ s).


(** ** Concrete decoders and environments *)

(** An environment given by the answers that matter; the rest is benign. *)
Definition make_env
    (dequeue_input : nat → MediaCodecStatus * option Z)
    (queue_input : nat → MediaCodecStatus)
    (dequeue_output : nat → DequeueOutputAnswer)
    (allocate_surface : nat → bool) (context_current : nat → bool) : Env :=
  {| ENABLE_HEVC_DEMUXING := false;
     ENABLE_MOJO_MEDIA_IN_GPU_PROCESS := false;
     VideoCodecProfileToVideoCodec :=
       λ p, if (p =? 0)%Z then kCodecH264
            else if (p =? 1)%Z then kCodecVP8 else kUnknownVideoCodec;
     env_DequeueInputBuffer := dequeue_input;
     env_Map := λ _, true;
     env_QueueInputBuffer := queue_input;
     env_DequeueOutputBuffer := dequeue_output;
     env_GetOutputSize := λ _, (MEDIA_CODEC_OK, None);
     env_SetSurface := λ _, true;
     env_make_context_current := context_current;
     env_get_gles2_decoder := λ _, true;
     env_HasUnrenderedPictures := λ _, false;
     env_ArePicturesOverlayable := λ _, false;
     env_UseCodecBufferForPictureBuffer := λ _, true;
     env_Initialize_IsEmpty := λ _, false;
     env_AllocateSurface := allocate_surface;
     env_StartThread := λ _, true;
     env_TaskTypeForAllocation := λ _, AUTO_CODEC;
     env_IsAnyRegisteredAVDA := λ _, true;
     env_CodecNeedsFlushWorkaround := λ _, false;
     env_IsKnownUnaccelerated := λ _ _, false;
     env_IsMediaCodecSoftwareDecodingForbidden := λ _, false;
     env_sdk_int := λ _, 18%Z;
     env_IsLowEndDevice := λ _, false;
     env_IsHandleValid := λ _, true;
     env_Now := λ _, 1%Z |}.

Definition input_again_later : nat → MediaCodecStatus * option Z :=
  λ _, (MEDIA_CODEC_DEQUEUE_INPUT_AGAIN_LATER, None).

Definition input_ready (index : Z) : nat → MediaCodecStatus * option Z :=
  λ _, (MEDIA_CODEC_OK, Some index).

Definition output_again_later : nat → DequeueOutputAnswer :=
  λ _, {| out_status := MEDIA_CODEC_DEQUEUE_OUTPUT_AGAIN_LATER;
          out_index := None; out_presentation_timestamp := None;
          out_end_of_stream := None |}.

Definition output_ready (index t : Z) : nat → DequeueOutputAnswer :=
  λ _, {| out_status := MEDIA_CODEC_OK; out_index := Some index;
          out_presentation_timestamp := Some t;
          out_end_of_stream := Some false |}.

Definition output_error : nat → DequeueOutputAnswer :=
  λ _, {| out_status := MEDIA_CODEC_ERROR; out_index := None;
          out_presentation_timestamp := None; out_end_of_stream := None |}.

(** The codec is busy both ways. *)
Definition busy_env : Env :=
  make_env input_again_later (λ _, MEDIA_CODEC_OK) output_again_later
    (λ _, true) (λ _, true).

(** The codec takes every input and gives nothing yet. *)
Definition accepting_env : Env :=
  make_env (input_ready 0) (λ _, MEDIA_CODEC_OK) output_again_later
    (λ _, true) (λ _, true).

(** The codec has no key for any input. *)
Definition no_key_env : Env :=
  make_env (input_ready 0) (λ _, MEDIA_CODEC_NO_KEY) output_again_later
    (λ _, true) (λ _, true).

(** The codec gives a frame stamped 5 in output buffer 0. *)
Definition frame_env : Env :=
  make_env input_again_later (λ _, MEDIA_CODEC_OK) (output_ready 0 5)
    (λ _, true) (λ _, true).

(** The codec fails on output. *)
Definition output_error_env : Env :=
  make_env input_again_later (λ _, MEDIA_CODEC_OK) output_error (λ _, true)
    (λ _, true).

(** The codec fails on input. *)
Definition input_error_env : Env :=
  make_env (λ _, (MEDIA_CODEC_ERROR, None)) (λ _, MEDIA_CODEC_OK)
    output_again_later (λ _, true) (λ _, true).

(** No surface can be allocated. *)
Definition no_surface_env : Env :=
  make_env input_again_later (λ _, MEDIA_CODEC_OK) output_again_later
    (λ _, false) (λ _, true).

Definition example_size : Size := {| width := 640; height := 480 |}.

Definition example_config (p : Z) (size : Size) : Config :=
  {| output_mode := ALLOCATE; profile := p;
     initial_expected_coded_size := size; surface_id := kNoSurfaceID;
     is_encrypted := false; is_deferred_initialization_allowed := true;
     sps := []; pps := [] |}.

(** A configuration in the mode Initialize does not take. *)
Definition import_config : Config :=
  {| output_mode := IMPORT; profile := 0;
     initial_expected_coded_size := example_size; surface_id := kNoSurfaceID;
     is_encrypted := false; is_deferred_initialization_allowed := true;
     sps := []; pps := [] |}.

(** A decoder in steady state: a codec of the given kind, two free picture
    buffers, nothing queued. *)
Definition example_decoder (codec : VideoCodec) : MCVD :=
  {| this_ := 1%nat; client_ := true;
     make_context_current_cb_is_null := false;
     get_gles2_decoder_cb_is_null := false;
     state_ := NO_ERROR; drain_type_ := DRAIN_TYPE_NONE;
     pending_bitstream_records_ := [];
     bitstream_buffers_in_decoder_ := [];
     bitstreams_notified_in_advance_ := [];
     pending_input_buf_index_ := (-1)%Z;
     free_picture_ids_ := [1%Z; 2%Z];
     output_picture_buffers_ :=
       {[ 1%Z := {| pb_id := 1; pb_size := example_size |};
          2%Z := {| pb_id := 2; pb_size := example_size |} ]};
     size_ := example_size;
     media_codec_ := true;
     media_drm_bridge_cdm_context_ := false;
     config_ := example_config 0 example_size;
     codec_config_ := set_codec_ codec new_CodecConfig;
     pending_surface_id_ := None;
     deferred_initialization_pending_ := false;
     codec_needs_reset_ := false;
     defer_surface_creation_ := false;
     most_recent_work_ := 0%Z;
     weak_ptrs_invalidated_ := false;
     deleted_ := false;
     g_mcvd_manager := MCVDManager.initial;
     trace := [];
     clock := 0%nat |}.

(** A freshly constructed decoder, before Initialize. *)
Definition new_decoder : MCVD :=
  set_media_codec_ false
    (set_output_picture_buffers_ ∅
       (set_free_picture_ids_ [] (set_client_ false
          (example_decoder kUnknownVideoCodec)))).

Definition example_buffer (i t : Z) : BitstreamBuffer :=
  {| id := i; handle := 100 + i; size := 1000; presentation_timestamp := t;
     key_id := EmptyString; iv := EmptyString; subsamples := [] |}.

(** Buffers 0 .. n-1, stamped with their ids. *)
Definition example_buffers (n : nat) : list BitstreamBuffer :=
  map (λ i, example_buffer (Z.of_nat i) (Z.of_nat i)) (seq 0 n).

(** A decoder with one input waiting in the queue. *)
Definition decoder_with_input (codec : VideoCodec) : MCVD :=
  set_pending_bitstream_records_
    [make_BitstreamRecord (example_buffer 7 40)] (example_decoder codec).

(** A decoder with one input inside the codec, stamped 1. *)
Definition decoder_awaiting_output (codec : VideoCodec) : MCVD :=
  set_bitstream_buffers_in_decoder_ [(1, 10)%Z] (example_decoder codec).


(** A decoder right after Reset has started a drain: one input inside the
    codec, the end-of-stream marker queued. *)
Definition decoder_draining_for_reset : MCVD :=
  set_pending_bitstream_records_ [make_BitstreamRecord eos_BitstreamBuffer]
    (set_drain_type_ DRAIN_FOR_RESET (decoder_awaiting_output kCodecVP8)).

(** A decoder that has been told to move to surface 5. *)
Definition decoder_with_pending_surface : MCVD :=
  set_pending_surface_id_ (Some 5%Z) (example_decoder kCodecH264).

(** A decoder with only the end-of-stream marker queued. *)
Definition decoder_with_eos : MCVD :=
  set_pending_bitstream_records_ [make_BitstreamRecord eos_BitstreamBuffer]
    (example_decoder kCodecH264).

(** A platform as [busy_env] but at API level 23, where a codec can be
    moved to another surface. *)
Definition marshmallow_env : Env :=
  {| ENABLE_HEVC_DEMUXING := false;
     ENABLE_MOJO_MEDIA_IN_GPU_PROCESS := false;
     VideoCodecProfileToVideoCodec := VideoCodecProfileToVideoCodec busy_env;
     env_DequeueInputBuffer := input_again_later;
     env_Map := λ _, true;
     env_QueueInputBuffer := λ _, MEDIA_CODEC_OK;
     env_DequeueOutputBuffer := output_again_later;
     env_GetOutputSize := λ _, (MEDIA_CODEC_OK, None);
     env_SetSurface := λ _, true;
     env_make_context_current := λ _, true;
     env_get_gles2_decoder := λ _, true;
     env_HasUnrenderedPictures := λ _, false;
     env_ArePicturesOverlayable := λ _, false;
     env_UseCodecBufferForPictureBuffer := λ _, true;
     env_Initialize_IsEmpty := λ _, false;
     env_AllocateSurface := λ _, true;
     env_StartThread := λ _, true;
     env_TaskTypeForAllocation := λ _, AUTO_CODEC;
     env_IsAnyRegisteredAVDA := λ _, true;
     env_CodecNeedsFlushWorkaround := λ _, false;
     env_IsKnownUnaccelerated := λ _ _, false;
     env_IsMediaCodecSoftwareDecodingForbidden := λ _, false;
     env_sdk_int := λ _, 23%Z;
     env_IsLowEndDevice := λ _, false;
     env_IsHandleValid := λ _, true;
     env_Now := λ _, 1%Z |}.

(** A platform without a VP9 decoder and with a VP8 decoder in software. *)
Definition example_platform : Platform :=
  {| IsKnownUnaccelerated := λ codec, bool_decide (codec = kCodecVP8);
     IsVp8DecoderAvailable := true;
     IsVp9DecoderAvailable := false |}.

Definition example_vdc (codec : VideoCodec) (w h : Z) (encrypted : bool)
    : VideoDecoderConfig :=
  {| vdc_codec := codec; vdc_coded_size := {| width := w; height := h |};
     vdc_is_encrypted := encrypted |}.

(** ** The claims that the code does not bear out, as they are worded *)

(** C1 as worded: after a no_key result the submission is repeated as it
    was made, payload reference included. *)
Definition C1_as_stated : Prop :=
  ∀ env s fuel o1 s1 o2 s2,
    state_ s ≠ WAITING_FOR_KEY →
    QueueInput env s = (o1, s1) → state_ s1 = WAITING_FOR_KEY →
    OnKeyAdded env (S fuel) s1 = (o2, s2) →
    ∃ call rest,
      queue_calls (trace s1) = queue_calls (trace s) ++ [call] ∧
      queue_calls (trace s2) = queue_calls (trace s1) ++ call :: rest.

(** C3 as worded: with a codec that reports try_again both ways, two I/O
    steps change no queue, map, pool or state and notify nothing, whatever
    the decoder state. *)
Definition C3_as_stated : Prop :=
  ∀ env s fuel b1 b2 o1 s1 o2 s2,
    reports_try_again env →
    DoIOTask env (S fuel) b1 s = (o1, s1) →
    DoIOTask env (S fuel) b2 s1 = (o2, s2) →
    io_state s2 = io_state s ∧
    count is_client_notification (trace s2) =
      count is_client_notification (trace s).



(** C8 as worded: Initialize succeeds only on a supported codec, a coded
    size within the maximum and the ALLOCATE mode. *)
Definition C8_as_stated : Prop :=
  ∀ env config client s s',
    Initialize env config client s = (Returns true, s') →
    supported_codec env (VideoCodecProfileToVideoCodec env (profile config)) ∧
    (width (initial_expected_coded_size config) ≤ 3840)%Z ∧
    (height (initial_expected_coded_size config) ≤ 2160)%Z ∧
    output_mode config = ALLOCATE.

(** * Properties *)

(** ** The polling manager *)

Module ManagerFacts.
Import MCVDManager.

Lemma StartTimer_running mcvd m :
  timer_running_ (StartTimer mcvd m) = timer_running_ m.
Proof. reflexivity. Qed.

Lemma StopTimer_running mcvd m :
  timer_running_ (StopTimer mcvd m) = timer_running_ m.
Proof. unfold StopTimer. destruct (timer_running_ m) eqn:E; simpl; done. Qed.

Lemma serve_running mcvd m r :
  timer_running_ (serve mcvd m r) = timer_running_ m.
Proof. destruct r; [apply StartTimer_running | apply StopTimer_running]. Qed.

Lemma call_DoIOTask_running io m mcvd :
  timer_running_ (call_DoIOTask io m mcvd) = timer_running_ m.
Proof.
  unfold call_DoIOTask. generalize (io mcvd) as rs. intros rs. revert m.
  induction rs as [|r rs IH]; intros m; simpl; [done|].
  rewrite IH. apply serve_running.
Qed.

(** While a tick runs, a request of a registered instance leaves the set of
    instances alone. *)
Lemma serve_in_tick_instances mcvd m r :
  timer_running_ m = true → mcvd ∈ timer_mcvd_instances_ m →
  timer_mcvd_instances_ (serve mcvd m r) = timer_mcvd_instances_ m.
Proof.
  intros Hrun Hin. destruct r; simpl.
  - set_solver.
  - unfold StopTimer. rewrite Hrun. done.
Qed.

Lemma call_DoIOTask_instances io m mcvd :
  timer_running_ m = true → mcvd ∈ timer_mcvd_instances_ m →
  timer_mcvd_instances_ (call_DoIOTask io m mcvd) = timer_mcvd_instances_ m.
Proof.
  unfold call_DoIOTask. generalize (io mcvd) as rs. intros rs. revert m.
  induction rs as [|r rs IH]; intros m Hrun Hin; simpl; [done|].
  rewrite IH.
  - by apply serve_in_tick_instances.
  - by rewrite serve_running.
  - by rewrite serve_in_tick_instances.
Qed.

Lemma pass_fold_instances io l m :
  timer_running_ m = true → (∀ i, i ∈ l → i ∈ timer_mcvd_instances_ m) →
  timer_mcvd_instances_ (foldl (call_DoIOTask io) m l) =
    timer_mcvd_instances_ m ∧
  timer_running_ (foldl (call_DoIOTask io) m l) = true.
Proof.
  revert m. induction l as [|i l IH]; intros m Hrun Hin; simpl; [done|].
  destruct (IH (call_DoIOTask io m i)) as [IH1 IH2].
  - by rewrite call_DoIOTask_running.
  - intros j Hj. rewrite call_DoIOTask_instances; [|done|]; set_solver.
  - rewrite IH1, IH2. split; [|done].
    apply call_DoIOTask_instances; [done|set_solver].
Qed.

(** The pass of a tick does not touch the set it walks. *)
Lemma RunTimer_pass_instances io m :
  timer_mcvd_instances_ (RunTimer_pass io m) = timer_mcvd_instances_ m ∧
  timer_running_ (RunTimer_pass io m) = true.
Proof.
  unfold RunTimer_pass.
  destruct (pass_fold_instances io (elements (timer_mcvd_instances_ m))
              (set_timer_running_ true m)) as [H1 H2]; [done| |done].
  intros i Hi. simpl. by apply elem_of_elements.
Qed.

(** Requests of another instance keep a deferred erasure. *)
Lemma serve_other_pending i j m r :
  i ≠ j → i ∈ pending_erase_ m → i ∈ pending_erase_ (serve j m r).
Proof.
  intros Hne Hin. destruct r; simpl.
  - destruct (timer_running_ m); set_solver.
  - unfold StopTimer. destruct (timer_running_ m); simpl; set_solver.
Qed.

Lemma call_DoIOTask_other_pending io i j m :
  i ≠ j → i ∈ pending_erase_ m → i ∈ pending_erase_ (call_DoIOTask io m j).
Proof.
  unfold call_DoIOTask. generalize (io j) as rs. intros rs. revert m.
  induction rs as [|r rs IH]; intros m Hne Hin; simpl; [done|].
  apply IH; [done|]. by apply serve_other_pending.
Qed.

(** A last request that is a stop is deferred. *)
Lemma call_DoIOTask_stop_pending io i m :
  timer_running_ m = true → last (io i) = Some RequestStop →
  i ∈ pending_erase_ (call_DoIOTask io m i).
Proof.
  unfold call_DoIOTask. generalize (io i) as rs. intros rs. revert m.
  induction rs as [|r rs IH]; intros m Hrun Hlast; simpl; [done|].
  destruct rs as [|r' rs].
  - simpl in *. injection Hlast as ->. simpl. unfold StopTimer.
    rewrite Hrun. simpl. set_solver.
  - apply IH; [by rewrite serve_running|]. exact Hlast.
Qed.

Lemma pass_fold_stop_pending io l i m :
  NoDup l → i ∈ l → timer_running_ m = true →
  last (io i) = Some RequestStop →
  i ∈ pending_erase_ (foldl (call_DoIOTask io) m l).
Proof.
  intros Hnd. revert m. induction Hnd as [|j l Hj Hnd IH]; intros m Hin Hrun Hlast.
  - by apply elem_of_nil in Hin.
  - simpl. destruct (decide (i = j)) as [->|Hne].
    + assert (Hp : j ∈ pending_erase_ (call_DoIOTask io m j))
        by (by apply call_DoIOTask_stop_pending).
      clear IH Hin. revert Hp. generalize (call_DoIOTask io m j) as m'.
      induction l as [|k l IHl]; intros m' Hp; simpl; [done|].
      apply NoDup_cons in Hnd as [Hk Hnd].
      apply IHl; [set_solver|done|].
      apply call_DoIOTask_other_pending; [set_solver|done].
    + apply IH; [set_solver| by rewrite call_DoIOTask_running |done].
Qed.

(** The erasures applied after the pass. *)
Lemma erasures_instances l m :
  timer_running_ m = false →
  timer_mcvd_instances_ (foldl (λ acc mcvd, StopTimer mcvd acc) m l) =
    timer_mcvd_instances_ m ∖ list_to_set l ∧
  timer_running_ (foldl (λ acc mcvd, StopTimer mcvd acc) m l) = false ∧
  pending_erase_ (foldl (λ acc mcvd, StopTimer mcvd acc) m l) =
    pending_erase_ m.
Proof.
  revert m. induction l as [|i l IH]; intros m Hrun; simpl.
  - split; [set_solver|done].
  - destruct (IH (StopTimer i m)) as (H1 & H2 & H3).
    + by rewrite StopTimer_running.
    + rewrite H1, H2, H3. unfold StopTimer. rewrite Hrun. simpl.
      split; [set_solver|done].
Qed.

Lemma StartTimer_matches mcvd m : timer_matches (StartTimer mcvd m).
Proof. unfold timer_matches. simpl. split; [set_solver|done]. Qed.

Lemma StopTimer_matches mcvd m :
  timer_matches m → timer_matches (StopTimer mcvd m).
Proof.
  unfold timer_matches, StopTimer. intros H.
  destruct (timer_running_ m); simpl; [done|].
  case_decide as He; [split; [done|congruence]|].
  rewrite H. split; [done|]. intros _ Hm. apply He. set_solver.
Qed.

Lemma serve_matches mcvd m r : timer_matches m → timer_matches (serve mcvd m r).
Proof.
  destruct r; simpl; [intros _; apply StartTimer_matches|apply StopTimer_matches].
Qed.

Lemma call_DoIOTask_matches io m mcvd :
  timer_matches m → timer_matches (call_DoIOTask io m mcvd).
Proof.
  unfold call_DoIOTask. generalize (io mcvd) as rs. intros rs. revert m.
  induction rs as [|r rs IH]; intros m H; simpl; [done|].
  apply IH. by apply serve_matches.
Qed.

Lemma RunTimer_matches io m : timer_matches m → timer_matches (RunTimer io m).
Proof.
  intros H. unfold RunTimer.
  set (m1 := set_timer_running_ _ (RunTimer_pass io m)).
  assert (H1 : timer_matches m1).
  { unfold m1, RunTimer_pass.
    assert (H0 : timer_matches (set_timer_running_ true m)) by exact H.
    revert H0. generalize (set_timer_running_ true m) as m0.
    induction (elements (timer_mcvd_instances_ m)) as [|i l IH];
      intros m0 H0; simpl; [exact H0|].
    apply IH. by apply call_DoIOTask_matches. }
  revert H1. generalize m1 as m2. clear.
  intros m2. generalize (elements (pending_erase_ m2)) as l. intros l.
  revert m2. induction l as [|i l IH]; intros m2 H2; simpl; [exact H2|].
  apply IH. by apply StopTimer_matches.
Qed.

Lemma RunTimer_quiescent io m : quiescent m → quiescent (RunTimer io m).
Proof.
  intros (Hrun & Hpend & Hm).
  split; [|split; [reflexivity|apply (RunTimer_matches io m Hm)]].
  unfold RunTimer. cbn [timer_running_].
  set (m1 := set_timer_running_ _ (RunTimer_pass io m)).
  destruct (erasures_instances (elements (pending_erase_ m1)) m1) as (_ & H & _).
  - unfold m1. simpl. exact Hrun.
  - exact H.
Qed.

Lemma step_quiescent m o : quiescent m → quiescent (step m o).
Proof.
  intros Hq. destruct o as [i|i|io]; simpl.
  - destruct Hq as (Hrun & Hpend & Hm).
    split; [done|split; [|apply StartTimer_matches]].
    simpl. by rewrite Hrun.
  - destruct Hq as (Hrun & Hpend & Hm).
    split; [by rewrite StopTimer_running|].
    split; [|by apply StopTimer_matches].
    unfold StopTimer. by rewrite Hrun.
  - destruct (io_timer_IsRunning m); [by apply RunTimer_quiescent|done].
Qed.

Lemma run_quiescent ops : quiescent (run ops).
Proof.
  unfold run.
  assert (H : quiescent initial).
  { split; [done|split; [done|]]. simpl. split; [done|]. intros H. by contradict H. }
  revert H. generalize initial as m. induction ops as [|o ops IH]; intros m H.
  - exact H.
  - simpl. apply IH. by apply step_quiescent.
Qed.

(** C9. A StopTimer request made while a tick walks the instances leaves
    the set and the timer as they are and is only recorded; the pass of
    the tick does not change the set; once the pass is over the recorded
    erasures are applied and the record is emptied, so that an instance
    whose last request in the tick was a stop is gone; after any sequence
    of StartTimer, StopTimer and ticks from the initial manager the
    repeating timer runs exactly when some instance is registered (and
    nothing is left deferred); and StartTimer always leaves it running. *)
Theorem C9_deferred_erase_and_timer :
  (∀ m mcvd, timer_running_ m = true →
     timer_mcvd_instances_ (StopTimer mcvd m) = timer_mcvd_instances_ m ∧
     io_timer_IsRunning (StopTimer mcvd m) = io_timer_IsRunning m ∧
     mcvd ∈ pending_erase_ (StopTimer mcvd m)) ∧
  (∀ io m, timer_running_ m = false →
     timer_mcvd_instances_ (RunTimer_pass io m) = timer_mcvd_instances_ m ∧
     timer_mcvd_instances_ (RunTimer io m) =
       timer_mcvd_instances_ m ∖ pending_erase_ (RunTimer_pass io m) ∧
     pending_erase_ (RunTimer io m) = ∅ ∧
     (∀ mcvd, mcvd ∈ timer_mcvd_instances_ m →
        last (io mcvd) = Some RequestStop →
        mcvd ∉ timer_mcvd_instances_ (RunTimer io m))) ∧
  (∀ ops, timer_running_ (run ops) = false ∧ pending_erase_ (run ops) = ∅ ∧
     (io_timer_IsRunning (run ops) = false ↔
      timer_mcvd_instances_ (run ops) = ∅)) ∧
  (∀ m mcvd, io_timer_IsRunning (StartTimer mcvd m) = true ∧
     mcvd ∈ timer_mcvd_instances_ (StartTimer mcvd m)).
Proof.
  split; [|split; [|split]].
  - intros m mcvd Hrun. unfold StopTimer. rewrite Hrun. simpl.
    split; [done|split; [done|set_solver]].
  - intros io m Hrun.
    destruct (RunTimer_pass_instances io m) as [Hinst Hpr].
    assert (Hafter : timer_mcvd_instances_ (RunTimer io m) =
              timer_mcvd_instances_ m ∖ pending_erase_ (RunTimer_pass io m)).
    { unfold RunTimer. cbn [timer_mcvd_instances_].
      set (m1 := set_timer_running_ _ (RunTimer_pass io m)).
      destruct (erasures_instances (elements (pending_erase_ m1)) m1)
        as (H & _ & _); [unfold m1; simpl; exact Hrun|].
      rewrite H. unfold m1. simpl. rewrite Hinst.
      apply set_eq. intros x. rewrite !elem_of_difference.
      rewrite elem_of_list_to_set, elem_of_elements. done. }
    split; [exact Hinst|split; [exact Hafter|split; [reflexivity|]]].
    intros mcvd Hin Hlast. rewrite Hafter.
    assert (Hp : mcvd ∈ pending_erase_ (RunTimer_pass io m)).
    { unfold RunTimer_pass. apply pass_fold_stop_pending.
      - apply NoDup_elements.
      - by apply elem_of_elements.
      - done.
      - done. }
    set_solver.
  - intros ops. destruct (run_quiescent ops) as (H1 & H2 & H3).
    split; [done|split; [done|]].
    destruct (io_timer_IsRunning (run ops)); split; intros H.
    + discriminate.
    + exfalso. by apply H3.
    + destruct (decide (timer_mcvd_instances_ (run ops) = ∅)); [done|].
      apply H3 in n. discriminate.
    + done.
  - intros m mcvd. simpl. split; [done|set_solver].
Qed.

(** C9 at a manager in the middle of a tick over the instance 1. *)
Lemma C9_deferred_erase_and_timer_witness :
  let m := Build {[1%nat]} true ∅ true in
  timer_mcvd_instances_ (StopTimer 1%nat m) = timer_mcvd_instances_ m ∧
  io_timer_IsRunning (StopTimer 1%nat m) = io_timer_IsRunning m ∧
  1%nat ∈ pending_erase_ (StopTimer 1%nat m).
Proof.
  apply (proj1 C9_deferred_erase_and_timer). reflexivity.
Defined.

(** *** Further properties of the manager *)

(** Requests of another instance do not defer an erasure of this one. *)
Lemma serve_other_not_pending i j m r :
  i ≠ j → i ∉ pending_erase_ m → i ∉ pending_erase_ (serve j m r).
Proof.
  intros Hne Hin. destruct r; simpl.
  - destruct (timer_running_ m); set_solver.
  - unfold StopTimer. destruct (timer_running_ m); simpl; set_solver.
Qed.

Lemma call_DoIOTask_other_not_pending io i j m :
  i ≠ j → i ∉ pending_erase_ m → i ∉ pending_erase_ (call_DoIOTask io m j).
Proof.
  unfold call_DoIOTask. generalize (io j) as rs. intros rs. revert m.
  induction rs as [|r rs IH]; intros m Hne Hin; simpl; [done|].
  apply IH; [done|]. by apply serve_other_not_pending.
Qed.

(** A last request that is a start cancels what was deferred before. *)
Lemma call_DoIOTask_start_not_pending io i m :
  timer_running_ m = true → last (io i) = Some RequestStart →
  i ∉ pending_erase_ (call_DoIOTask io m i).
Proof.
  unfold call_DoIOTask. generalize (io i) as rs. intros rs. revert m.
  induction rs as [|r rs IH]; intros m Hrun Hlast; simpl; [done|].
  destruct rs as [|r' rs].
  - simpl in *. injection Hlast as ->. simpl. rewrite Hrun. set_solver.
  - apply IH; [by rewrite serve_running|]. exact Hlast.
Qed.

Lemma pass_fold_start_not_pending io l i m :
  NoDup l → i ∈ l → timer_running_ m = true →
  last (io i) = Some RequestStart →
  i ∉ pending_erase_ (foldl (call_DoIOTask io) m l).
Proof.
  intros Hnd. revert m.
  induction Hnd as [|j l Hj Hnd IH]; intros m Hin Hrun Hlast.
  - by apply elem_of_nil in Hin.
  - simpl. destruct (decide (i = j)) as [->|Hne].
    + assert (Hp : j ∉ pending_erase_ (call_DoIOTask io m j))
        by (by apply call_DoIOTask_start_not_pending).
      clear IH Hin. revert Hp. generalize (call_DoIOTask io m j) as m'.
      induction l as [|k l IHl]; intros m' Hp; simpl; [done|].
      apply NoDup_cons in Hnd as [Hk Hnd].
      apply IHl; [set_solver|done|].
      apply call_DoIOTask_other_not_pending; [set_solver|done].
    + apply IH; [set_solver| by rewrite call_DoIOTask_running |done].
Qed.

(** An instance whose last request during a tick is a StartTimer is still
    registered when the tick is over, even if it asked to be stopped
    earlier in the same tick: the start takes the deferred erasure back.
    The repeating timer is then still running. *)
Theorem RunTimer_last_start_stays
    (io : Instance → list TimerRequest) (m : t) (mcvd : Instance) :
  timer_running_ m = false → timer_matches m →
  mcvd ∈ timer_mcvd_instances_ m →
  last (io mcvd) = Some RequestStart →
  mcvd ∈ timer_mcvd_instances_ (RunTimer io m) ∧
  io_timer_IsRunning (RunTimer io m) = true.
Proof.
  intros Hrun Hm Hin Hlast.
  destruct (RunTimer_pass_instances io m) as [Hinst Hpr].
  assert (Hnp : mcvd ∉ pending_erase_ (RunTimer_pass io m)).
  { unfold RunTimer_pass. apply pass_fold_start_not_pending.
    - apply NoDup_elements.
    - by apply elem_of_elements.
    - done.
    - done. }
  assert (Hafter : mcvd ∈ timer_mcvd_instances_ (RunTimer io m)).
  { unfold RunTimer. cbn [timer_mcvd_instances_].
    set (m1 := set_timer_running_ _ (RunTimer_pass io m)).
    destruct (erasures_instances (elements (pending_erase_ m1)) m1)
      as (H & _ & _); [unfold m1; simpl; exact Hrun|].
    rewrite H. unfold m1. simpl. rewrite Hinst.
    apply elem_of_difference. split; [done|].
    rewrite elem_of_list_to_set, elem_of_elements. done. }
  split; [exact Hafter|].
  apply (RunTimer_matches io m Hm). set_solver.
Qed.

(** Outside a tick, stopping an instance that is not registered changes
    nothing in a manager whose timer runs exactly when an instance is
    registered. *)
Theorem StopTimer_unregistered_changes_nothing (m : t) (mcvd : Instance) :
  timer_running_ m = false → timer_matches m →
  mcvd ∉ timer_mcvd_instances_ m →
  StopTimer mcvd m = m.
Proof.
  intros Hrun Hm Hout. unfold StopTimer. rewrite Hrun.
  assert (Hsame : timer_mcvd_instances_ m ∖ {[mcvd]} =
                  timer_mcvd_instances_ m) by set_solver.
  rewrite Hsame. destruct m as [inst run pend io_running].
  unfold timer_matches in Hm. simpl in *. subst run.
  case_decide as He; [|done].
  destruct io_running; [|done].
  exfalso. by apply (proj1 Hm).
Qed.

(** A tick in which the only instance asks to be stopped and then started
    again. *)
Lemma RunTimer_last_start_stays_witness :
  let m := Build {[1%nat]} false ∅ true in
  let io := λ _ : Instance, [RequestStop; RequestStart] in
  1%nat ∈ timer_mcvd_instances_ (RunTimer io m) ∧
  io_timer_IsRunning (RunTimer io m) = true.
Proof.
  intros m io.
  apply (RunTimer_last_start_stays io m 1%nat).
  - reflexivity.
  - unfold timer_matches, m. simpl. split; [set_solver|done].
  - unfold m. simpl. set_solver.
  - reflexivity.
Defined.

(** Stopping the instance 2 where only the instance 1 is registered. *)
Lemma StopTimer_unregistered_changes_nothing_witness :
  let m := Build {[1%nat]} false ∅ true in
  StopTimer 2%nat m = m.
Proof.
  intros m.
  apply (StopTimer_unregistered_changes_nothing m 2%nat).
  - reflexivity.
  - unfold timer_matches, m. simpl. split; [set_solver|done].
  - unfold m. simpl. set_solver.
Defined.

End ManagerFacts.

(** ** The decoder *)

(** ** What the calls under the I/O step leave alone *)

Arguments ManageTimer : simpl never.
Arguments OnCodecConfigured : simpl never.
Arguments ConfigureMediaCodecAsynchronously : simpl never.
Arguments ResetCodecState : simpl never.
Arguments OnDrainCompleted : simpl never.
Arguments UpdateSurface : simpl never.
Arguments SendDecodedFrameToClient : simpl never.
Arguments QueueInput : simpl never.
Arguments DequeueOutput_loop : simpl never.
Arguments DequeueOutput_deliver : simpl never.
Arguments DequeueOutput : simpl never.
Arguments DoIOTask_loop : simpl never.
Arguments DoIOTask : simpl never.
Arguments IsDrainingForResetOrDestroy : simpl never.
Arguments Nat.ltb : simpl never.
Arguments Nat.leb : simpl never.

Ltac unfold_setters H :=
  unfold set_client_, set_state_, set_drain_type_,
    set_pending_bitstream_records_, set_bitstream_buffers_in_decoder_,
    set_bitstreams_notified_in_advance_, set_pending_input_buf_index_,
    set_free_picture_ids_, set_output_picture_buffers_, set_size_,
    set_media_codec_, set_media_drm_bridge_cdm_context_, set_config_,
    set_codec_config_, set_pending_surface_id_,
    set_deferred_initialization_pending_, set_codec_needs_reset_,
    set_defer_surface_creation_, set_most_recent_work_,
    set_weak_ptrs_invalidated_, set_deleted_, set_g_mcvd_manager, set_trace,
    set_clock in H.

Ltac unfold_setters_goal :=
  unfold set_client_, set_state_, set_drain_type_,
    set_pending_bitstream_records_, set_bitstream_buffers_in_decoder_,
    set_bitstreams_notified_in_advance_, set_pending_input_buf_index_,
    set_free_picture_ids_, set_output_picture_buffers_, set_size_,
    set_media_codec_, set_media_drm_bridge_cdm_context_, set_config_,
    set_codec_config_, set_pending_surface_id_,
    set_deferred_initialization_pending_, set_codec_needs_reset_,
    set_defer_surface_creation_, set_most_recent_work_,
    set_weak_ptrs_invalidated_, set_deleted_, set_g_mcvd_manager, set_trace,
    set_clock.

Ltac unfold_monad H :=
  unfold NotifyError, release_media_codec, codec_ask, alloc_ask, pbm_ask,
    manager_StartTimer, manager_StopTimer in H;
  unfold codec_do, when, emit in H;
  unfold bind, ret, gets, modify, ask, undefined, out_of_fuel in H;
  unfold_setters H.

Ltac tidy E :=
  first [ apply bool_decide_eq_true in E | apply bool_decide_eq_false in E
        | idtac ].

Ltac destruct_head t post :=
  lazymatch t with
  | fst ?u => destruct_head u post
  | snd ?u => destruct_head u post
  | match ?x with _ => _ end =>
      first [ destruct_head x post
            | let E := fresh "E" in destruct x eqn:E; post E ]
  | ?f ?a => destruct_head f post
  end.

Ltac exec_in H post :=
  repeat (cbn in H;
          lazymatch type of H with ?t = _ => destruct_head t post end);
  cbn in H; post H.

Ltac suff :=
  repeat apply suffix_cons_r;
  first [ reflexivity
        | match goal with
          | H : _ `suffix_of` ?t |- _ `suffix_of` ?t =>
              (etrans; [|exact H]); cbn; suff
          end ].

Ltac open_in E :=
  unfold Step, StepW in E;
  unfold Calm, Low, Emptied, Draining, DrainProgress in E;
  unfold Frame, SameDrain, Quiet, all_eos, held,
    IsDrainingForResetOrDestroy in E; cbn in E.

Ltac open_goal :=
  unfold Step, StepW;
  unfold Calm, Low, Emptied, Draining, DrainProgress;
  unfold Frame, SameDrain, Quiet, all_eos, held,
    IsDrainingForResetOrDestroy; cbn.

Ltac known :=
  repeat match goal with
         | H : drain_type_ ?x = _ |- _ => rewrite H in *; clear H
         | H : media_codec_ ?x = _ |- _ => rewrite H in *; clear H
         | H : bitstream_buffers_in_decoder_ ?x = _ |- _ =>
             rewrite H in *; clear H
         | H : pending_bitstream_records_ ?x = _ |- _ =>
             rewrite H in *; clear H
         | H : state_ ?x = _ |- _ => rewrite H in *; clear H
         end.

Ltac eos_facts :=
  repeat match goal with
         | H : Forall _ (_ :: _) |- _ =>
             apply Forall_cons in H; destruct H
         | H : Forall _ (_ ++ _) |- _ =>
             apply Forall_app in H; destruct H
         end.

Ltac prem :=
  first [ assumption | congruence | done | (split; prem)
        | (left; prem) | (right; prem) ].

Ltac premises :=
  repeat match goal with
         | H : ?P → _ |- _ =>
             lazymatch type of P with
             | Prop => specialize (H ltac:(prem))
             end
         end.

Ltac zbool :=
  repeat match goal with
         | H : (_ =? _)%Z = true |- _ => apply Z.eqb_eq in H
         | H : (_ =? _)%Z = false |- _ => apply Z.eqb_neq in H
         | H : (_ <? _)%Z = true |- _ => apply Z.ltb_lt in H
         | H : (_ <? _)%Z = false |- _ => apply Z.ltb_ge in H
         | H : negb _ = true |- _ => apply negb_true_iff in H
         | H : negb _ = false |- _ => apply negb_false_iff in H
         end.

Ltac arith :=
  intros; unfold IsDrainingForResetOrDestroy in *; known; premises; eos_facts; zbool; repeat case_bool_decide;
  simplify_eq;
  first [ lia | congruence | done | (apply Forall_nil; done)
        | (apply Forall_cons; split; [lia | assumption]) ].

Ltac solver :=
  first [ suff | congruence | solve [arith]
        | left; solve [arith] | right; solve [arith]
        | left; split; solve [arith] | right; split; solve [arith] ].

Ltac cases tac :=
  first [ tac
        | match goal with
          | H : _ ∨ _ |- _ => destruct H; destruct_and?; premises; cases tac
          end ].

Ltac leaf :=
  simplify_eq; open_goal;
  repeat first
    [ progress intros | progress destruct_and? | progress split_and?
    | progress premises ];
  first [ cases solver | idtac ].

Section FrameFacts.
Variable env : Env.
Local Open Scope Z_scope.

Lemma Frame_refl s : Frame s s.
Proof. unfold Frame. done. Qed.

Lemma Frame_trans s m s' : Frame s m → Frame m s' → Frame s s'.
Proof.
  unfold Frame. intros (H1 & H2 & H3 & H4 & H5) (G1 & G2 & G3 & G4 & G5).
  split_and!; [by etrans | congruence.. | lia].
Qed.

Lemma SameDrain_Progress s s' : SameDrain s s' → DrainProgress s s'.
Proof. by left. Qed.

Lemma DrainProgress_refl s : DrainProgress s s.
Proof. by left. Qed.

Lemma DrainProgress_trans s m s' :
  DrainProgress s m → DrainProgress m s' → DrainProgress s s'.
Proof.
  unfold DrainProgress, SameDrain.
  intros [[H1 H2]|[H1 H2]] [[G1 G2]|[G1 G2]].
  - left. split; congruence.
  - right. rewrite <- H1, <- H2. done.
  - right. split; [congruence|]. rewrite G2. done.
  - right. split; [done|]. rewrite G2, H2, H1.
    rewrite (bool_decide_eq_false_2 (DRAIN_TYPE_NONE = DRAIN_FOR_DESTROY));
      [lia|done].
Qed.

Lemma Quiet_refl i s : Quiet i s s.
Proof. by split. Qed.

Lemma Quiet_trans i s m s' : Quiet i s m → Quiet i m s' → Quiet i s s'.
Proof. unfold Quiet. intros [] []. split; congruence. Qed.

Lemma Calm_refl i s : Calm i s s.
Proof. intros H1 H2. split_and!; [done..|apply Quiet_refl]. Qed.

Lemma Calm_trans i s m s' : Calm i s m → Calm i m s' → Calm i s s'.
Proof.
  intros H G D Hs. destruct (H D Hs) as (D1 & Hs1 & Q1).
  destruct (G D1 Hs1) as (D2 & Hs2 & Q2).
  split_and!; [done..|by eapply Quiet_trans].
Qed.

Lemma Step_refl i s : Step i s s.
Proof.
  split_and!; [apply Frame_refl|apply DrainProgress_refl|apply Calm_refl].
Qed.

Lemma Step_trans i s m s' : Step i s m → Step i m s' → Step i s s'.
Proof.
  intros (F1 & D1 & C1) (F2 & D2 & C2).
  split_and!; [by eapply Frame_trans|by eapply DrainProgress_trans
              |by eapply Calm_trans].
Qed.

Lemma Step_StepW i s s' : Step i s s' → StepW i s s'.
Proof. intros (F & D & C). split_and!; [done..|by intros _]. Qed.

Lemma StepW_Step i s s' :
  state_ s ≠ WAITING_FOR_CODEC → StepW i s s' → Step i s s'.
Proof. intros Hs (F & D & C). split_and!; [done..|by apply C]. Qed.

Lemma StepW_trans i s m s' :
  StepW i s m → (state_ s ≠ WAITING_FOR_CODEC → state_ m ≠ WAITING_FOR_CODEC) →
  StepW i m s' → StepW i s s'.
Proof.
  intros (F1 & D1 & C1) Hm (F2 & D2 & C2).
  split_and!; [by eapply Frame_trans|by eapply DrainProgress_trans|].
  intros Hs. eapply Calm_trans; [by apply C1|by apply C2, Hm].
Qed.

Lemma ConfigureMediaCodecAsynchronously_low i s o s' :
  ConfigureMediaCodecAsynchronously env s = (o, s') →
  Low i s s' ∧ SameDrain s s' ∧
  bitstream_buffers_in_decoder_ s' = bitstream_buffers_in_decoder_ s.
Proof.
  intros H.
  unfold ConfigureMediaCodecAsynchronously, OnCodecConfigured, ManageTimer in H.
  unfold_monad H. exec_in H tidy; leaf.
Qed.

Ltac lows1 i E :=
  first [ (apply (ConfigureMediaCodecAsynchronously_low i) in E; open_in E)
        | tidy E ].

Lemma ResetCodecState_low i s o s' :
  ResetCodecState env s = (o, s') →
  Low i s s' ∧ SameDrain s s' ∧ Emptied s s'.
Proof.
  intros H. unfold ResetCodecState in H.
  unfold_monad H. exec_in H ltac:(lows1 i); leaf.
Qed.

Ltac lows2 i E :=
  first [ (apply (ResetCodecState_low i) in E; open_in E) | lows1 i E ].

Lemma OnDrainCompleted_low i s o s' :
  OnDrainCompleted env s = (o, s') →
  Low i s s' ∧ DrainProgress s s' ∧ Emptied s s'.
Proof.
  intros H. unfold OnDrainCompleted in H.
  unfold_monad H. exec_in H ltac:(lows2 i); leaf.
Qed.

Lemma UpdateSurface_low i s o s' :
  UpdateSurface env s = (o, s') →
  Low i s s' ∧ SameDrain s s' ∧
  bitstream_buffers_in_decoder_ s' = bitstream_buffers_in_decoder_ s ∧
  (state_ s' = state_ s ∨ state_ s' = ERROR).
Proof.
  intros H. unfold UpdateSurface in H.
  unfold_monad H. exec_in H tidy; leaf.
Qed.

Lemma SendDecodedFrameToClient_frame i b s o s' :
  SendDecodedFrameToClient env i b s = (o, s') → Frame s s' ∧ SameDrain s s'.
Proof.
  intros H. unfold SendDecodedFrameToClient in H.
  unfold_monad H. exec_in H tidy; leaf.
Qed.

(** The helpers as steps. *)
Lemma Low_Step i s s' :
  Low i s s' → SameDrain s s' →
  bitstream_buffers_in_decoder_ s' = bitstream_buffers_in_decoder_ s →
  Step i s s'.
Proof.
  intros (F & P & Q & S & M) D Hm.
  split_and!; [done|by left|].
  intros [A B] Hs. unfold Draining, all_eos, IsDrainingForResetOrDestroy in *.
  destruct D as [D _]. rewrite P, Hm, D. auto.
Qed.

Lemma Low_StepW i s s' :
  Low i s s' → DrainProgress s s' → Emptied s s' → StepW i s s'.
Proof.
  intros (F & P & Q & S & M) D Em.
  split_and!; [done..|].
  intros Hw [A B] Hs. unfold Draining, all_eos in *.
  rewrite P. split_and!; auto.
Qed.

Lemma UpdateSurface_step i s o s' :
  UpdateSurface env s = (o, s') →
  Step i s s' ∧ (state_ s' = state_ s ∨ state_ s' = ERROR).
Proof.
  intros H. apply (UpdateSurface_low i) in H as (L & D & M & S).
  split; [by apply Low_Step|done].
Qed.

Lemma OnDrainCompleted_step i s o s' :
  OnDrainCompleted env s = (o, s') → StepW i s s'.
Proof.
  intros H. apply (OnDrainCompleted_low i) in H as (L & D & M).
  by apply Low_StepW.
Qed.

Ltac lows3 i E :=
  first [ (apply (OnDrainCompleted_low i) in E; open_in E)
        | (apply (UpdateSurface_low i) in E; open_in E)
        | (apply SendDecodedFrameToClient_frame in E; open_in E)
        | lows2 i E ].

End FrameFacts.

Section InputFacts.
Variable env : Env.
Local Open Scope Z_scope.

Lemma QueueInput_step i s o s' : QueueInput env s = (o, s') → Step i s s'.
Proof.
  intros H. unfold QueueInput in H.
  unfold_monad H. exec_in H tidy; leaf.
Qed.
End InputFacts.

Ltac arith_cbn :=
  intros; unfold IsDrainingForResetOrDestroy in *; known; cbn in *;
  premises; eos_facts; zbool;
  repeat case_bool_decide; simplify_eq;
  first [ lia | congruence | done | (apply Forall_nil; done)
        | (apply Forall_cons; split; [lia | assumption]) ].

Ltac solver_cbn :=
  first [ suff | congruence | solve [arith_cbn]
        | left; solve [arith_cbn] | right; solve [arith_cbn]
        | left; split; solve [arith_cbn] | right; split; solve [arith_cbn] ].

Ltac leaf_cbn :=
  simplify_eq; open_goal;
  repeat first
    [ progress intros | progress destruct_and? | progress split_and?
    | progress premises ];
  first [ cases solver_cbn | idtac ].

(** Chaining the facts of the calls made on the way from [s]. *)
Ltac chain i :=
  lazymatch goal with
  | |- Step i ?s ?s => apply Step_refl
  | |- Step i ?s ?x =>
      tryif is_var x then
        lazymatch goal with
        | H : Step i ?y x |- _ =>
            apply (Step_trans i s y x); [chain i | exact H]
        end
      else
        lazymatch x with
        | context [this_ ?b] =>
            tryif constr_eq b s then leaf_cbn
            else (apply (Step_trans i s b x); [chain i | leaf_cbn])
        end
  end.

Ltac side :=
  cbn in *; intros;
  repeat match goal with H : _ ∨ _ |- _ => destruct H end;
  first [ done | congruence ].

Ltac chainW i :=
  lazymatch goal with
  | |- StepW i ?s ?s => apply Step_StepW, Step_refl
  | |- StepW i ?s ?x =>
      tryif is_var x then
        lazymatch goal with
        | H : StepW i ?y x |- _ =>
            apply (StepW_trans i s y x);
            [chainW i | side | exact H]
        | H : Step i ?y x |- _ =>
            apply (StepW_trans i s y x);
            [chainW i | side | exact (Step_StepW i y x H)]
        end
      else
        lazymatch x with
        | context [this_ ?b] =>
            tryif constr_eq b s then leaf_cbn
            else (apply (StepW_trans i s b x);
                  [chainW i | side | leaf_cbn])
        end
  end.

Section OutputFacts.
Variable env : Env.
Local Open Scope Z_scope.

Ltac steps3 i E :=
  first [ apply (QueueInput_step env i) in E
        | apply (OnDrainCompleted_step env i) in E
        | apply (UpdateSurface_step env i) in E
        | (apply (SendDecodedFrameToClient_frame env) in E; open_in E)
        | tidy E ].

Lemma DequeueOutput_loop_step i fuel b t e s o s' :
  DequeueOutput_loop env fuel b t e s = (o, s') →
  StepW i s s' ∧
  match o with
  | Returns (Dequeued _ _ _) => state_ s' = state_ s
  | _ => True
  end.
Proof.
  revert b t e s o s'. induction fuel as [|fuel IH]; intros b t e s o s' H.
  - unfold DequeueOutput_loop in H. unfold_monad H. leaf.
  - unfold DequeueOutput_loop in H; fold DequeueOutput_loop in H.
    unfold_monad H.
    exec_in H ltac:(fun E => first [apply IH in E | steps3 i E]).
    all: simplify_eq; destruct_and?; (split; [chainW i|]); try done.
Qed.

Lemma DequeueOutput_deliver_step i b t e s o s' :
  DequeueOutput_deliver env b t e s = (o, s') → StepW i s s'.
Proof.
  intros H. unfold DequeueOutput_deliver in H.
  unfold_monad H. exec_in H ltac:(steps3 i).
  all: simplify_eq; destruct_and?;
    first [solve [chainW i] | solve [leaf_cbn] | idtac].
Qed.

Ltac steps4 i E :=
  first [ apply (DequeueOutput_loop_step i) in E
        | apply (DequeueOutput_deliver_step i) in E
        | steps3 i E ].

Lemma DequeueOutput_step i fuel s o s' :
  DequeueOutput env fuel s = (o, s') → Step i s s'.
Proof.
  intros H. unfold DequeueOutput in H.
  unfold_monad H. exec_in H ltac:(steps4 i).
  all: simplify_eq; destruct_and?;
    first [ solve [chain i]
          | apply StepW_Step;
            [ apply orb_false_elim in E as [_ E];
              by apply bool_decide_eq_false in E
            | solve [chainW i] ]
          | idtac ].
Qed.

Ltac steps5 i E :=
  first [ apply (DequeueOutput_step i) in E | steps4 i E ].

Lemma DoIOTask_loop_step i fuel inner w s o s' :
  DoIOTask_loop env fuel inner w s = (o, s') → Step i s s'.
Proof.
  revert w s o s'. induction fuel as [|fuel IH]; intros w s o s' H.
  - unfold DoIOTask_loop in H. unfold_monad H. leaf.
  - unfold DoIOTask_loop in H; fold DoIOTask_loop in H.
    unfold_monad H.
    exec_in H ltac:(fun E => first [apply IH in E | steps5 i E]).
    all: simplify_eq; destruct_and?; first [solve [chain i] | idtac].
  Qed.

Ltac steps6 i E :=
  first [ apply (DoIOTask_loop_step i) in E | steps5 i E ].

(** DoIOTask does nothing when the surface is gone, so it needs no premise
    about it. *)
Lemma DoIOTask_step i fuel b s o s' :
  DoIOTask env fuel b s = (o, s') →
  Frame s s' ∧ DrainProgress s s' ∧
  (Draining s → Draining s' ∧ Quiet i s s').
Proof.
  intros H. unfold DoIOTask, ManageTimer in H.
  unfold_monad H. exec_in H ltac:(steps6 i).
  all: simplify_eq; destruct_and?.
  all: first
    [ solve [ split_and!;
              [ apply Frame_refl | apply DrainProgress_refl
              | intros; split; [done | apply Quiet_refl] ] ]
    | match goal with
      | |- Frame ?s ?x ∧ _ =>
          let St := fresh "St" in
          assert (St : Step i s x) by chain i;
          destruct St as (F & D & C);
          split_and!; [done | done |];
          let Hd := fresh "Hd" in
          intros Hd; destruct (C Hd) as (? & ? & ?); [|done];
          apply orb_false_elim in E as [_ E];
          by apply bool_decide_eq_false in E
      end ].
Qed.

End OutputFacts.

(** ** Output without a pending timestamp *)

Ltac exec_with H pre post :=
  repeat (cbn in H; pre H;
          lazymatch type of H with ?t = _ => destruct_head t post end);
  cbn in H; pre H; post H.

Ltac bools :=
  repeat match goal with
         | H : _ || _ = true |- _ => apply orb_true_iff in H
         | H : _ || _ = false |- _ => apply orb_false_iff in H as [? ?]
         | H : _ && _ = true |- _ => apply andb_true_iff in H as [? ?]
         | H : _ && _ = false |- _ => apply andb_false_iff in H
         | H : bool_decide _ = true |- _ => apply bool_decide_eq_true in H
         | H : bool_decide _ = false |- _ => apply bool_decide_eq_false in H
         | H : negb _ = true |- _ => apply negb_true_iff in H
         | H : negb _ = false |- _ => apply negb_false_iff in H
         end.

(** Closing a branch the hypotheses exclude. *)
Ltac absurd_branch :=
  exfalso; unfold IsDrainingForResetOrDestroy in *;
  repeat first
    [ progress bools | progress destruct_and?
    | match goal with H : _ ∨ _ |- _ => destruct H end ];
  zbool; first [ done | congruence | lia ].

(** Two spellings of the same decoder object. *)
Ltac same_state :=
  unfold_setters_goal; cbn; repeat f_equal; first [done | congruence].

Section UnmatchedOutput.
Variable env : Env.
Local Open Scope Z_scope.

(** *** The pending timestamp map *)

Lemma ts_find_lt t m :
  Forall (λ e, t < e.1) m → ts_find t m = None.
Proof.
  induction m as [|[k w] m IH]; intros H; [done|].
  apply Forall_cons in H as [H1 H2]. simpl in *.
  destruct (k =? t) eqn:E; [lia|]. by apply IH.
Qed.

Lemma ts_sorted_tail k w m : ts_sorted ((k, w) :: m) → ts_sorted m.
Proof. by intros [_ H]. Qed.

(** Erasing through the entry found at [t] removes exactly the keys up to
    [t]. *)
Lemma ts_find_erase_through t v m :
  ts_sorted m → ts_find t m = Some v →
  ∀ k, ts_find k (ts_erase_through t m) =
       if k <=? t then None else ts_find k m.
Proof.
  induction m as [|[k0 w] m IH]; intros Hs Hf k; [done|].
  destruct Hs as [Hlt Hs]. simpl in *.
  destruct (k0 =? t) eqn:E.
  - apply Z.eqb_eq in E. subst k0.
    destruct (k <=? t) eqn:Ek.
    + apply ts_find_lt. eapply Forall_impl; [exact Hlt|].
      intros e He. simpl in *. lia.
    + destruct (t =? k) eqn:Et; [lia|done].
  - rewrite (IH Hs Hf k).
    destruct (k <=? t) eqn:Ek; [done|].
    destruct (k0 =? k) eqn:Ek0; [|done].
    exfalso. apply Z.eqb_eq in Ek0. subst k0.
    assert (Ht : ts_find t m = None).
    { apply ts_find_lt. eapply Forall_impl; [exact Hlt|].
      intros e He. simpl in *. lia. }
    congruence.
Qed.

(** The whole call, when no surface switch is pending: a frame dequeued
    with a timestamp that has no entry in the map leaves the decoder as it
    was but for the two codec calls and the environment's clock. *)
Lemma DequeueOutput_releases_unmatched_frame
    (s : MCVD) (fuel : nat) (idx t : Z) :
  state_ s ≠ ERROR → state_ s ≠ WAITING_FOR_CODEC →
  media_codec_ s = true →
  (output_picture_buffers_ s = ∅ ∨ free_picture_ids_ s ≠ [] ∨
   IsDrainingForResetOrDestroy s = true) →
  pending_surface_id_ s = None →
  env_DequeueOutputBuffer env (clock s) =
    {| out_status := MEDIA_CODEC_OK; out_index := Some idx;
       out_presentation_timestamp := Some t;
       out_end_of_stream := Some false |} →
  0 ≤ idx →
  ts_find t (bitstream_buffers_in_decoder_ s) = None →
  DequeueOutput env (S fuel) s =
    (Returns true,
     set_clock (S (clock s))
       (set_trace (Codec (MediaCodec.ReleaseOutputBuffer idx false) ::
                   Codec MediaCodec.DequeueOutputBuffer :: trace s) s)).
Proof.
  intros Hs1 Hs2 Hc Hgate Hps Hans Hidx Hfind.
  destruct (DequeueOutput env (S fuel) s) as [o s'] eqn:H.
  unfold DequeueOutput, DequeueOutput_loop, DequeueOutput_deliver in H.
  unfold_monad H.
  exec_with H
    ltac:(fun H => rewrite ?Hc, ?Hps, ?Hans, ?Hfind in H; cbn in H) tidy.
  all: simplify_eq.
  all: first [absurd_branch | same_state | idtac].
Qed.


End UnmatchedOutput.

(** ** Output with a pending timestamp *)

Ltac in_trace :=
  repeat first [apply list_elem_of_here | apply list_elem_of_further].

Section MatchedOutput.
Variable env : Env.
Local Open Scope Z_scope.

(** The whole call, when no surface switch is pending and the frame can
    be delivered: the map loses exactly the keys up to and including [t],
    the first free picture buffer is taken and one picture_ready carries
    the bitstream id stored at [t]. *)
Lemma DequeueOutput_reports_matched_frame
    (s : MCVD) (fuel : nat) (idx t bid pid : Z) (rest : list Z)
    (pb : PictureBuffer) :
  state_ s ≠ ERROR → state_ s ≠ WAITING_FOR_CODEC →
  media_codec_ s = true →
  IsDrainingForResetOrDestroy s = false →
  pending_surface_id_ s = None →
  env_DequeueOutputBuffer env (clock s) =
    {| out_status := MEDIA_CODEC_OK; out_index := Some idx;
       out_presentation_timestamp := Some t;
       out_end_of_stream := Some false |} →
  0 ≤ idx →
  ts_sorted (bitstream_buffers_in_decoder_ s) →
  ts_find t (bitstream_buffers_in_decoder_ s) = Some bid →
  free_picture_ids_ s = pid :: rest →
  output_picture_buffers_ s !! pid = Some pb →
  env_make_context_current env (S (clock s)) = true →
  ∀ o s', DequeueOutput env (S fuel) s = (o, s') →
    o = Returns true ∧
    bitstream_buffers_in_decoder_ s' =
      ts_erase_through t (bitstream_buffers_in_decoder_ s) ∧
    (∀ k, ts_find k (bitstream_buffers_in_decoder_ s') =
          if k <=? t then None
          else ts_find k (bitstream_buffers_in_decoder_ s)) ∧
    free_picture_ids_ s' = rest ∧
    count is_picture_ready (trace s') =
      S (count is_picture_ready (trace s)) ∧
    CallNotifyPictureReady
      {| picture_buffer_id_of := pid; bitstream_buffer_id_of := bid;
         visible_rect := size_ s;
         allow_overlay_of := env_ArePicturesOverlayable env (S (S (clock s)));
         size_changed_of := bool_decide (pb_size pb ≠ size_ s) |}
      ∈ trace s'.
Proof.
  intros Hs1 Hs2 Hc Hd Hps Hans Hidx Hsorted Hfind Hfree Hpb Hctx o s' H.
  pose proof (ts_find_erase_through t bid _ Hsorted Hfind) as Herase.
  unfold DequeueOutput, DequeueOutput_loop, DequeueOutput_deliver,
    SendDecodedFrameToClient in H.
  unfold_monad H.
  exec_with H
    ltac:(fun H => rewrite ?Hc, ?Hps, ?Hans, ?Hfind, ?Hd, ?Hfree, ?Hpb, ?Hctx in H;
                   cbn in H) tidy.
  all: simplify_eq.
  all: try absurd_branch.
  all: cbn; split_and!; first [done | apply Herase | in_trace].
Qed.


End MatchedOutput.

Local Open Scope Z_scope.




(** ** Waiting for a key *)

Ltac in_suffix :=
  cbn;
  first [ reflexivity
        | (apply suffix_cons_r; in_suffix)
        | match goal with
          | H : _ `suffix_of` ?t |- _ `suffix_of` ?t =>
              (etrans; [|exact H]); in_suffix
          end ].

Section KeyRetry.
Variable env : Env.
Local Open Scope Z_scope.

Ltac steps6 i E :=
  first [ apply (DoIOTask_loop_step env i) in E
        | apply (DequeueOutput_step env i) in E
        | apply (DequeueOutput_loop_step env i) in E
        | apply (DequeueOutput_deliver_step env i) in E
        | apply (QueueInput_step env i) in E
        | apply (OnDrainCompleted_step env i) in E
        | apply (UpdateSurface_step env i) in E
        | (apply (SendDecodedFrameToClient_frame env) in E; open_in E)
        | tidy E ].

(** A stalled submission is made again with the retained index and no
    payload reference. *)
Lemma QueueInput_retry s r rest idx o s' :
  state_ s ≠ ERROR → state_ s ≠ WAITING_FOR_CODEC →
  state_ s ≠ WAITING_FOR_KEY →
  media_codec_ s = true →
  (length (bitstreams_notified_in_advance_ s) ≤
     kMaxBitstreamsNotifiedInAdvance)%nat →
  pending_bitstream_records_ s = r :: rest →
  id (buffer r) ≠ -1 →
  pending_input_buf_index_ s = idx → idx ≠ -1 →
  QueueInput env s = (o, s') →
  Codec (queue_call idx None (buffer r)) :: trace s `suffix_of` trace s'.
Proof.
  intros Hs1 Hs2 Hs3 Hc Hn Hp Hid Hidx Hne H.
  apply Nat.ltb_ge in Hn.
  apply Z.eqb_neq in Hid. subst idx. apply Z.eqb_neq in Hne.
  unfold QueueInput in H. unfold_monad H.
  exec_with H
    ltac:(fun H => rewrite ?Hc, ?Hp, ?Hn, ?Hid, ?Hne in H; cbn in H) tidy.
  all: simplify_eq.
  all: first [absurd_branch | in_suffix | idtac].
Qed.

Lemma OnKeyAdded_retries s fuel r rest idx o s' :
  state_ s = WAITING_FOR_KEY → media_codec_ s = true →
  (length (bitstreams_notified_in_advance_ s) ≤
     kMaxBitstreamsNotifiedInAdvance)%nat →
  pending_bitstream_records_ s = r :: rest →
  id (buffer r) ≠ -1 →
  pending_input_buf_index_ s = idx → idx ≠ -1 →
  OnKeyAdded env (S fuel) s = (o, s') →
  Codec (queue_call idx None (buffer r)) ::
    PictureBuffers PictureBufferManager.MaybeRenderEarly :: trace s
    `suffix_of` trace s'.
Proof.
  intros Hs Hc Hn Hp Hid Hidx Hne H.
  unfold OnKeyAdded, DoIOTask, ManageTimer in H.
  unfold DoIOTask_loop in H; fold DoIOTask_loop in H.
  unfold_monad H.
  exec_with H ltac:(fun H => rewrite ?Hs in H; cbn in H)
    ltac:(fun E =>
      first [ (eapply QueueInput_retry in E;
               [ | cbn; first [done | eassumption] ..])
            | steps6 0 E ]).
  all: simplify_eq.
  all: repeat match goal with
         | H : Step _ _ _ |- _ => destruct H as ((? & _) & _)
         end.
  all: first [in_suffix | idtac].
Qed.

(** C1, amended. When the submission of a freshly dequeued input buffer
    returns no_key, QueueInput returns false, the decoder is in
    waiting_for_key, the input is still at the front of the pending queue
    (its payload reference moved out of it), and the dequeued index is
    retained. The next key-arrival notification then submits the same
    bitstream buffer again with the same index, size, key data and
    timestamp, but with no payload reference: the codec's input buffer was
    filled by the first submission and is not mapped again. *)
Theorem C1_no_key_keeps_input_and_retries
    (s : MCVD) (fuel : nat) (front : BitstreamRecord)
    (rest : list BitstreamRecord) (shm idx : Z) :
  state_ s ≠ ERROR → state_ s ≠ WAITING_FOR_CODEC →
  state_ s ≠ WAITING_FOR_KEY →
  media_codec_ s = true →
  (length (bitstreams_notified_in_advance_ s) ≤
     kMaxBitstreamsNotifiedInAdvance)%nat →
  pending_bitstream_records_ s = front :: rest →
  id (buffer front) ≠ -1 → memory front = Some shm →
  pending_input_buf_index_ s = -1 →
  env_DequeueInputBuffer env (clock s) = (MEDIA_CODEC_OK, Some idx) →
  idx ≠ -1 →
  env_Map env (S (clock s)) = true →
  env_QueueInputBuffer env (S (S (clock s))) = MEDIA_CODEC_NO_KEY →
  ∀ o1 s1, QueueInput env s = (o1, s1) →
    o1 = Returns false ∧
    state_ s1 = WAITING_FOR_KEY ∧
    pending_bitstream_records_ s1 = moved_from front :: rest ∧
    pending_input_buf_index_ s1 = idx ∧
    trace s1 =
      Codec (queue_call idx (Some shm) (buffer front)) ::
      Codec MediaCodec.DequeueInputBuffer :: trace s ∧
    ∀ o2 s2, OnKeyAdded env (S fuel) s1 = (o2, s2) →
      Codec (queue_call idx None (buffer front)) ::
        PictureBuffers PictureBufferManager.MaybeRenderEarly :: trace s1
        `suffix_of` trace s2.
Proof.
  intros Hs1 Hs2 Hs3 Hc Hn Hp Hid Hm Hidx Hdq Hne Hmap Hq o1 s1 H.
  assert (Hfacts :
    o1 = Returns false ∧ state_ s1 = WAITING_FOR_KEY ∧
    pending_bitstream_records_ s1 = moved_from front :: rest ∧
    pending_input_buf_index_ s1 = idx ∧
    trace s1 =
      Codec (queue_call idx (Some shm) (buffer front)) ::
      Codec MediaCodec.DequeueInputBuffer :: trace s ∧
    media_codec_ s1 = true ∧
    bitstreams_notified_in_advance_ s1 = bitstreams_notified_in_advance_ s).
  { pose proof Hn as Hn'. apply Nat.ltb_ge in Hn'.
    pose proof Hid as Hid'. apply Z.eqb_neq in Hid'.
    unfold QueueInput in H. unfold_monad H.
    exec_with H
      ltac:(fun H => rewrite ?Hc, ?Hp, ?Hn', ?Hid', ?Hidx, ?Hdq, ?Hm, ?Hmap, ?Hq
                       in H; cbn in H) tidy.
    all: simplify_eq.
    all: first [absurd_branch | (cbn; split_and!; done) | idtac]. }
  destruct Hfacts as (-> & F1 & F2 & F3 & F4 & F5 & F6).
  split_and!; try done.
  intros o2 s2 H2.
  apply (OnKeyAdded_retries s1 fuel (moved_from front) rest idx o2 s2);
    try done.
  by rewrite F6.
Qed.

End KeyRetry.

(** ** The idle I/O step, and errors during a drain *)

(** Using what is known of the codec's answer on input. *)
Ltac input_answer Hin E :=
  tidy E;
  try lazymatch type of E with
      | env_DequeueInputBuffer _ ?n = (?m, _) =>
          let K := fresh in
          pose proof (Hin n) as K; rewrite E in K; cbn in K; subst m
      end.

Section IdleAndDrainError.
Variable env : Env.
Local Open Scope Z_scope.

Lemma DoIOTask_idle s fuel b o s' :
  reports_try_again env →
  pending_surface_id_ s = None →
  (pending_input_buf_index_ s = -1 ∨ state_ s = WAITING_FOR_KEY) →
  DoIOTask env (S fuel) b s = (o, s') →
  io_fields s' = io_fields s ∧
  count is_client_notification (trace s') =
    count is_client_notification (trace s).
Proof.
  intros [Hin Hout] Hps Hslot H.
  unfold DoIOTask, ManageTimer in H.
  unfold DoIOTask_loop in H; fold DoIOTask_loop in H.
  unfold QueueInput, DequeueOutput in H.
  unfold DequeueOutput_loop in H; fold DequeueOutput_loop in H.
  unfold_monad H.
  exec_with H ltac:(fun H => rewrite ?Hps, ?Hout in H; cbn in H)
    ltac:(input_answer Hin).
  all: simplify_eq.
  all: try (unfold io_fields, io_state; cbn; split; [repeat f_equal|]; done).
  all: try absurd_branch.
Qed.

(** C3, amended. With a codec that reports try_again in both directions,
    no surface switch pending, and the input slot either free or stalled
    in waiting_for_key, two I/O steps in a row leave the queues, the
    timestamp map, the picture buffer pool, the state and the other fields
    the step works on as they were, and notify the client of nothing. *)
Theorem C3_idle_io_step_twice_changes_nothing
    (s : MCVD) (fuel : nat) (b1 b2 : bool) (o1 o2 : Outcome unit)
    (s1 s2 : MCVD) :
  reports_try_again env →
  pending_surface_id_ s = None →
  (pending_input_buf_index_ s = -1 ∨ state_ s = WAITING_FOR_KEY) →
  DoIOTask env (S fuel) b1 s = (o1, s1) →
  DoIOTask env (S fuel) b2 s1 = (o2, s2) →
  io_fields s2 = io_fields s ∧
  count is_client_notification (trace s2) =
    count is_client_notification (trace s).
Proof.
  intros Henv Hps Hslot H1 H2.
  destruct (DoIOTask_idle s fuel b1 o1 s1 Henv Hps Hslot H1) as [F1 N1].
  assert (Hps1 : pending_surface_id_ s1 = None).
  { unfold io_fields, io_state in F1. injection F1; intros; congruence. }
  assert (Hslot1 :
    pending_input_buf_index_ s1 = -1 ∨ state_ s1 = WAITING_FOR_KEY).
  { unfold io_fields, io_state in F1. injection F1; intros.
    destruct Hslot; [left|right]; congruence. }
  destruct (DoIOTask_idle s1 fuel b2 o2 s2 Henv Hps1 Hslot1 H2) as [F2 N2].
  split; congruence.
Qed.

Lemma ConfigureMediaCodecAsynchronously_quiet s o s' :
  replacement_quiet env s →
  ConfigureMediaCodecAsynchronously env s = (o, s') →
  o = Returns tt ∧ same_posts 0 0 s s' ∧ drain_type_ s' = drain_type_ s.
Proof.
  intros Hrec H.
  unfold ConfigureMediaCodecAsynchronously, OnCodecConfigured, ManageTimer
    in H.
  unfold_monad H.
  exec_with H ltac:(fun H => cbn in H) tidy.
  all: simplify_eq.
  all: unfold replacement_quiet, same_posts in *; cbn in *.
  all: first [ (split_and!; first [done | lia])
             | (exfalso; destruct Hrec as [?|[? ?]]; premises; congruence)
             | idtac ].
Qed.

Lemma ResetCodecState_after_error s o s' :
  state_ s = ERROR → replacement_quiet env s →
  ResetCodecState env s = (o, s') →
  o = Returns tt ∧ same_posts 0 0 s s' ∧ drain_type_ s' = drain_type_ s.
Proof.
  intros Hs Hrec H.
  unfold ResetCodecState in H. unfold_monad H.
  exec_with H ltac:(fun H => rewrite ?Hs in H; cbn in H)
    ltac:(fun E =>
      first [ (apply ConfigureMediaCodecAsynchronously_quiet in E; [|exact Hrec])
            | tidy E ]).
  all: simplify_eq.
  all: first [ (destruct_and?; simplify_eq; split_and!; done) | idtac ].
Qed.

Lemma OnDrainCompleted_after_error s o s' :
  state_ s = ERROR → replacement_quiet env s →
  OnDrainCompleted env s = (o, s') →
  o = Returns tt ∧
  same_posts (if bool_decide (drain_type_ s = DRAIN_FOR_RESET) then 1 else 0)
    (if bool_decide (drain_type_ s = DRAIN_FOR_DESTROY) then 1 else 0) s s' ∧
  drain_type_ s' = DRAIN_TYPE_NONE.
Proof.
  intros Hs Hrec H.
  unfold OnDrainCompleted in H. unfold_monad H.
  exec_with H ltac:(fun H => cbn in H)
    ltac:(fun E =>
      first [ (apply ResetCodecState_after_error in E;
               [|first [exact Hs | done]|first [exact Hrec | done]])
            | tidy E ]).
  all: simplify_eq.
  all: unfold same_posts in *; cbn in *.
  all: first [ (destruct_and?; simplify_eq; repeat case_bool_decide;
                simplify_eq; split_and!; first [done | lia])
             | idtac ].
Qed.

(** A codec error on output during a drain for reset or destroy, in the
    loop of DequeueOutput: the loop is left with false, the drain is over
    and its completion has run: one reset_done is posted for a drain for
    reset, one teardown for a drain for destroy. No error reaches the
    client, provided no client is attached any more or a replacement codec
    can be asked for. *)
Theorem DequeueOutput_loop_error_completes_drain
    (s : MCVD) (fuel : nat) (b t : Z) (e : bool) :
  IsDrainingForResetOrDestroy s = true →
  media_codec_ s = true →
  out_status (env_DequeueOutputBuffer env (clock s)) = MEDIA_CODEC_ERROR →
  (client_ s = false ∨
   (env_TaskTypeForAllocation env (S (clock s)) ≠ FAILED_CODEC ∧
    (env_TaskTypeForAllocation env (S (clock s)) = SW_CODEC →
     env_IsMediaCodecSoftwareDecodingForbidden env (S (S (clock s))) =
       false))) →
  ∀ o s', DequeueOutput_loop env (S fuel) b t e s = (o, s') →
    o = Returns (Return false) ∧
    count is_client_error (trace s') = count is_client_error (trace s) ∧
    drain_type_ s' = DRAIN_TYPE_NONE ∧
    count is_post_reset_done (trace s') =
      (count is_post_reset_done (trace s) +
       if bool_decide (drain_type_ s = DRAIN_FOR_RESET) then 1 else 0)%nat ∧
    count is_post_destroy (trace s') =
      (count is_post_destroy (trace s) +
       if bool_decide (drain_type_ s = DRAIN_FOR_DESTROY) then 1 else 0)%nat.
Proof.
  intros Hd Hc Hans Hrec o s' H.
  unfold DequeueOutput_loop in H; fold DequeueOutput_loop in H.
  unfold_monad H.
  exec_with H ltac:(fun H => rewrite ?Hc, ?Hans, ?Hd in H; cbn in H)
    ltac:(fun E =>
      first [ (apply OnDrainCompleted_after_error in E;
               [|done|exact Hrec])
            | tidy E ]).
  all: simplify_eq.
  all: try absurd_branch.
  all: unfold same_posts in *; cbn in *.
  all: try (destruct_and?; simplify_eq; split_and!; first [done | lia]).
Qed.

(** In the error state the I/O step, and so every poll, does nothing. *)
Lemma DequeueOutput_in_error fuel s :
  state_ s = ERROR → DequeueOutput env fuel s = (Returns false, s).
Proof.
  intros Hs. unfold DequeueOutput, bind, gets, ret. by rewrite Hs.
Qed.

Lemma DoIOTask_in_error fuel b s :
  state_ s = ERROR → DoIOTask env fuel b s = (Returns tt, s).
Proof.
  intros Hs. unfold DoIOTask, bind, gets, ret. by rewrite Hs.
Qed.

Lemma polls_in_error fuels s :
  state_ s = ERROR → polls env fuels s = (Returns tt, s).
Proof.
  intros Hs. induction fuels as [|fuel fuels IH]; [done|].
  unfold polls; fold polls. unfold bind.
  by rewrite DoIOTask_in_error.
Qed.

(** C4. What the code does with a codec error on the input side while a
    drain for reset or destroy is under way, which is not what the claim
    says and not what the code does with the same error on the output
    side. The I/O step that meets the error of DequeueInputBuffer puts the
    decoder in the error state and tells the client, if one is attached;
    the drain is not completed: the drain type stays, and neither
    reset_done nor the teardown is posted, then or by any later poll,
    since in the error state a poll does nothing. *)
Theorem C4_input_error_while_draining_stalls_drain
    (s : MCVD) (fuel : nat) (start_timer : bool) (front : BitstreamRecord)
    (rest : list BitstreamRecord) :
  IsDrainingForResetOrDestroy s = true →
  state_ s = NO_ERROR → media_codec_ s = true →
  (length (bitstreams_notified_in_advance_ s) ≤
     kMaxBitstreamsNotifiedInAdvance)%nat →
  pending_bitstream_records_ s = front :: rest →
  pending_input_buf_index_ s = -1 →
  (env_DequeueInputBuffer env (clock s)).1 = MEDIA_CODEC_ERROR →
  ∀ o s', DoIOTask env (S fuel) start_timer s = (o, s') →
    o = Returns tt ∧ state_ s' = ERROR ∧
    drain_type_ s' = drain_type_ s ∧ media_codec_ s' = true ∧
    count is_client_error (trace s') =
      (count is_client_error (trace s) + if client_ s then 1 else 0)%nat ∧
    count is_post_reset_done (trace s') =
      count is_post_reset_done (trace s) ∧
    count is_post_destroy (trace s') = count is_post_destroy (trace s) ∧
    ∀ fuels, polls env fuels s' = (Returns tt, s').
Proof.
  intros Hd Hs Hc Hn Hp Hidx Hans o s' H.
  apply Nat.ltb_ge in Hn.
  destruct (env_DequeueInputBuffer env (clock s)) as [status written] eqn:Hdq.
  simpl in Hans. subst status.
  unfold DoIOTask, ManageTimer in H.
  unfold DoIOTask_loop in H; fold DoIOTask_loop in H.
  unfold QueueInput in H.
  unfold_monad H.
  exec_with H
    ltac:(fun H => rewrite ?Hs, ?Hc, ?Hn, ?Hp, ?Hidx, ?Hdq in H;
                   rewrite ?DequeueOutput_in_error in H by reflexivity;
                   cbn in H) tidy.
  all: simplify_eq.
  all: cbn; repeat match goal with
                   | E : ?x = _ |- context [?x] => rewrite E
                   end; cbn.
  all: split_and!; try done; try lia.
  all: intros fuels; by apply polls_in_error.
Qed.

End IdleAndDrainError.

(** ** Reset and Destroy *)

Arguments cancelled : simpl never.
Arguments Reset_loop : simpl never.
Arguments ActualDestroy : simpl never.
Arguments polls : simpl never.

Section ResetAndDestroy.
Variable env : Env.
Local Open Scope Z_scope.

(** *** Reset *)

Lemma Reset_loop_spec records s :
  pending_bitstream_records_ s = records →
  Reset_loop records s =
    (Returns tt,
     set_trace (cancelled records (trace s))
       (set_pending_bitstream_records_ [] s)).
Proof.
  revert s. induction records as [|front rest IH]; intros s Hp.
  - destruct s. cbn in *. subst. reflexivity.
  - unfold Reset_loop; fold Reset_loop. unfold cancelled; fold cancelled.
    unfold when, emit, bind, ret, gets, modify.
    case_bool_decide.
    + cbn. rewrite IH by done. reflexivity.
    + cbn. rewrite IH by done. reflexivity.
Qed.

Lemma count_cancelled_end_of_bitstream i records tr :
  i ≠ -1 →
  count (is_end_of_bitstream i) (cancelled records tr) =
    (count (is_end_of_bitstream i) tr + count_records i records)%nat.
Proof.
  intros Hi. revert tr.
  induction records as [|front rest IH]; intros tr.
  - unfold cancelled, count_records. cbn. lia.
  - unfold cancelled; fold cancelled. rewrite IH.
    unfold count_records. rewrite filter_cons.
    case_bool_decide; case_decide; cbn.
    + destruct (id (buffer front) =? i) eqn:E; lia.
    + destruct (id (buffer front) =? i) eqn:E; lia.
    + lia.
    + lia.
Qed.

Lemma count_cancelled_picture_ready records tr :
  count is_picture_ready (cancelled records tr) = count is_picture_ready tr.
Proof.
  revert tr. induction records as [|front rest IH]; intros tr; [done|].
  unfold cancelled; fold cancelled. rewrite IH.
  by case_bool_decide.
Qed.

(** C2. Reset posts exactly one end_of_bitstream_buffer for each queued
    input (as many with id [i] as there are records with id [i] in the
    queue) and no picture_ready is emitted during the reset, whatever the
    codec answers in the I/O step of the drain that Reset may start. The
    premise is the assertion Reset makes itself: while surface creation is
    deferred the queue is empty (nothing can have been queued before the
    first Decode has set the decoder up). *)
Theorem C2_reset_cancels_each_queued_input
    (s : MCVD) (fuel : nat) (i : Z) (o : Outcome unit) (s' : MCVD) :
  (defer_surface_creation_ s = true → pending_bitstream_records_ s = []) →
  i ≠ -1 →
  Reset env fuel s = (o, s') →
  count (is_end_of_bitstream i) (trace s') =
    (count (is_end_of_bitstream i) (trace s) +
     count_records i (pending_bitstream_records_ s))%nat ∧
  count is_picture_ready (trace s') = count is_picture_ready (trace s).
Proof.
  intros Hassert Hi H.
  destruct (defer_surface_creation_ s) eqn:Hdefer.
  { rewrite (Hassert eq_refl).
    unfold Reset in H. unfold_monad H. rewrite Hdefer in H. cbn in H.
    simplify_eq. cbn. unfold count_records. cbn. split; lia. }
  clear Hassert.
  pose proof (count_cancelled_end_of_bitstream i
                (pending_bitstream_records_ s) (trace s) Hi) as Hc1.
  pose proof (count_cancelled_picture_ready
                (pending_bitstream_records_ s) (trace s)) as Hc2.
  unfold Reset, StartCodecDrain, DecodeBuffer in H.
  unfold_monad H.
  exec_with H
    ltac:(fun H => rewrite ?Hdefer in H;
                   rewrite ?Reset_loop_spec in H by reflexivity;
                   unfold_setters H; cbn in H)
    ltac:(fun E =>
      first [ apply (DoIOTask_step env i) in E
            | (apply (ResetCodecState_low env i) in E; open_in E)
            | tidy E ]).
  all: simplify_eq.
  all: repeat match goal with
         | H : _ ∧ _ |- _ => destruct H
         | H : Draining ?x → _ |- _ =>
             let D := fresh "D" in
             assert (D : Draining x)
               by (split; [repeat constructor | left; reflexivity]);
             specialize (H D)
         end.
  all: unfold Quiet in *; cbn in *; destruct_and?.
  all: first [ (split; lia) | idtac ].
Qed.

(** *** Destroy *)








End ResetAndDestroy.

(** ** Initialize *)

Section InitializeFacts.
Variable env : Env.
Local Open Scope Z_scope.

Lemma unsupported_codec_test codec :
  ¬ supported_codec env codec →
  bool_decide (codec ≠ kCodecVP8) && bool_decide (codec ≠ kCodecVP9) &&
  (if ENABLE_HEVC_DEMUXING env then bool_decide (codec ≠ kCodecHEVC)
   else true) &&
  bool_decide (codec ≠ kCodecH264) = true.
Proof.
  unfold supported_codec. intros H.
  destruct (ENABLE_HEVC_DEMUXING env); destruct codec;
    first [ reflexivity | (exfalso; apply H; auto) ].
Qed.

(** C8, amended. Initialize returns false, builds no codec and emits
    nothing when the output mode is not ALLOCATE or the codec is not one of
    H264, VP8, VP9 (HEVC when enabled). It does not look at the coded size:
    the limit of 3840x2160 is checked by ConfigSupported only, which accepts
    supported codecs within that size. *)
Theorem C8_initialize_rejects_mode_and_codec
    (config : Config) (client : bool) (s : MCVD) :
  (output_mode config ≠ ALLOCATE ∨
   ¬ supported_codec env (VideoCodecProfileToVideoCodec env (profile config)) →
   ∀ o s', Initialize env config client s = (o, s') →
     o = Returns false ∧ media_codec_ s' = media_codec_ s ∧
     trace s' = trace s) ∧
  (∀ platform vdc, ConfigSupported env platform vdc = true →
     supported_codec env (vdc_codec vdc) ∧
     width (vdc_coded_size vdc) ≤ 3840 ∧
     height (vdc_coded_size vdc) ≤ 2160).
Proof.
  split.
  - intros Hbad o s' H.
    assert (Htest :
      bool_decide (output_mode config ≠ ALLOCATE) = true ∨
      bool_decide (output_mode config ≠ ALLOCATE) = false ∧
      ¬ supported_codec env
          (VideoCodecProfileToVideoCodec env (profile config))).
    { destruct Hbad as [Hbad|Hbad].
      - left. by apply bool_decide_eq_true.
      - case_bool_decide; [by left | by right]. }
    unfold Initialize in H. unfold_monad H.
    destruct Htest as [Hm | [Hm Hc]].
    + exec_with H ltac:(fun H => rewrite ?Hm in H; cbn in H) tidy.
      all: simplify_eq; cbn; split_and!; done.
    + apply unsupported_codec_test in Hc.
      exec_with H ltac:(fun H => rewrite ?Hm, ?Hc in H; cbn in H) tidy.
      all: simplify_eq; cbn; split_and!; done.
  - intros platform vdc H.
    unfold ConfigSupported in H.
    destruct (IsMediaCodecSoftwareDecodingForbidden vdc &&
              IsKnownUnaccelerated platform (vdc_codec vdc)); [done|].
    destruct (_ || _) eqn:Esize; [done|].
    apply orb_false_iff in Esize as [E1 E2].
    apply Z.ltb_ge in E1. apply Z.ltb_ge in E2.
    split_and!; try done.
    unfold supported_codec.
    destruct (vdc_codec vdc) eqn:Ec; try done; auto.
Qed.

End InitializeFacts.

Local Open Scope Z_scope.

(** C7. With a codec that takes every input and has no output yet,
    thirty-three Decode calls leave thirty-three inputs notified in advance,
    one more than kMaxBitstreamsNotifiedInAdvance: QueueInput refuses only
    when the count is above the limit, not when it is at the limit. *)
Theorem C7_limit_is_exceeded_by_one :
  ∃ s',
    decodes accepting_env 2 (example_buffers 33) (example_decoder kCodecH264) =
      (Returns tt, s') ∧
    length (bitstreams_notified_in_advance_ s') =
      S kMaxBitstreamsNotifiedInAdvance.
Proof.
  eexists. split; [vm_compute; reflexivity | vm_compute; reflexivity].
Qed.

(** ** The claims at concrete decoders *)

Local Open Scope Z_scope.

Lemma reports_try_again_busy : reports_try_again busy_env.
Proof. split; intros n; reflexivity. Qed.

Lemma reports_try_again_no_surface : reports_try_again no_surface_env.
Proof. split; intros n; reflexivity. Qed.

(** C1 at a decoder with one input queued and a codec without the key. *)
Lemma C1_no_key_keeps_input_and_retries_witness :
  let r1 := QueueInput no_key_env (decoder_with_input kCodecH264) in
  let r2 := OnKeyAdded no_key_env 1 r1.2 in
  r1.1 = Returns false ∧ state_ r1.2 = WAITING_FOR_KEY ∧
  pending_input_buf_index_ r1.2 = 0 ∧
  Codec (MediaCodec.QueueInputBuffer 0 None 1000 40) ::
    PictureBuffers PictureBufferManager.MaybeRenderEarly :: trace r1.2
    `suffix_of` trace r2.2.
Proof.
  intros r1 r2.
  destruct (C1_no_key_keeps_input_and_retries no_key_env
              (decoder_with_input kCodecH264) 0
              (make_BitstreamRecord (example_buffer 7 40)) [] 107 0)
    with (o1 := r1.1) (s1 := r1.2) as (H1 & H2 & _ & H3 & _ & H4);
    [ discriminate | discriminate | discriminate | reflexivity
    | cbn; lia | reflexivity | cbn; lia | reflexivity | reflexivity
    | reflexivity | lia | reflexivity | reflexivity
    | apply surjective_pairing | ].
  split_and!; [exact H1 | exact H2 | exact H3 |].
  exact (H4 r2.1 r2.2 (surjective_pairing r2)).
Defined.

(** C1 as worded fails: the second submission carries no payload
    reference, so it is not the call that was made first. *)
Lemma C1_as_stated_fails : ¬ C1_as_stated.
Proof.
  intros H.
  pose (r1 := QueueInput no_key_env (decoder_with_input kCodecH264)).
  pose (r2 := OnKeyAdded no_key_env 1 r1.2).
  destruct (H no_key_env (decoder_with_input kCodecH264) 0%nat
              r1.1 r1.2 r2.1 r2.2) as (call & rest & Q1 & Q2).
  - done.
  - apply surjective_pairing.
  - vm_compute. reflexivity.
  - apply surjective_pairing.
  - vm_compute in Q1, Q2. simplify_eq.
Qed.

(** C2 at a decoder with the input 7 queued. *)
Lemma C2_reset_cancels_each_queued_input_witness :
  let s := decoder_with_input kCodecH264 in
  count (is_end_of_bitstream 7) (trace (Reset busy_env 2 s).2) =
    (count (is_end_of_bitstream 7) (trace s) +
     count_records 7 (pending_bitstream_records_ s))%nat ∧
  count is_picture_ready (trace (Reset busy_env 2 s).2) =
    count is_picture_ready (trace s).
Proof.
  intros s.
  apply (C2_reset_cancels_each_queued_input busy_env s 2 7
           (Reset busy_env 2 s).1 (Reset busy_env 2 s).2);
    [intros Hdefer; discriminate Hdefer | lia | apply surjective_pairing].
Defined.

(** C3 at a decoder with one input queued and a busy codec. *)
Lemma C3_idle_io_step_twice_changes_nothing_witness :
  let s := decoder_with_input kCodecH264 in
  let r1 := DoIOTask busy_env 1 true s in
  let r2 := DoIOTask busy_env 1 false r1.2 in
  io_fields r2.2 = io_fields s ∧
  count is_client_notification (trace r2.2) =
    count is_client_notification (trace s).
Proof.
  intros s r1 r2.
  apply (C3_idle_io_step_twice_changes_nothing busy_env s 0 true false
           r1.1 r2.1 r1.2 r2.2);
    [ split; intros n; reflexivity | reflexivity | left; reflexivity
    | apply surjective_pairing | apply surjective_pairing ].
Defined.

(** C3 as worded fails: with a surface switch pending and no surface to
    be had, the I/O step reports an error although the codec only says
    try_again. *)
Lemma C3_as_stated_fails : ¬ C3_as_stated.
Proof.
  intros H.
  pose (r1 := DoIOTask no_surface_env 1 false decoder_with_pending_surface).
  pose (r2 := DoIOTask no_surface_env 1 false r1.2).
  destruct (H no_surface_env decoder_with_pending_surface 0%nat false false
              r1.1 r1.2 r2.1 r2.2) as [_ Q].
  - exact reports_try_again_no_surface.
  - apply surjective_pairing.
  - apply surjective_pairing.
  - vm_compute in Q. discriminate.
Qed.

(** C4 at a decoder draining for reset whose codec fails on input. *)
Lemma C4_input_error_while_draining_stalls_drain_witness :
  let s := decoder_draining_for_reset in
  let r := DoIOTask input_error_env 1 false s in
  r.1 = Returns tt ∧ state_ r.2 = ERROR ∧
  drain_type_ r.2 = DRAIN_FOR_RESET ∧
  count is_client_error (trace r.2) = 1%nat ∧
  count is_post_reset_done (trace r.2) = 0%nat ∧
  polls input_error_env [3; 3; 3]%nat r.2 = (Returns tt, r.2).
Proof.
  intros s r.
  destruct (C4_input_error_while_draining_stalls_drain input_error_env s 0
              false (make_BitstreamRecord eos_BitstreamBuffer) [])
    with (o := r.1) (s' := r.2) as (H1 & H2 & H3 & _ & H4 & H5 & _ & H6);
    [ reflexivity | reflexivity | reflexivity | cbn; lia | reflexivity
    | reflexivity | reflexivity | apply surjective_pairing | ].
  split_and!; [exact H1 | exact H2 | exact H3 | exact H4 | exact H5 |].
  exact (H6 [3; 3; 3]%nat).
Defined.

(** The same error on the output side completes the drain. *)
Lemma DequeueOutput_loop_error_completes_drain_witness :
  let s := decoder_draining_for_reset in
  let r := DequeueOutput_loop output_error_env 1 0 0 false s in
  r.1 = Returns (Return false) ∧
  count is_client_error (trace r.2) = count is_client_error (trace s) ∧
  drain_type_ r.2 = DRAIN_TYPE_NONE.
Proof.
  intros s r.
  destruct (DequeueOutput_loop_error_completes_drain output_error_env s 0
              0 0 false) with (o := r.1) (s' := r.2) as (H1 & H2 & H3 & _);
    [ reflexivity | reflexivity | reflexivity
    | right; split; [discriminate | intros; reflexivity]
    | apply surjective_pairing | ].
  split_and!; [exact H1 | exact H2 | exact H3].
Defined.




(** C8 at a configuration in IMPORT mode. *)
Lemma C8_initialize_rejects_mode_and_codec_witness :
  let r := Initialize busy_env import_config true new_decoder in
  r.1 = Returns false ∧ media_codec_ r.2 = media_codec_ new_decoder ∧
  trace r.2 = trace new_decoder.
Proof.
  intros r.
  apply (proj1 (C8_initialize_rejects_mode_and_codec busy_env import_config
                  true new_decoder));
    [left; done | apply surjective_pairing].
Defined.

(** C8 as worded fails: Initialize accepts a coded size of 8000x8000. *)
Lemma C8_as_stated_fails : ¬ C8_as_stated.
Proof.
  intros H.
  pose (config := example_config 0 {| width := 8000; height := 8000 |}).
  pose (r := Initialize busy_env config true new_decoder).
  destruct (H busy_env config true new_decoder r.2) as (_ & Q & _).
  - vm_compute. reflexivity.
  - vm_compute in Q. by apply Q.
Qed.

(** ** Further properties: the pure parts *)

Section PureFacts.
Variable env : Env.
Local Open Scope Z_scope.

(** *** The pending timestamp map: assignment *)

Lemma ts_assign_above k t v m :
  k < t → Forall (λ e, k < e.1) m → Forall (λ e, k < e.1) (ts_assign t v m).
Proof.
  intros Hk. induction m as [|[k0 w] m IH]; intros H; simpl.
  - apply Forall_cons. split; [done|apply Forall_nil; done].
  - apply Forall_cons in H as [H1 H2]. simpl in H1.
    destruct (t <? k0); [|destruct (t =? k0)].
    + apply Forall_cons. split; [done|]. apply Forall_cons. by split.
    + apply Forall_cons. by split.
    + apply Forall_cons. split; [done|]. by apply IH.
Qed.

(** The assignment [bitstream_buffers_in_decoder_[t] = v] of QueueInput:
    the map stays in key order, the lookup at [t] then gives [v], and the
    lookup at any other key is as before. *)
Theorem ts_assign_then_find (t v : Z) (m : TimestampMap) :
  ts_sorted m →
  ts_sorted (ts_assign t v m) ∧
  ts_find t (ts_assign t v m) = Some v ∧
  ∀ k, k ≠ t → ts_find k (ts_assign t v m) = ts_find k m.
Proof.
  induction m as [|[k0 w] m IH]; intros Hs.
  - simpl. rewrite Z.eqb_refl. split; [|split].
    + split; [apply Forall_nil|]; done.
    + done.
    + intros k Hk. destruct (t =? k) eqn:E; [lia|done].
  - destruct Hs as [Hlt Hs]. destruct (IH Hs) as (IH1 & IH2 & IH3).
    simpl. destruct (t <? k0) eqn:E1; [|destruct (t =? k0) eqn:E2].
    + simpl. rewrite Z.eqb_refl. split; [|split].
      * split; [|by split]. apply Forall_cons. split; [simpl; lia|].
        eapply Forall_impl; [exact Hlt|]. intros e He. simpl in *. lia.
      * done.
      * intros k Hk. destruct (t =? k) eqn:E; [lia|done].
    + apply Z.eqb_eq in E2. subst k0. simpl. rewrite Z.eqb_refl.
      split; [|split].
      * by split.
      * done.
      * intros k Hk. destruct (t =? k) eqn:E; [lia|done].
    + simpl. destruct (k0 =? t) eqn:E3; [lia|].
      split; [|split].
      * split; [|done]. apply ts_assign_above; [lia|done].
      * done.
      * intros k Hk. destruct (k0 =? k); [done|]. by apply IH3.
Qed.

(** *** The ids notified in advance: the erasure on output *)

Lemma erase_through_first_absent i l :
  i ∉ l → erase_through_first i l = None.
Proof.
  induction l as [|x l IH]; intros H; [done|]. simpl.
  apply not_elem_of_cons in H as [H1 H2].
  destruct (x =? i) eqn:E; [lia|]. by apply IH.
Qed.

Lemma erase_through_first_present i a b :
  i ∉ a → erase_through_first i (a ++ i :: b) = Some b.
Proof.
  induction a as [|x a IH]; intros H; simpl.
  - by rewrite Z.eqb_refl.
  - apply not_elem_of_cons in H as [H1 H2].
    destruct (x =? i) eqn:E; [lia|]. by apply IH.
Qed.

Lemma erase_through_first_shorter i l b :
  erase_through_first i l = Some b → (length b < length l)%nat.
Proof.
  revert b. induction l as [|x l IH]; intros b H; [done|]. simpl in *.
  destruct (x =? i).
  - injection H as <-. lia.
  - apply IH in H. lia.
Qed.

(** The pass over [bitstreams_notified_in_advance_] after a frame was sent
    for the bitstream buffer [i]: a list without [i] is left as it is;
    otherwise everything up to and including the first [i] goes and the
    rest stays; the list never grows. *)
Theorem erase_notified_drops_prefix (i : Z) (l : list Z) :
  (i ∉ l → erase_notified i l = l) ∧
  (∀ a b, l = a ++ i :: b → i ∉ a → erase_notified i l = b) ∧
  (length (erase_notified i l) ≤ length l)%nat.
Proof.
  unfold erase_notified. split_and!.
  - intros H. by rewrite erase_through_first_absent.
  - intros a b -> H. by rewrite erase_through_first_present.
  - destruct (erase_through_first i l) as [b|] eqn:E; simpl; [|lia].
    apply erase_through_first_shorter in E. lia.
Qed.

(** *** ConfigSupported *)

(** For an encrypted stream ConfigSupported says yes exactly when the coded
    size is within 3840x2160 and the codec is H264, or VP8 or VP9 with its
    decoder available, or HEVC where that is built in: there is no lower
    bound on the size and whether the codec is accelerated plays no part. *)
Theorem ConfigSupported_encrypted (platform : Platform)
    (config : VideoDecoderConfig) :
  vdc_is_encrypted config = true →
  (ConfigSupported env platform config = true ↔
   width (vdc_coded_size config) ≤ 3840 ∧
   height (vdc_coded_size config) ≤ 2160 ∧
   (vdc_codec config = kCodecH264 ∨
    (vdc_codec config = kCodecVP8 ∧ IsVp8DecoderAvailable platform = true) ∨
    (vdc_codec config = kCodecVP9 ∧ IsVp9DecoderAvailable platform = true) ∨
    (vdc_codec config = kCodecHEVC ∧ ENABLE_HEVC_DEMUXING env = true))).
Proof.
  intros Henc. unfold ConfigSupported, IsMediaCodecSoftwareDecodingForbidden.
  rewrite Henc. cbn [negb andb].
  destruct (3840 <? width (vdc_coded_size config)) eqn:Ew;
    [apply Z.ltb_lt in Ew | apply Z.ltb_ge in Ew]; cbn [orb].
  { split; [done|]. intros (? & _). lia. }
  destruct (2160 <? height (vdc_coded_size config)) eqn:Eh;
    [apply Z.ltb_lt in Eh | apply Z.ltb_ge in Eh]; cbn [orb].
  { split; [done|]. intros (_ & ? & _). lia. }
  destruct (vdc_codec config) eqn:Ec;
    destruct (IsVp8DecoderAvailable platform) eqn:E8;
    destruct (IsVp9DecoderAvailable platform) eqn:E9;
    destruct (ENABLE_HEVC_DEMUXING env) eqn:Ehevc;
    cbn; split; try done; try (intros _; split_and!; [lia|lia|]; auto 10);
    intros (_ & _ & H); repeat (destruct H as [H|H]); destruct_and?;
    congruence.
Qed.

(** A clear VP8 or VP9 stream narrower than 480 or lower than 360 is never
    supported, whatever the platform. *)
Theorem ConfigSupported_rejects_small_clear_vpx (platform : Platform)
    (config : VideoDecoderConfig) :
  vdc_codec config = kCodecVP8 ∨ vdc_codec config = kCodecVP9 →
  vdc_is_encrypted config = false →
  width (vdc_coded_size config) < 480 ∨
  height (vdc_coded_size config) < 360 →
  ConfigSupported env platform config = false.
Proof.
  intros Hc Henc Hsmall. unfold ConfigSupported.
  destruct (_ && _); [done|].
  destruct (_ || _); [done|].
  assert (Hs : (width (vdc_coded_size config) <? 480) ||
               (height (vdc_coded_size config) <? 360) = true).
  { apply orb_true_iff. destruct Hsmall; [left|right]; by apply Z.ltb_lt. }
  rewrite Henc, Hs.
  destruct Hc as [-> | ->]; cbn; repeat case_match; done.
Qed.

End PureFacts.

Local Open Scope Z_scope.

(** *** SetSurface *)

(** Of two SetSurface calls in a row only the second counts, and asking for
    the surface in use cancels a pending switch. *)
Theorem SetSurface_last_call_wins (a b : Z) (s : MCVD) :
  SetSurface b (SetSurface a s).2 = SetSurface b s ∧
  pending_surface_id_ (SetSurface (surface_id (config_ s)) (SetSurface a s).2).2
    = None ∧
  (b ≠ surface_id (config_ s) →
   pending_surface_id_ (SetSurface b s).2 = Some b).
Proof.
  unfold SetSurface, bind, gets, modify, set_pending_surface_id_.
  split_and!.
  - destruct (a =? surface_id (config_ s)); cbn;
      destruct (b =? surface_id (config_ s)); reflexivity.
  - destruct (a =? surface_id (config_ s)); cbn;
      rewrite Z.eqb_refl; reflexivity.
  - intros Hb. apply Z.eqb_neq in Hb. rewrite Hb. reflexivity.
Qed.

(** ** Further properties: input and the I/O step *)

Section InputMore.
Variable env : Env.
Local Open Scope Z_scope.

(** QueueInput and the limit on ids notified in advance: above the limit it
    returns false and leaves the decoder as it is; in any case the count
    afterwards is at most the count before or one above the limit,
    whichever is larger. *)
Theorem QueueInput_backpressure (s : MCVD) :
  ((kMaxBitstreamsNotifiedInAdvance <
      length (bitstreams_notified_in_advance_ s))%nat →
   state_ s ≠ ERROR → state_ s ≠ WAITING_FOR_CODEC →
   state_ s ≠ WAITING_FOR_KEY →
   QueueInput env s = (Returns false, s)) ∧
  (∀ o s', QueueInput env s = (o, s') →
     (length (bitstreams_notified_in_advance_ s') ≤
        length (bitstreams_notified_in_advance_ s) `max`
        S kMaxBitstreamsNotifiedInAdvance)%nat).
Proof.
  split.
  - intros Hn Hs1 Hs2 Hs3. apply Nat.ltb_lt in Hn.
    destruct (QueueInput env s) as [o s'] eqn:H.
    unfold QueueInput in H. unfold_monad H.
    exec_with H ltac:(fun H => rewrite ?Hn in H; cbn in H) tidy.
    all: simplify_eq.
    all: first [absurd_branch | reflexivity | idtac].
  - intros o s' H.
    unfold QueueInput in H. unfold_monad H.
    exec_in H tidy.
    all: simplify_eq.
    all: cbn; rewrite ?length_app; cbn.
    all: try match goal with
             | E : (_ <? _)%nat = false |- _ => apply Nat.ltb_ge in E
             end.
    all: unfold kMaxBitstreamsNotifiedInAdvance in *; lia.
Qed.

(** The end-of-stream marker at the front of the queue, with a codec input
    buffer at hand: it is taken off the queue and passed on with QueueEOS;
    QueueInput returns true, and nothing else changes: no notification, no
    entry in the timestamp map. *)
Theorem QueueInput_end_of_stream
    (s : MCVD) (front : BitstreamRecord) (rest : list BitstreamRecord)
    (idx : Z) :
  state_ s ≠ ERROR → state_ s ≠ WAITING_FOR_CODEC →
  state_ s ≠ WAITING_FOR_KEY →
  media_codec_ s = true →
  (length (bitstreams_notified_in_advance_ s) ≤
     kMaxBitstreamsNotifiedInAdvance)%nat →
  pending_bitstream_records_ s = front :: rest →
  id (buffer front) = -1 →
  pending_input_buf_index_ s = -1 →
  env_DequeueInputBuffer env (clock s) = (MEDIA_CODEC_OK, Some idx) →
  QueueInput env s =
    (Returns true,
     set_clock (S (clock s))
       (set_trace (Codec (MediaCodec.QueueEOS idx) ::
                   Codec MediaCodec.DequeueInputBuffer :: trace s)
          (set_pending_bitstream_records_ rest s))).
Proof.
  intros Hs1 Hs2 Hs3 Hc Hn Hp Hid Hidx Hdq.
  apply Nat.ltb_ge in Hn.
  destruct (QueueInput env s) as [o s'] eqn:H.
  unfold QueueInput in H. unfold_monad H.
  exec_with H
    ltac:(fun H => rewrite ?Hc, ?Hp, ?Hn, ?Hid, ?Hidx, ?Hdq in H; cbn in H)
    tidy.
  all: simplify_eq.
  all: first [absurd_branch | same_state | idtac].
Qed.

(** An input the codec accepts: the record leaves the queue, its timestamp
    is entered in the map with its id, one end_of_bitstream_buffer for the
    id is posted, the id joins those notified in advance, the input slot is
    free again and QueueInput returns true. *)
Theorem QueueInput_accepted
    (s : MCVD) (front : BitstreamRecord) (rest : list BitstreamRecord)
    (shm idx : Z) :
  state_ s ≠ ERROR → state_ s ≠ WAITING_FOR_CODEC →
  state_ s ≠ WAITING_FOR_KEY →
  media_codec_ s = true →
  (length (bitstreams_notified_in_advance_ s) ≤
     kMaxBitstreamsNotifiedInAdvance)%nat →
  pending_bitstream_records_ s = front :: rest →
  id (buffer front) ≠ -1 → memory front = Some shm →
  pending_input_buf_index_ s = -1 →
  env_DequeueInputBuffer env (clock s) = (MEDIA_CODEC_OK, Some idx) →
  env_Map env (S (clock s)) = true →
  env_QueueInputBuffer env (S (S (clock s))) = MEDIA_CODEC_OK →
  ∀ o s', QueueInput env s = (o, s') →
    o = Returns true ∧ state_ s' = state_ s ∧
    pending_bitstream_records_ s' = rest ∧
    pending_input_buf_index_ s' = -1 ∧
    bitstream_buffers_in_decoder_ s' =
      ts_assign (presentation_timestamp (buffer front)) (id (buffer front))
        (bitstream_buffers_in_decoder_ s) ∧
    bitstreams_notified_in_advance_ s' =
      bitstreams_notified_in_advance_ s ++ [id (buffer front)] ∧
    trace s' =
      PostTask (NotifyEndOfBitstreamBuffer (id (buffer front))) ::
      Codec (queue_call idx (Some shm) (buffer front)) ::
      Codec MediaCodec.DequeueInputBuffer :: trace s.
Proof.
  intros Hs1 Hs2 Hs3 Hc Hn Hp Hid Hm Hidx Hdq Hmap Hq o s' H.
  apply Nat.ltb_ge in Hn. apply Z.eqb_neq in Hid.
  unfold QueueInput in H. unfold_monad H.
  exec_with H
    ltac:(fun H => rewrite ?Hc, ?Hp, ?Hn, ?Hid, ?Hidx, ?Hdq, ?Hm, ?Hmap, ?Hq
                     in H; cbn in H) tidy.
  all: simplify_eq.
  all: first [absurd_branch | (cbn; split_and!; done) | idtac].
Qed.

End InputMore.

Section StepMore.
Variable env : Env.
Local Open Scope Z_scope.

(** Whatever the codec answers, an I/O step only adds to the trace, does
    not tear the decoder down or detach the client, and gives the codec up
    only by handing it to the allocator: what it holds and what it has
    released add up as before. *)
Theorem DoIOTask_keeps_decoder_and_codec
    (s : MCVD) (fuel : nat) (start_timer : bool) (o : Outcome unit)
    (s' : MCVD) :
  DoIOTask env fuel start_timer s = (o, s') →
  trace s `suffix_of` trace s' ∧
  deleted_ s' = deleted_ s ∧
  weak_ptrs_invalidated_ s' = weak_ptrs_invalidated_ s ∧
  client_ s' = client_ s ∧
  (held s' + count is_release (trace s') =
   held s + count is_release (trace s))%nat.
Proof.
  intros H. apply (DoIOTask_step env 0) in H as [F _]. exact F.
Qed.

(** While a drain for reset or destroy is under way and only end-of-stream
    markers are queued, an I/O step reports no picture and posts no
    end_of_bitstream_buffer, whatever the codec gives back; and it leaves
    the decoder in such a state again. *)
Theorem DoIOTask_discards_output_while_draining
    (s : MCVD) (fuel : nat) (start_timer : bool) (i : Z)
    (o : Outcome unit) (s' : MCVD) :
  Forall (λ r, id (buffer r) = -1) (pending_bitstream_records_ s) →
  IsDrainingForResetOrDestroy s = true →
  DoIOTask env fuel start_timer s = (o, s') →
  count is_picture_ready (trace s') = count is_picture_ready (trace s) ∧
  count (is_end_of_bitstream i) (trace s') =
    count (is_end_of_bitstream i) (trace s) ∧
  Forall (λ r, id (buffer r) = -1) (pending_bitstream_records_ s') ∧
  (IsDrainingForResetOrDestroy s' = true ∨
   bitstream_buffers_in_decoder_ s' = []).
Proof.
  intros Hq Hd H.
  apply (DoIOTask_step env i) in H as (_ & _ & C).
  destruct C as [[D1 D2] [Q1 Q2]]; [split; [exact Hq | by left]|].
  split_and!; done.
Qed.

End StepMore.

(** ** Further properties: Decode, surfaces, codec arrival *)

Arguments OnSurfaceDestroyed : simpl never.
Arguments Decode : simpl never.

(** Closing a leaf whose goal is a conjunction of equations between fields
    and counts. *)
Ltac close_leaf :=
  repeat match goal with
         | H : ¬ (_ ≠ _) |- _ => apply dec_stable in H
         end;
  repeat match goal with
         | E : ?x = _ |- context [?x] => rewrite E
         end;
  repeat case_bool_decide; simplify_eq; cbn; split_and!;
  first [done | lia | congruence].

Section CallsMore.
Variable env : Env.
Local Open Scope Z_scope.

(** Decode of a buffer with a negative id, with no deferred work at hand:
    the handle is closed if it is valid, the decoder goes to the error
    state and reports INVALID_ARGUMENT to its client if it has one; nothing
    is queued and the codec is not touched. *)
Theorem Decode_negative_id
    (s : MCVD) (fuel : nat) (b : BitstreamBuffer) :
  defer_surface_creation_ s = false → codec_needs_reset_ s = false →
  id b < 0 →
  ∀ o s', Decode env fuel b s = (o, s') →
    o = Returns tt ∧ state_ s' = ERROR ∧
    pending_bitstream_records_ s' = pending_bitstream_records_ s ∧
    bitstream_buffers_in_decoder_ s' = bitstream_buffers_in_decoder_ s ∧
    media_codec_ s' = media_codec_ s ∧
    trace s' =
      (if client_ s then [ClientNotifyError INVALID_ARGUMENT] else []) ++
      (if env_IsHandleValid env (clock s)
       then [SharedMemoryCloseHandle (handle b)] else []) ++ trace s.
Proof.
  intros Hd Hr Hid o s' H.
  assert (Hid1 : (0 <=? id b) = false) by (apply Z.leb_gt; lia).
  assert (Hid2 : (id b <? 0) = true) by (apply Z.ltb_lt; lia).
  unfold Decode in H. unfold_monad H.
  exec_with H ltac:(fun H => rewrite ?Hd, ?Hr, ?Hid1, ?Hid2 in H; cbn in H)
    tidy.
  all: simplify_eq.
  all: cbn; repeat match goal with
                   | E : _ = _ |- _ => rewrite E
                   end; cbn; split_and!; done.
Qed.

(** Decode of an empty buffer with a valid id, with no deferred work at
    hand: the handle is closed if it is valid and the buffer is
    acknowledged with a posted end_of_bitstream_buffer; nothing is queued,
    the state and the codec are not touched, no error is reported. *)
Theorem Decode_empty_buffer
    (s : MCVD) (fuel : nat) (b : BitstreamBuffer) :
  defer_surface_creation_ s = false → codec_needs_reset_ s = false →
  0 ≤ id b → size b = 0 →
  ∀ o s', Decode env fuel b s = (o, s') →
    o = Returns tt ∧ state_ s' = state_ s ∧
    pending_bitstream_records_ s' = pending_bitstream_records_ s ∧
    bitstream_buffers_in_decoder_ s' = bitstream_buffers_in_decoder_ s ∧
    media_codec_ s' = media_codec_ s ∧
    trace s' =
      PostTask (NotifyEndOfBitstreamBuffer (id b)) ::
      (if env_IsHandleValid env (clock s)
       then [SharedMemoryCloseHandle (handle b)] else []) ++ trace s.
Proof.
  intros Hd Hr Hid Hsz o s' H.
  assert (Hid1 : (0 <=? id b) = true) by (apply Z.leb_le; lia).
  assert (Hid2 : (id b <? 0) = false) by (apply Z.ltb_ge; lia).
  assert (Hsz1 : (0 <? size b) = false) by (apply Z.ltb_ge; lia).
  unfold Decode in H. unfold_monad H.
  exec_with H
    ltac:(fun H => rewrite ?Hd, ?Hr, ?Hid1, ?Hid2, ?Hsz1 in H; cbn in H) tidy.
  all: simplify_eq.
  all: cbn; repeat match goal with
                   | E : _ = _ |- _ => rewrite E
                   end; cbn; split_and!; done.
Qed.

(** UpdateSurface with a switch pending: the request is consumed and the
    surface in use before is deallocated last, whatever happens. Either
    every step succeeds, and the decoder now outputs to the new surface,
    with state and codec as before; or a step fails, and the decoder is in
    the error state, holds no codec any more and stays configured for the
    old surface. *)
Theorem UpdateSurface_switches_or_fails
    (s : MCVD) (new_surface : Z) :
  pending_surface_id_ s = Some new_surface →
  ∀ o s', UpdateSurface env s = (o, s') →
    pending_surface_id_ s' = None ∧
    (∃ tr, trace s' =
             Alloc (Allocator.DeallocateSurface (surface_id (config_ s))) ::
             tr) ∧
    ((o = Returns true ∧ surface_id (config_ s') = new_surface ∧
      state_ s' = state_ s ∧ media_codec_ s' = media_codec_ s) ∨
     (o = Returns false ∧ surface_id (config_ s') = surface_id (config_ s) ∧
      state_ s' = ERROR ∧ media_codec_ s' = false)).
Proof.
  intros Hp o s' H.
  unfold UpdateSurface in H. unfold_monad H.
  exec_with H ltac:(fun H => rewrite ?Hp in H; cbn in H) tidy.
  all: simplify_eq.
  all: cbn; split_and!; [done | by eexists |].
  all: first [ (left; split_and!; done) | (right; split_and!; done) | idtac ].
Qed.

Lemma ResetCodecState_skips s :
  state_ s = WAITING_FOR_CODEC ∨ state_ s = SURFACE_DESTROYED →
  ResetCodecState env s = (Returns tt, s).
Proof.
  intros Hs. unfold ResetCodecState, bind, gets, ret.
  destruct Hs as [-> | ->]; reflexivity.
Qed.

(** OnSurfaceDestroyed below API level 23: the decoder ends in
    SURFACE_DESTROYED without a codec, having released the one it held, and
    with no drain left pending: a drain that was under way is completed on
    the spot, which for a drain for destroy posts the teardown. No error is
    reported. *)
Theorem OnSurfaceDestroyed_before_api_23 (s : MCVD) :
  env_sdk_int env (clock s) < 23 →
  ∀ o s', OnSurfaceDestroyed env s = (o, s') →
    o = Returns tt ∧ state_ s' = SURFACE_DESTROYED ∧
    media_codec_ s' = false ∧ drain_type_ s' = DRAIN_TYPE_NONE ∧
    count is_release (trace s') =
      (count is_release (trace s) + held s)%nat ∧
    count is_post_destroy (trace s') =
      (count is_post_destroy (trace s) +
       if bool_decide (drain_type_ s = DRAIN_FOR_DESTROY) then 1 else 0)%nat ∧
    count is_client_error (trace s') = count is_client_error (trace s).
Proof.
  intros Hsdk o s' H.
  assert (Hsdk1 : (23 <=? env_sdk_int env (clock s)) = false)
    by (apply Z.leb_gt; lia).
  unfold OnSurfaceDestroyed, OnDrainCompleted in H. unfold_monad H.
  exec_with H
    ltac:(fun H => rewrite ?Hsdk1 in H;
                   rewrite ?ResetCodecState_skips in H by (right; reflexivity);
                   cbn in H)
    tidy.
  all: simplify_eq.
  all: unfold held; cbn; close_leaf.
Qed.

(** OnSurfaceDestroyed from API level 23 on: the codec buffers of the
    pictures are released and the decoder moves to a surface texture at
    once; the state is not SURFACE_DESTROYED afterwards unless it was so
    before. Either the move succeeds, with state and codec as before, or the
    decoder is in the error state without a codec. *)
Theorem OnSurfaceDestroyed_from_api_23 (s : MCVD) :
  23 ≤ env_sdk_int env (clock s) →
  ∀ o s', OnSurfaceDestroyed env s = (o, s') →
    o = Returns tt ∧ pending_surface_id_ s' = None ∧
    PictureBuffers PictureBufferManager.ReleaseCodecBuffers ∈ trace s' ∧
    ((surface_id (config_ s') = kNoSurfaceID ∧ state_ s' = state_ s ∧
      media_codec_ s' = media_codec_ s) ∨
     (state_ s' = ERROR ∧ media_codec_ s' = false)).
Proof.
  intros Hsdk o s' H.
  assert (Hsdk1 : (23 <=? env_sdk_int env (clock s)) = true)
    by (apply Z.leb_le; lia).
  unfold OnSurfaceDestroyed, UpdateSurface in H. unfold_monad H.
  exec_with H ltac:(fun H => rewrite ?Hsdk1 in H; cbn in H) tidy.
  all: simplify_eq.
  all: cbn; split_and!; [done | done | in_trace |].
  all: first [ (left; split_and!; done) | (right; split_and!; done) | idtac ].
Qed.

(** OnCodecConfigured: a deferred initialization is answered exactly once
    and is pending no more. If the surface was destroyed in the meantime
    the codec is not taken over and the state stays. Otherwise the decoder
    holds what it is given: with a codec it is in NO_ERROR and registered
    for polling, without one it is in the error state. *)
Theorem OnCodecConfigured_outcome
    (s : MCVD) (media_codec : bool) (o : Outcome unit) (s' : MCVD) :
  OnCodecConfigured env media_codec s = (o, s') →
  o = Returns tt ∧
  deferred_initialization_pending_ s' = false ∧
  count is_initialization_complete (trace s') =
    (count is_initialization_complete (trace s) +
     if deferred_initialization_pending_ s then 1 else 0)%nat ∧
  (state_ s = SURFACE_DESTROYED →
     state_ s' = SURFACE_DESTROYED ∧ media_codec_ s' = media_codec_ s) ∧
  (state_ s ≠ SURFACE_DESTROYED →
     media_codec_ s' = media_codec ∧
     state_ s' = (if media_codec then NO_ERROR else ERROR) ∧
     (media_codec = true →
      this_ s ∈ MCVDManager.timer_mcvd_instances_ (g_mcvd_manager s'))).
Proof.
  intros H.
  unfold OnCodecConfigured, ManageTimer in H. unfold_monad H.
  destruct media_codec.
  all: exec_with H ltac:(fun H => cbn in H) tidy.
  all: simplify_eq.
  all: cbn; repeat match goal with
                   | E : ?x = _ |- context [?x] => rewrite E
                   end; cbn.
  all: split_and!; try done; try lia.
  all: intros; split_and!; try done; intros; set_solver.
Qed.

End CallsMore.

(** ** Further properties: resetting *)

Section ResetMore.
Variable env : Env.
Local Open Scope Z_scope.

(** ResetCodecState, unless the decoder waits for a codec or has lost its
    surface: the timestamp map is emptied and the input slot freed; the
    queue and the drain type are left alone. After a codec error the codec
    is never flushed: the codec held, if any, is released once, the
    decoder holds none afterwards and either waits for a new one or is in
    the error state. After a flush drain without a codec error the codec
    is not touched at all: nothing is added to the trace, the codec stays,
    the state is NO_ERROR and the reset proper is put off to the next
    Decode. *)
Theorem ResetCodecState_clears_codec_bookkeeping (s : MCVD) :
  state_ s ≠ WAITING_FOR_CODEC → state_ s ≠ SURFACE_DESTROYED →
  ∀ o s', ResetCodecState env s = (o, s') →
    bitstream_buffers_in_decoder_ s' = [] ∧
    pending_input_buf_index_ s' = -1 ∧
    pending_bitstream_records_ s' = pending_bitstream_records_ s ∧
    drain_type_ s' = drain_type_ s ∧
    codec_needs_reset_ s' =
      bool_decide (drain_type_ s = DRAIN_FOR_FLUSH) &&
      negb (bool_decide (state_ s = ERROR)) ∧
    (state_ s = ERROR →
       o = Returns tt ∧ media_codec_ s' = false ∧
       (state_ s' = WAITING_FOR_CODEC ∨ state_ s' = ERROR) ∧
       count is_codec_flush (trace s') = count is_codec_flush (trace s) ∧
       count is_release (trace s') =
         (count is_release (trace s) + held s)%nat) ∧
    (drain_type_ s = DRAIN_FOR_FLUSH → state_ s ≠ ERROR →
       o = Returns tt ∧ trace s' = trace s ∧
       media_codec_ s' = media_codec_ s ∧ clock s' = clock s ∧
       state_ s' = NO_ERROR).
Proof.
  intros Hs1 Hs2 o s' H.
  unfold ResetCodecState, ConfigureMediaCodecAsynchronously,
    OnCodecConfigured, ManageTimer in H.
  unfold_monad H.
  exec_with H ltac:(fun H => cbn in H) tidy.
  all: simplify_eq.
  all: unfold held.
  all: cbn; repeat case_bool_decide; simplify_eq; cbn.
  all: split_and!; try done.
  all: try (intros; split_and!;
            first [ by auto
                  | (repeat match goal with
                       | E : media_codec_ _ = _ |- _ => rewrite E
                     end; cbn; lia) ]).
  all: bools; zbool; lia.
Qed.

(** Unless surface creation is still deferred, Reset leaves no input in
    the queue: whatever is queued afterwards is the end-of-stream marker of
    the drain it started. *)
Theorem Reset_leaves_no_input_queued
    (s : MCVD) (fuel : nat) (o : Outcome unit) (s' : MCVD) :
  defer_surface_creation_ s = false →
  Reset env fuel s = (o, s') →
  Forall (λ r, id (buffer r) = -1) (pending_bitstream_records_ s').
Proof.
  intros Hdefer H.
  unfold Reset, StartCodecDrain, DecodeBuffer in H.
  unfold_monad H.
  exec_with H
    ltac:(fun H => rewrite ?Hdefer in H;
                   rewrite ?Reset_loop_spec in H by reflexivity;
                   unfold_setters H; cbn in H)
    ltac:(fun E =>
      first [ apply (DoIOTask_step env 0) in E
            | (apply (ResetCodecState_low env 0) in E; open_in E)
            | tidy E ]).
  all: simplify_eq.
  all: repeat match goal with
         | H : _ ∧ _ |- _ => destruct H
         | H : Draining ?x → _ |- _ =>
             let D := fresh "D" in
             assert (D : Draining x)
               by (split; [repeat constructor | left; reflexivity]);
             specialize (H D)
         end.
  all: unfold Draining, all_eos in *; cbn in *; destruct_and?.
  all: first [ assumption | (apply Forall_nil; done)
             | (match goal with E : _ = [] |- _ => rewrite E end;
                apply Forall_nil; done)
             | idtac ].

Qed.

End ResetMore.

(** ** Further properties: Initialize *)

Section InitializeMore.
Variable env : Env.
Local Open Scope Z_scope.

(** Initialize, called as it must be on a decoder without a codec, never
    leaves the decoder with one: a codec is only ever asked for
    asynchronously, and none is released. When Initialize returns true the
    client and the configuration are recorded, and the output mode was
    ALLOCATE. *)
Theorem Initialize_builds_no_codec
    (config : Config) (client : bool) (s : MCVD) :
  media_codec_ s = false →
  ∀ o s', Initialize env config client s = (o, s') →
    media_codec_ s' = false ∧
    count is_release (trace s') = count is_release (trace s) ∧
    (o = Returns true →
       client_ s' = client ∧ config_ s' = config ∧
       output_mode config = ALLOCATE).
Proof.
  intros Hc o s' H.
  unfold Initialize, ShouldDeferSurfaceCreation,
    InitializePictureBufferManager, InitializeCdm,
    ConfigureMediaCodecAsynchronously, OnCodecConfigured, ManageTimer in H.
  unfold_monad H.
  exec_with H ltac:(fun H => rewrite ?Hc in H; cbn in H) tidy.
  all: simplify_eq.
  all: cbn; split_and!; try done.
  all: try (intros; simplify_eq; split_and!; first [done | by apply dec_stable]).
Qed.

End InitializeMore.

(** ** The further properties at concrete decoders *)

Local Open Scope Z_scope.

(** Discharging a premise at a concrete decoder. *)
Ltac at_example :=
  first [ apply surjective_pairing | discriminate | reflexivity | lia
        | (cbn; lia) ].

(** The assignment at 5 into a map with entries at 1 and 9. *)
Lemma ts_assign_then_find_witness :
  ts_sorted (ts_assign 5 11 [(1, 10); (9, 12)]) ∧
  ts_find 5 (ts_assign 5 11 [(1, 10); (9, 12)]) = Some 11.
Proof.
  destruct (ts_assign_then_find 5 11 [(1, 10); (9, 12)]) as (H1 & H2 & _).
  - cbn. repeat first [split | apply Forall_cons | apply Forall_nil];
      cbn; lia.
  - split; [exact H1 | exact H2].
Defined.

(** An encrypted VP8 stream of 100x100 on a platform with a software VP8
    decoder. *)
Lemma ConfigSupported_encrypted_witness :
  ConfigSupported busy_env example_platform
    (example_vdc kCodecVP8 100 100 true) = true.
Proof.
  apply (ConfigSupported_encrypted busy_env example_platform
           (example_vdc kCodecVP8 100 100 true)); [reflexivity|].
  cbn. split_and!; [lia | lia |]. right. left. split; reflexivity.
Defined.

(** A clear VP9 stream of 320x240. *)
Lemma ConfigSupported_rejects_small_clear_vpx_witness :
  ConfigSupported busy_env example_platform
    (example_vdc kCodecVP9 320 240 false) = false.
Proof.
  apply (ConfigSupported_rejects_small_clear_vpx busy_env example_platform
           (example_vdc kCodecVP9 320 240 false));
    [right; reflexivity | reflexivity | left; cbn; lia].
Defined.

(** The end-of-stream marker at a codec that takes input. *)
Lemma QueueInput_end_of_stream_witness :
  QueueInput accepting_env decoder_with_eos =
    (Returns true,
     set_clock 1
       (set_trace [Codec (MediaCodec.QueueEOS 0);
                   Codec MediaCodec.DequeueInputBuffer]
          (set_pending_bitstream_records_ [] decoder_with_eos))).
Proof.
  apply (QueueInput_end_of_stream accepting_env decoder_with_eos
           (make_BitstreamRecord eos_BitstreamBuffer) [] 0); at_example.
Defined.

(** The input 7 at a codec that takes input. *)
Lemma QueueInput_accepted_witness :
  let r := QueueInput accepting_env (decoder_with_input kCodecH264) in
  r.1 = Returns true ∧ pending_bitstream_records_ r.2 = [] ∧
  bitstream_buffers_in_decoder_ r.2 = [(40, 7)] ∧
  bitstreams_notified_in_advance_ r.2 = [7].
Proof.
  intros r.
  destruct (QueueInput_accepted accepting_env (decoder_with_input kCodecH264)
              (make_BitstreamRecord (example_buffer 7 40)) [] 107 0)
    with (o := r.1) (s' := r.2) as (H1 & _ & H2 & _ & H3 & H4 & _);
    [at_example .. |].
  split_and!; [exact H1 | exact H2 | exact H3 | exact H4].
Defined.

(** An I/O step at a codec that gives a frame for an input queued. *)
Lemma DoIOTask_keeps_decoder_and_codec_witness :
  let s := decoder_with_input kCodecH264 in
  let r := DoIOTask frame_env 3 true s in
  deleted_ r.2 = deleted_ s ∧ client_ r.2 = client_ s.
Proof.
  intros s r.
  destruct (DoIOTask_keeps_decoder_and_codec frame_env s 3 true r.1 r.2)
    as (_ & H1 & _ & H2 & _); [apply surjective_pairing|].
  split; [exact H1 | exact H2].
Defined.

(** An I/O step during a drain for reset at a codec that gives a frame. *)
Lemma DoIOTask_discards_output_while_draining_witness :
  let s := decoder_draining_for_reset in
  let r := DoIOTask frame_env 3 false s in
  count is_picture_ready (trace r.2) = count is_picture_ready (trace s).
Proof.
  intros s r.
  destruct (DoIOTask_discards_output_while_draining frame_env s 3 false 0
              r.1 r.2) as (H1 & _).
  - repeat constructor.
  - reflexivity.
  - apply surjective_pairing.
  - exact H1.
Defined.

(** Decode of a buffer with id -5. *)
Lemma Decode_negative_id_witness :
  let r := Decode busy_env 1 (example_buffer (-5) 0)
             (example_decoder kCodecH264) in
  r.1 = Returns tt ∧ state_ r.2 = ERROR ∧
  pending_bitstream_records_ r.2 = [].
Proof.
  intros r.
  destruct (Decode_negative_id busy_env (example_decoder kCodecH264) 1
              (example_buffer (-5) 0)) with (o := r.1) (s' := r.2)
    as (H1 & H2 & H3 & _); [at_example .. |].
  split_and!; [exact H1 | exact H2 | exact H3].
Defined.

(** Decode of an empty buffer with id 3. *)
Lemma Decode_empty_buffer_witness :
  let b := {| id := 3; handle := 103; size := 0;
              presentation_timestamp := 30; key_id := EmptyString;
              iv := EmptyString; subsamples := [] |} in
  let r := Decode busy_env 1 b (example_decoder kCodecH264) in
  r.1 = Returns tt ∧ state_ r.2 = NO_ERROR ∧
  pending_bitstream_records_ r.2 = [].
Proof.
  intros b r.
  destruct (Decode_empty_buffer busy_env (example_decoder kCodecH264) 1 b)
    with (o := r.1) (s' := r.2) as (H1 & H2 & H3 & _); [at_example .. |].
  split_and!; [exact H1 | exact H2 | exact H3].
Defined.

(** The switch to surface 5. *)
Lemma UpdateSurface_switches_or_fails_witness :
  pending_surface_id_ (UpdateSurface busy_env decoder_with_pending_surface).2
    = None.
Proof.
  destruct (UpdateSurface_switches_or_fails busy_env
              decoder_with_pending_surface 5)
    with (o := (UpdateSurface busy_env decoder_with_pending_surface).1)
         (s' := (UpdateSurface busy_env decoder_with_pending_surface).2)
    as (H1 & _); [at_example .. |].
  exact H1.
Defined.

(** The surface goes away at API level 18 during a drain for reset. *)
Lemma OnSurfaceDestroyed_before_api_23_witness :
  let r := OnSurfaceDestroyed busy_env decoder_draining_for_reset in
  r.1 = Returns tt ∧ state_ r.2 = SURFACE_DESTROYED ∧
  media_codec_ r.2 = false ∧ drain_type_ r.2 = DRAIN_TYPE_NONE.
Proof.
  intros r.
  destruct (OnSurfaceDestroyed_before_api_23 busy_env
              decoder_draining_for_reset) with (o := r.1) (s' := r.2)
    as (H1 & H2 & H3 & H4 & _); [at_example .. |].
  split_and!; [exact H1 | exact H2 | exact H3 | exact H4].
Defined.

(** The surface goes away at API level 23. *)
Lemma OnSurfaceDestroyed_from_api_23_witness :
  let r := OnSurfaceDestroyed marshmallow_env (example_decoder kCodecH264) in
  r.1 = Returns tt ∧ pending_surface_id_ r.2 = None.
Proof.
  intros r.
  destruct (OnSurfaceDestroyed_from_api_23 marshmallow_env
              (example_decoder kCodecH264)) with (o := r.1) (s' := r.2)
    as (H1 & H2 & _); [at_example .. |].
  split; [exact H1 | exact H2].
Defined.

(** A codec arrives at a decoder that is not waiting for its initialization
    to be answered. *)
Lemma OnCodecConfigured_outcome_witness :
  let r := OnCodecConfigured busy_env true (example_decoder kCodecH264) in
  r.1 = Returns tt ∧ deferred_initialization_pending_ r.2 = false.
Proof.
  intros r.
  destruct (OnCodecConfigured_outcome busy_env (example_decoder kCodecH264)
              true r.1 r.2) as (H1 & H2 & _); [apply surjective_pairing|].
  split; [exact H1 | exact H2].
Defined.

(** The codec state is reset with an input inside the codec. *)
Lemma ResetCodecState_clears_codec_bookkeeping_witness :
  let r := ResetCodecState busy_env (decoder_awaiting_output kCodecH264) in
  bitstream_buffers_in_decoder_ r.2 = [] ∧ pending_input_buf_index_ r.2 = -1.
Proof.
  intros r.
  destruct (ResetCodecState_clears_codec_bookkeeping busy_env
              (decoder_awaiting_output kCodecH264))
    with (o := r.1) (s' := r.2) as (H1 & H2 & _); [at_example .. |].
  split; [exact H1 | exact H2].
Defined.

(** Reset with the input 7 queued. *)
Lemma Reset_leaves_no_input_queued_witness :
  Forall (λ r, id (buffer r) = -1)
    (pending_bitstream_records_
       (Reset busy_env 2 (decoder_with_input kCodecH264)).2).
Proof.
  apply (Reset_leaves_no_input_queued busy_env
           (decoder_with_input kCodecH264) 2
           (Reset busy_env 2 (decoder_with_input kCodecH264)).1);
    [reflexivity | apply surjective_pairing].
Defined.

(** Initialize of a new decoder for H264. *)
Lemma Initialize_builds_no_codec_witness :
  media_codec_
    (Initialize busy_env (example_config 0 example_size) true new_decoder).2
    = false.
Proof.
  destruct (Initialize_builds_no_codec busy_env
              (example_config 0 example_size) true new_decoder)
    with (o := (Initialize busy_env (example_config 0 example_size) true
                  new_decoder).1)
         (s' := (Initialize busy_env (example_config 0 example_size) true
                   new_decoder).2) as (H1 & _); [at_example .. |].
  exact H1.
Defined.
